(** * Course platform backend: drip release, refund window, access gating

    A shallow embedding of the controllers of the course platform
    ([userController.js], [authController.js], [adminController.js],
    [brevo.js], [database.js]) together with the parts of the JavaScript
    platform they rely on ([Date], [JSON], [String.prototype.split],
    [parseInt]).

    Conventions.
    - A JavaScript string is the list of its UTF-16 code units ([jsstring]).
    - A time value is an integer number of milliseconds since the epoch;
      a [Date] object is [option Z], [None] being the invalid date (NaN).
    - A relational table is the list of its rows.
    - Handlers are computations over the [World] (database, object store,
      mail outbox) that may throw; the [try]/[catch] of each handler turns a
      throw into its 500 response and keeps the writes made before it.

    What lies outside the program is taken as follows.
    - The database answers every statement; a statement fails only on a
      constraint of the schema (unique key, foreign key, range of a column),
      and a text fits its column.
    - A TIMESTAMP column is read back as the instant that was stored. The
      JSON column [links] holds the document of the text bound to it, and
      the pool of [database.js] (mysql2, no [jsonStrings] option) hands
      that document over decoded, as a value and not as its text.
    - The ids of a request (JSON body, path) are numbers.
    - The clock is read once for a request; the program reads it anew for
      every lesson and every purchase of a listing, where one reading is
      what the callback of that lesson or purchase sees.
    - A handler is a function of the store it starts on. Requests are
      served concurrently and a handler awaits between its statements:
      the refund request is therefore also given cut at the [await] of
      its INSERT, and the states the routes can produce count every INSERT
      on the two ledgers as a step of its own ([reachable]).
    - The time zone of the host, the verification of a token, the mail
      service and the object store are parameters ([Host], [Env]). *)

From Stdlib Require Import String Ascii.
From Stdlib Require Import ZArith NArith List Bool Lia.
From Stdlib Require Import Permutation Sorted.
Import ListNotations.
Local Open Scope Z_scope.
Set Warnings "-register-all".


(* ===================================================================== *)
(** * Part I. Definitions                                                 *)
(* ===================================================================== *)

(** ** JavaScript strings *)

Abbreviation char16 := N (only parsing).
Abbreviation jsstring := (list N) (only parsing).

(** The code units of text given as UTF-8 bytes: the literals of this file
    are written in UTF-8, the strings of the program are UTF-16. *)
Fixpoint utf16_of_utf8 (bs : list N) : jsstring :=
  match bs with
  | [] => []
  | b0 :: r0 =>
      if (b0 <? 192)%N then b0 :: utf16_of_utf8 r0
      else if (b0 <? 224)%N then
        match r0 with
        | b1 :: r1 => ((b0 - 192) * 64 + (b1 - 128))%N :: utf16_of_utf8 r1
        | [] => [b0]
        end
      else if (b0 <? 240)%N then
        match r0 with
        | b1 :: b2 :: r2 =>
            ((b0 - 224) * 4096 + (b1 - 128) * 64 + (b2 - 128))%N
              :: utf16_of_utf8 r2
        | _ => b0 :: utf16_of_utf8 r0
        end
      else
        match r0 with
        | b1 :: b2 :: b3 :: r3 =>
            let cp := ((b0 - 240) * 262144 + (b1 - 128) * 4096
                       + (b2 - 128) * 64 + (b3 - 128) - 65536)%N in
            (55296 + cp / 1024)%N :: (56320 + cp mod 1024)%N
              :: utf16_of_utf8 r3
        | _ => b0 :: utf16_of_utf8 r0
        end
  end.

Definition js (s : string) : jsstring :=
  utf16_of_utf8 (List.map N_of_ascii (list_ascii_of_string s)).
Arguments js s : simpl never.

Fixpoint jsstring_eqb (a b : jsstring) : bool :=
  match a, b with
  | [], [] => true
  | x :: a', y :: b' => N.eqb x y && jsstring_eqb a' b'
  | _, _ => false
  end.

(** [s.startsWith(p)]. *)
Fixpoint startsWith (p s : jsstring) : bool :=
  match p, s with
  | [], _ => true
  | x :: p', y :: s' => N.eqb x y && startsWith p' s'
  | _ :: _, [] => false
  end.

(** [s.split(sep)] for a separator of one code unit: the segments between
    the occurrences of [sep], in order; never empty. *)
Fixpoint split (sep : char16) (s : jsstring) : list jsstring :=
  match s with
  | [] => [ [] ]
  | c :: s' =>
      if N.eqb c sep then [] :: split sep s'
      else match split sep s' with
           | seg :: segs => (c :: seg) :: segs
           | [] => [ [c] ]
           end
  end.

(** A string is falsy exactly when it is empty; [undefined] and [null]
    are [None]. *)
Definition truthy_str (s : option jsstring) : bool :=
  match s with
  | Some (_ :: _) => true
  | _ => false
  end.

(** ** Exceptions and outcomes *)

Inductive exn :=
| ER_DUP_ENTRY
| ER_NO_REFERENCED_ROW
| ER_BAD_VALUE
| RangeError
| SyntaxError
| Error (msg : jsstring).

Inductive outcome (A : Type) :=
| Return (a : A)
| Throw (e : exn).
Arguments Return {A} a.
Arguments Throw {A} e.

Definition obind {A B} (x : outcome A) (f : A -> outcome B) : outcome B :=
  match x with
  | Return a => f a
  | Throw e => Throw e
  end.

Notation "'do' x <- c ; k" := (obind c (fun x => k))
  (at level 10, x pattern, c at level 100, k at level 200).

(** ** Decimal digits *)

Definition digitChar (d : N) : char16 := (48 + d)%N.
Definition isDigit (c : char16) : bool := ((48 <=? c) && (c <=? 57))%N.

(** The [w] least significant decimal digits of [z], most significant
    first. *)
Fixpoint padDigits (w : nat) (z : Z) : jsstring :=
  match w with
  | O => []
  | S w' => padDigits w' (z / 10) ++ [digitChar (Z.to_N (z mod 10))]
  end.

(** The decimal digits of [z >= 0] without leading zeros ([0] is the one
    digit 0); the fuel is the binary length of [z], which bounds the
    decimal one. *)
Fixpoint natDigitsFuel (fuel : nat) (z : Z) : list N :=
  match fuel with
  | O => [Z.to_N (z mod 10)]
  | S f =>
      if z <? 10 then [Z.to_N z]
      else natDigitsFuel f (z / 10) ++ [Z.to_N (z mod 10)]
  end.

Definition natDigits (z : Z) : list N :=
  natDigitsFuel (Z.to_nat (Z.log2 z)) z.

Definition digitsToZ (ds : list N) : Z :=
  fold_left (fun a d => 10 * a + Z.of_N d) ds 0.

(** ** The [Date] arithmetic of ECMAScript *)

Module JSDate.

Definition msPerDay : Z := 86400000.
Definition msPerHour : Z := 3600000.
Definition msPerMinute : Z := 60000.
Definition msPerSecond : Z := 1000.

Definition Day (t : Z) : Z := t / msPerDay.
Definition TimeWithinDay (t : Z) : Z := t mod msPerDay.

Definition DaysInYear (y : Z) : Z :=
  if negb (y mod 4 =? 0) then 365
  else if negb (y mod 100 =? 0) then 366
  else if negb (y mod 400 =? 0) then 365
  else 366.

Definition DayFromYear (y : Z) : Z :=
  365 * (y - 1970) + (y - 1969) / 4 - (y - 1901) / 100 + (y - 1601) / 400.

Definition TimeFromYear (y : Z) : Z := msPerDay * DayFromYear y.

(** The largest [y] with [DayFromYear y <= d]: the estimate from the mean
    length of a Gregorian year is off by at most one. *)
Definition YearFromDay (d : Z) : Z :=
  let y0 := 1970 + (400 * d) / 146097 in
  if DayFromYear (y0 + 1) <=? d then y0 + 1
  else if d <? DayFromYear y0 then y0 - 1
  else y0.

Definition YearFromTime (t : Z) : Z := YearFromDay (Day t).

Definition InLeapYear (t : Z) : Z :=
  if DaysInYear (YearFromTime t) =? 366 then 1 else 0.

Definition DayWithinYear (t : Z) : Z := Day t - DayFromYear (YearFromTime t).

(** First day (within the year) of month [m], 0 = January. *)
Definition monthStart (leap m : Z) : Z :=
  match m with
  | 0 => 0
  | 1 => 31
  | 2 => 59 + leap
  | 3 => 90 + leap
  | 4 => 120 + leap
  | 5 => 151 + leap
  | 6 => 181 + leap
  | 7 => 212 + leap
  | 8 => 243 + leap
  | 9 => 273 + leap
  | 10 => 304 + leap
  | _ => 334 + leap
  end.

Definition MonthFromTime (t : Z) : Z :=
  let d := DayWithinYear t in
  let leap := InLeapYear t in
  if d <? 31 then 0
  else if d <? 59 + leap then 1
  else if d <? 90 + leap then 2
  else if d <? 120 + leap then 3
  else if d <? 151 + leap then 4
  else if d <? 181 + leap then 5
  else if d <? 212 + leap then 6
  else if d <? 243 + leap then 7
  else if d <? 273 + leap then 8
  else if d <? 304 + leap then 9
  else if d <? 334 + leap then 10
  else 11.

Definition DateFromTime (t : Z) : Z :=
  DayWithinYear t - monthStart (InLeapYear t) (MonthFromTime t) + 1.

Definition HourFromTime (t : Z) : Z := (t / msPerHour) mod 24.
Definition MinFromTime (t : Z) : Z := (t / msPerMinute) mod 60.
Definition SecFromTime (t : Z) : Z := (t / msPerSecond) mod 60.
Definition msFromTime (t : Z) : Z := t mod msPerSecond.

(** [MakeDay(year, month, date)]: the day number of the first of the month
    [month] (carried into the year when outside 0..11) plus [date - 1]. *)
Definition MakeDay (year month date : Z) : Z :=
  let ym := year + month / 12 in
  let mn := month mod 12 in
  let leap := if DaysInYear ym =? 366 then 1 else 0 in
  DayFromYear ym + monthStart leap mn + date - 1.

Definition MakeDate (day time : Z) : Z := day * msPerDay + time.

Definition maxTime : Z := 8640000000000000.

(** [TimeClip]: a time value beyond 8.64e15 ms is not a date. *)
Definition TimeClip (t : Z) : option Z :=
  if Z.abs t <=? maxTime then Some t else None.

Section LocalTimeZone.

(** [LocalTZA t isUTC]: the offset of the host's time zone, in
    milliseconds, at the UTC instant [t] ([isUTC = true]) or at the local
    time [t] ([isUTC = false]). *)
Variable LocalTZA : Z -> bool -> Z.

Definition LocalTime (t : Z) : Z := t + LocalTZA t true.
Definition UTC (t : Z) : Z := t - LocalTZA t false.

(** [d.getDate()]: day of the month in local time. *)
Definition getDate (d : option Z) : option Z :=
  match d with
  | Some t => Some (DateFromTime (LocalTime t))
  | None => None
  end.

(** [d.setDate(date)]: the new time value of [d]. *)
Definition setDate (d : option Z) (date : option Z) : option Z :=
  match d, date with
  | Some tv, Some dt =>
      let t := LocalTime tv in
      let newDate :=
        MakeDate (MakeDay (YearFromTime t) (MonthFromTime t) dt)
                 (TimeWithinDay t) in
      TimeClip (UTC newDate)
  | _, _ => None
  end.

End LocalTimeZone.

(** [d.toISOString()]: the UTC date and time, [YYYY-MM-DDTHH:mm:ss.sssZ];
    the year has four digits from 0 to 9999, and a sign and six digits
    otherwise. An invalid date throws a [RangeError]. *)
Definition isoYear (y : Z) : jsstring :=
  if (0 <=? y) && (y <=? 9999) then padDigits 4 y
  else (if y <? 0 then js "-" else js "+") ++ padDigits 6 (Z.abs y).

Definition isoDate (t : Z) : jsstring :=
  isoYear (YearFromTime t) ++ js "-" ++ padDigits 2 (MonthFromTime t + 1)
    ++ js "-" ++ padDigits 2 (DateFromTime t).

Definition isoTime (t : Z) : jsstring :=
  padDigits 2 (HourFromTime t) ++ js ":" ++ padDigits 2 (MinFromTime t)
    ++ js ":" ++ padDigits 2 (SecFromTime t) ++ js "."
    ++ padDigits 3 (msFromTime t).

Definition toISOString (d : option Z) : outcome jsstring :=
  match d with
  | Some t => Return (isoDate t ++ js "T" ++ isoTime t ++ js "Z")
  | None => Throw RangeError
  end.

(** [a >= b] on two dates: false as soon as one of them is invalid. *)
Definition date_geb (a b : option Z) : bool :=
  match a, b with
  | Some x, Some y => y <=? x
  | _, _ => false
  end.

End JSDate.

(** ** JSON values, [JSON.stringify] and [JSON.parse] *)

Module JSON.

(** A Number as [JSON.parse] can produce it: a binary64 value. A finite
    non-zero value is kept in its canonical decimal form
    [0.d1 d2 ... dk * 10^n], the digits [s], their number [k] and the
    exponent [n] that Number::toString gives the value; a literal is
    rounded to the nearest value when it is read ([mkNumber]). *)
Inductive number :=
| Zero (neg : bool)
| Finite (neg : bool) (digits : list N) (n : Z)
| Infinity (neg : bool).

Inductive json :=
| Null
| Bool (b : bool)
| Num (x : number)
| Str (s : jsstring)
| Arr (elems : list json)
| Obj (props : list (jsstring * json)).

(** An array index: the canonical decimal of an integer below 2^32 - 1. *)
Definition arrayIndex (k : jsstring) : option N :=
  match k with
  | [] => None
  | c :: r =>
      if forallb isDigit k
         && (negb (c =? 48)%N || match r with [] => true | _ :: _ => false end)
         && (Nat.leb (List.length k) 10)
      then
        let n := Z.to_N (digitsToZ (map (fun d => (d - 48)%N) k)) in
        if (n <=? 4294967294)%N then Some n else None
      else None
  end.

(** The order in which the keys of an ordinary object are enumerated: the
    array indices in ascending order, then the other keys in the order of
    their creation. [precedes k k'] tells that a new key [k] goes before
    the existing key [k']. *)
Definition precedes (k k' : jsstring) : bool :=
  match arrayIndex k, arrayIndex k' with
  | Some n, Some n' => (n <? n')%N
  | Some _, None => true
  | None, _ => false
  end.

Fixpoint obj_has (k : jsstring) (o : list (jsstring * json)) : bool :=
  match o with
  | [] => false
  | (k', _) :: o' => jsstring_eqb k k' || obj_has k o'
  end.

Fixpoint obj_replace (k : jsstring) (v : json) (o : list (jsstring * json))
  : list (jsstring * json) :=
  match o with
  | [] => []
  | (k', v') :: o' =>
      if jsstring_eqb k k' then (k, v) :: o' else (k', v') :: obj_replace k v o'
  end.

Fixpoint obj_insert (k : jsstring) (v : json) (o : list (jsstring * json))
  : list (jsstring * json) :=
  match o with
  | [] => [(k, v)]
  | (k', v') :: o' =>
      if precedes k k' then (k, v) :: o else (k', v') :: obj_insert k v o'
  end.

(** [o[k] = v] on an ordinary object, kept as the list of its properties
    in the order of their enumeration: an existing property keeps its
    place, a new one goes to the place of its key. *)
Definition obj_set (k : jsstring) (v : json) (o : list (jsstring * json))
  : list (jsstring * json) :=
  if obj_has k o then obj_replace k v o else obj_insert k v o.

Fixpoint obj_get (k : jsstring) (o : list (jsstring * json)) : option json :=
  match o with
  | [] => None
  | (k', v') :: o' => if jsstring_eqb k k' then Some v' else obj_get k o'
  end.

(** [{...a, ...b}]. *)
Definition obj_spread (a b : list (jsstring * json)) : list (jsstring * json) :=
  fold_left (fun o kv => obj_set (fst kv) (snd kv) o) b a.

(** *** Numbers *)

Fixpoint stripLeadingZeros (ds : list N) : nat * list N :=
  match ds with
  | 0%N :: ds' => let (c, r) := stripLeadingZeros ds' in (S c, r)
  | _ => (O, ds)
  end.

Fixpoint dropZeros (ds : list N) : list N :=
  match ds with
  | 0%N :: ds' => dropZeros ds'
  | _ => ds
  end.

Definition stripTrailingZeros (ds : list N) : list N :=
  rev (dropZeros (rev ds)).

(** [a / b] rounded to the nearest integer, a tie to the even one. *)
Definition roundHalfEven (a b : Z) : Z :=
  let q := a / b in
  let r := a mod b in
  if 2 * r <? b then q
  else if b <? 2 * r then q + 1
  else if Z.even q then q else q + 1.

(** The fraction [num / den] divided by [2 ^ e]. *)
Definition scale2 (num den e : Z) : Z * Z :=
  if 0 <=? e then (num, den * 2 ^ e) else (num * 2 ^ (- e), den).

(** The fraction of [d * 10 ^ q]. *)
Definition scale10 (d q : Z) : Z * Z :=
  if 0 <=? q then (d * 10 ^ q, 1) else (d, 10 ^ (- q)).

(** The binary64 value nearest to [num / den > 0], a tie to the even
    significand: the value is [m * 2 ^ e] with [2^52 <= m < 2^53], or with
    [m < 2^52] and [e = -1074] (a subnormal, or zero). An exponent above
    971 tells a value beyond the largest binary64 one. *)
Definition toBinary64 (num den : Z) : Z * Z :=
  let e0 := Z.log2 num - Z.log2 den - 52 in
  let (a0, b0) := scale2 num den e0 in
  let e1 := if a0 / b0 <? 2 ^ 52 then e0 - 1 else e0 in
  let e := Z.max e1 (-1074) in
  let (a, b) := scale2 num den e in
  let m := roundHalfEven a b in
  if m =? 2 ^ 53 then (2 ^ 52, e + 1) else (m, e).

(** [num / den >= 10 ^ j]. *)
Definition geb_pow10 (num den j : Z) : bool :=
  if 0 <=? j then den * 10 ^ j <=? num else den <=? num * 10 ^ (- j).

(** The [n] with [10 ^ (n - 1) <= num / den < 10 ^ n], found around its
    estimate from the binary logarithm. *)
Definition decimalExponent (num den : Z) : Z :=
  let est := (Z.log2 num - Z.log2 den) * 30103 / 100000 in
  if geb_pow10 num den (est + 2) then est + 3
  else if geb_pow10 num den (est + 1) then est + 2
  else if geb_pow10 num den est then est + 1
  else if geb_pow10 num den (est - 1) then est
  else est - 1.

(** The digits of Number::toString for the binary64 value [m * 2 ^ e]:
    the least number [k] of digits [s], with the exponent [n], such that
    [s * 10 ^ (n - k)] is read as that value, and among these the digits
    nearest to it (the even ones on a tie). They are looked for with [k]
    digits, then [k + 1], and are found with 17 at most. *)
Fixpoint shortestDigits (fuel : nat) (k m e n0 : Z) : Z * Z :=
  let (xn, xd) := scale2 m 1 (- e) in
  let sh := n0 - k in
  let (tn, td) := if 0 <=? sh then (xn, xd * 10 ^ sh) else (xn * 10 ^ (- sh), xd) in
  let lo := tn / td in
  let hi := lo + 1 in
  match fuel with
  | O => (lo, n0)
  | S f =>
      let read (s n : Z) : bool :=
        let (sn, sd) := scale10 s (n - k) in
        let (m', e') := toBinary64 sn sd in
        (m' =? m) && (e' =? e) in
      let (s2, n2) := if hi =? 10 ^ k then (10 ^ (k - 1), n0 + 1) else (hi, n0) in
      let okLo := (10 ^ (k - 1) <=? lo) && read lo n0 in
      let okHi := read s2 n2 in
      let below := tn - lo * td in
      let above := hi * td - tn in
      if okLo && okHi then
        if below <? above then (lo, n0)
        else if above <? below then (s2, n2)
        else if Z.even lo then (lo, n0) else (s2, n2)
      else if okLo then (lo, n0)
      else if okHi then (s2, n2)
      else shortestDigits f (k + 1) m e n0
  end.

(** The Number denoted by the literal [int.frac e exp]: the binary64 value
    nearest to it, kept as the digits and the exponent that
    Number::toString gives it; an infinity beyond the largest value, a
    zero below half the smallest. *)
Definition mkNumber (neg : bool) (int frac : list N) (exp : Z) : number :=
  let (c, ds) := stripLeadingZeros (int ++ frac) in
  let ds := stripTrailingZeros ds in
  let n := Z.of_nat (length int) + exp - Z.of_nat c in
  match ds with
  | [] => Zero neg
  | _ =>
      if 310 <? n then Infinity neg
      else if n <? -330 then Zero neg
      else
        let (num, den) := scale10 (digitsToZ ds) (n - Z.of_nat (length ds)) in
        let (m, e) := toBinary64 num den in
        if m =? 0 then Zero neg
        else if 971 <? e then Infinity neg
        else
          let (xn, xd) := scale2 m 1 (- e) in
          let (s, n') := shortestDigits 17 1 m e (decimalExponent xn xd) in
          Finite neg (natDigits s) n'
  end.

(** The Number of an integer. *)
Definition ofZ (z : Z) : number :=
  mkNumber (z <? 0) (natDigits (Z.abs z)) [] 0.

(** The digits [ds] with the decimal point after the [n]-th one, written
    as Number::toString writes a positive number; [k] is the number of
    digits. *)
Definition digitsToString (ds : list N) (n : Z) : jsstring :=
  let k := Z.of_nat (List.length ds) in
  if (k <=? n) && (n <=? 21) then
    map digitChar ds ++ repeat (digitChar 0) (Z.to_nat (n - k))
  else if (0 <? n) && (n <=? 21) then
    map digitChar (firstn (Z.to_nat n) ds) ++ js "."
      ++ map digitChar (skipn (Z.to_nat n) ds)
  else if (-6 <? n) && (n <=? 0) then
    js "0." ++ repeat (digitChar 0) (Z.to_nat (- n)) ++ map digitChar ds
  else
    let e := n - 1 in
    let es := (if e <? 0 then js "-" else js "+")
                ++ map digitChar (natDigits (Z.abs e)) in
    match ds with
    | [] => []
    | [d] => digitChar d :: js "e" ++ es
    | d :: ds' => digitChar d :: js "." ++ map digitChar ds' ++ js "e" ++ es
    end.

(** Number::toString. *)
Definition NumberToString (x : number) : jsstring :=
  match x with
  | Zero _ => js "0"
  | Infinity false => js "Infinity"
  | Infinity true => js "-Infinity"
  | Finite neg ds n => (if neg then js "-" else []) ++ digitsToString ds n
  end.

(** *** Strings *)

Definition hexChar (d : N) : char16 :=
  (if d <? 10 then 48 + d else 87 + d)%N.

(** [\uXXXX] with lower-case digits. *)
Definition unicodeEscape (c : char16) : jsstring :=
  [92; 117; hexChar (c / 4096 mod 16); hexChar (c / 256 mod 16);
   hexChar (c / 16 mod 16); hexChar (c mod 16)]%N.

Definition isHighSurrogate (c : char16) : bool :=
  ((55296 <=? c) && (c <=? 56319))%N.
Definition isLowSurrogate (c : char16) : bool :=
  ((56320 <=? c) && (c <=? 57343))%N.

Definition quoteUnit (c : char16) : jsstring :=
  (if c =? 8 then [92; 98]
   else if c =? 9 then [92; 116]
   else if c =? 10 then [92; 110]
   else if c =? 12 then [92; 102]
   else if c =? 13 then [92; 114]
   else if c =? 34 then [92; 34]
   else if c =? 92 then [92; 92]
   else if c <? 32 then unicodeEscape c
   else if isHighSurrogate c || isLowSurrogate c then unicodeEscape c
   else [c])%N.

(** The body of QuoteJSONString: a surrogate pair is copied, a lone
    surrogate is escaped. *)
Fixpoint quoteUnits (s : jsstring) : jsstring :=
  match s with
  | [] => []
  | c :: s' =>
      if isHighSurrogate c then
        match s' with
        | c2 :: s'' =>
            if isLowSurrogate c2 then c :: c2 :: quoteUnits s''
            else quoteUnit c ++ quoteUnits s'
        | [] => quoteUnit c
        end
      else quoteUnit c ++ quoteUnits s'
  end.

Definition QuoteJSONString (s : jsstring) : jsstring :=
  34%N :: quoteUnits s ++ [34%N].

(** *** [JSON.stringify(value)] *)

Fixpoint join (sep : jsstring) (parts : list jsstring) : jsstring :=
  match parts with
  | [] => []
  | [p] => p
  | p :: ps => p ++ sep ++ join sep ps
  end.

Fixpoint stringify (v : json) : jsstring :=
  match v with
  | Null => js "null"
  | Bool true => js "true"
  | Bool false => js "false"
  | Num (Infinity _) => js "null"
  | Num x => NumberToString x
  | Str s => QuoteJSONString s
  | Arr l => js "[" ++ join (js ",") (map stringify l) ++ js "]"
  | Obj ps =>
      js "{" ++
      join (js ",")
        (map (fun kv => QuoteJSONString (fst kv) ++ js ":" ++ stringify (snd kv))
             ps)
      ++ js "}"
  end.

(** *** [JSON.parse(text)] *)

Definition isWS (c : char16) : bool :=
  ((c =? 9) || (c =? 10) || (c =? 13) || (c =? 32))%N.

Fixpoint skipWS (s : jsstring) : jsstring :=
  match s with
  | c :: s' => if isWS c then skipWS s' else s
  | [] => []
  end.

Fixpoint takeDigits (s : jsstring) : list N * jsstring :=
  match s with
  | c :: s' =>
      if isDigit c then
        let (ds, r) := takeDigits s' in ((c - 48)%N :: ds, r)
      else ([], s)
  | [] => ([], [])
  end.

Definition hexValue (c : char16) : option N :=
  (if (48 <=? c) && (c <=? 57) then Some (c - 48)
   else if (97 <=? c) && (c <=? 102) then Some (c - 87)
   else if (65 <=? c) && (c <=? 70) then Some (c - 55)
   else None)%N.

Definition simpleEscape (c : char16) : option char16 :=
  (if c =? 34 then Some 34
   else if c =? 92 then Some 92
   else if c =? 47 then Some 47
   else if c =? 98 then Some 8
   else if c =? 102 then Some 12
   else if c =? 110 then Some 10
   else if c =? 114 then Some 13
   else if c =? 116 then Some 9
   else None)%N.

(** The characters of a string literal after its opening quote, up to and
    including the closing one. *)
Fixpoint parseString (s : jsstring) : outcome (jsstring * jsstring) :=
  match s with
  | [] => Throw SyntaxError
  | c :: s' =>
      if (c =? 34)%N then Return ([], s')
      else if (c =? 92)%N then
        match s' with
        | [] => Throw SyntaxError
        | e :: s'' =>
            if (e =? 117)%N then
              match s'' with
              | h1 :: h2 :: h3 :: h4 :: s3 =>
                  match hexValue h1, hexValue h2, hexValue h3, hexValue h4 with
                  | Some a, Some b, Some c, Some d =>
                      do (str, r) <- parseString s3;
                      Return ((a * 4096 + b * 256 + c * 16 + d)%N :: str, r)
                  | _, _, _, _ => Throw SyntaxError
                  end
              | _ => Throw SyntaxError
              end
            else
              match simpleEscape e with
              | Some u =>
                  do (str, r) <- parseString s'';
                  Return (u :: str, r)
              | None => Throw SyntaxError
              end
        end
      else if (c <? 32)%N then Throw SyntaxError
      else
        do (str, r) <- parseString s';
        Return (c :: str, r)
  end.

(** A number literal: an optional minus sign, an integer part without
    superfluous leading zero, an optional fraction (a point and at least
    one digit) and an optional exponent ([e] or [E], an optional sign and
    at least one digit). *)
Definition parseInt_part (s : jsstring) : outcome (list N * jsstring) :=
  match s with
  | c :: s' =>
      if (c =? 48)%N then Return ([0%N], s')
      else if isDigit c then
        let (ds, r) := takeDigits s' in Return ((c - 48)%N :: ds, r)
      else Throw SyntaxError
  | [] => Throw SyntaxError
  end.

Definition parseFrac_part (s : jsstring) : outcome (list N * jsstring) :=
  match s with
  | c :: s' =>
      if (c =? 46)%N then
        match takeDigits s' with
        | ([], _) => Throw SyntaxError
        | (ds, r) => Return (ds, r)
        end
      else Return ([], s)
  | [] => Return ([], [])
  end.

Definition parseExp_digits (neg : bool) (s : jsstring) : outcome (Z * jsstring) :=
  match takeDigits s with
  | ([], _) => Throw SyntaxError
  | (ds, r) => Return (if neg then - digitsToZ ds else digitsToZ ds, r)
  end.

Definition parseExp_part (s : jsstring) : outcome (Z * jsstring) :=
  match s with
  | c :: s' =>
      if ((c =? 101) || (c =? 69))%N then
        match s' with
        | c2 :: s'' =>
            if (c2 =? 43)%N then parseExp_digits false s''
            else if (c2 =? 45)%N then parseExp_digits true s''
            else parseExp_digits false s'
        | [] => Throw SyntaxError
        end
      else Return (0, s)
  | [] => Return (0, [])
  end.

Definition parseUnsigned (neg : bool) (s : jsstring)
  : outcome (number * jsstring) :=
  do (int, s2) <- parseInt_part s;
  do (frac, s3) <- parseFrac_part s2;
  do (exp, s4) <- parseExp_part s3;
  Return (mkNumber neg int frac exp, s4).

Definition parseNumber (s : jsstring) : outcome (number * jsstring) :=
  match s with
  | c :: s' => if (c =? 45)%N then parseUnsigned true s' else parseUnsigned false s
  | [] => parseUnsigned false []
  end.

(** The fuel bounds the nesting of the calls; running out of it is told
    apart from a syntax error. *)
Definition OutOfFuel : exn := Error (js "out of fuel").

Fixpoint parseValue (fuel : nat) (s : jsstring) {struct fuel}
  : outcome (json * jsstring) :=
  match fuel with
  | O => Throw OutOfFuel
  | S f =>
      match skipWS s with
      | [] => Throw SyntaxError
      | c :: r =>
          if (c =? 123)%N then
            match skipWS r with
            | c2 :: r2 =>
                if (c2 =? 125)%N then Return (Obj [], r2)
                else
                  do (ms, r3) <- parseMembers f r;
                  Return (Obj (obj_spread [] ms), r3)
            | [] => Throw SyntaxError
            end
          else if (c =? 91)%N then
            match skipWS r with
            | c2 :: r2 =>
                if (c2 =? 93)%N then Return (Arr [], r2)
                else
                  do (vs, r3) <- parseElements f r;
                  Return (Arr vs, r3)
            | [] => Throw SyntaxError
            end
          else if (c =? 34)%N then
            do (str, r2) <- parseString r;
            Return (Str str, r2)
          else if (c =? 116)%N then
            match r with
            | 114%N :: 117%N :: 101%N :: r2 => Return (Bool true, r2)
            | _ => Throw SyntaxError
            end
          else if (c =? 102)%N then
            match r with
            | 97%N :: 108%N :: 115%N :: 101%N :: r2 => Return (Bool false, r2)
            | _ => Throw SyntaxError
            end
          else if (c =? 110)%N then
            match r with
            | 117%N :: 108%N :: 108%N :: r2 => Return (Null, r2)
            | _ => Throw SyntaxError
            end
          else
            do (x, r2) <- parseNumber (c :: r);
            Return (Num x, r2)
      end
  end

with parseElements (fuel : nat) (s : jsstring) {struct fuel}
  : outcome (list json * jsstring) :=
  match fuel with
  | O => Throw OutOfFuel
  | S f =>
      do (v, r) <- parseValue f s;
      match skipWS r with
      | c :: r2 =>
          if (c =? 44)%N then
            do (vs, r3) <- parseElements f r2;
            Return (v :: vs, r3)
          else if (c =? 93)%N then Return ([v], r2)
          else Throw SyntaxError
      | [] => Throw SyntaxError
      end
  end

with parseMembers (fuel : nat) (s : jsstring) {struct fuel}
  : outcome (list (jsstring * json) * jsstring) :=
  match fuel with
  | O => Throw OutOfFuel
  | S f =>
      match skipWS s with
      | c :: r =>
          if (c =? 34)%N then
            do (k, r1) <- parseString r;
            match skipWS r1 with
            | c2 :: r2 =>
                if (c2 =? 58)%N then
                  do (v, r3) <- parseValue f r2;
                  match skipWS r3 with
                  | c3 :: r4 =>
                      if (c3 =? 44)%N then
                        do (ms, r5) <- parseMembers f r4;
                        Return ((k, v) :: ms, r5)
                      else if (c3 =? 125)%N then Return ([(k, v)], r4)
                      else Throw SyntaxError
                  | [] => Throw SyntaxError
                  end
                else Throw SyntaxError
            | [] => Throw SyntaxError
            end
          else Throw SyntaxError
      | [] => Throw SyntaxError
      end
  end.

(** [JSON.parse(text)]: one value, with nothing but white space after it.
    Two units of fuel per code unit are enough for every text
    ([parse_throws]). *)
Definition parse (text : jsstring) : outcome json :=
  do (v, r) <- parseValue (2 * List.length text + 1) text;
  match skipWS r with
  | [] => Return v
  | _ :: _ => Throw SyntaxError
  end.

End JSON.

(** ** [parseInt(string)] *)

Definition isStrWhiteSpace (c : char16) : bool :=
  ((c =? 9) || (c =? 10) || (c =? 11) || (c =? 12) || (c =? 13) || (c =? 32)
   || (c =? 160) || (c =? 5760) || ((8192 <=? c) && (c <=? 8202))
   || (c =? 8232) || (c =? 8233) || (c =? 8239) || (c =? 8287)
   || (c =? 12288) || (c =? 65279))%N.

Fixpoint trimStart (s : jsstring) : jsstring :=
  match s with
  | c :: s' => if isStrWhiteSpace c then trimStart s' else s
  | [] => []
  end.

Fixpoint takeHexDigits (s : jsstring) : list N :=
  match s with
  | c :: s' =>
      match JSON.hexValue c with
      | Some d => d :: takeHexDigits s'
      | None => []
      end
  | [] => []
  end.

Definition hexDigitsToZ (ds : list N) : Z :=
  fold_left (fun a d => 16 * a + Z.of_N d) ds 0.

(** [parseInt(s)] without a radix; [None] is NaN. *)
Definition parseInt (s : jsstring) : option Z :=
  let s0 := trimStart s in
  let (neg, s1) :=
    match s0 with
    | c :: r =>
        if (c =? 45)%N then (true, r)
        else if (c =? 43)%N then (false, r)
        else (false, s0)
    | [] => (false, s0)
    end in
  let signed (z : Z) := if neg then - z else z in
  match s1 with
  | 48%N :: x :: r =>
      if ((x =? 120) || (x =? 88))%N then
        match takeHexDigits r with
        | [] => None
        | ds => Some (signed (hexDigitsToZ ds))
        end
      else
        match fst (JSON.takeDigits s1) with
        | [] => None
        | ds => Some (signed (digitsToZ ds))
        end
  | _ =>
      match fst (JSON.takeDigits s1) with
      | [] => None
      | ds => Some (signed (digitsToZ ds))
      end
  end.

(** ** Values as the program tests and prints them *)

(** [String(value)], as [JSON.parse] and [parseInt] apply it to an argument
    that is not a string; [Array.prototype.join] writes [null] as the
    empty string. *)
Fixpoint ToString (v : JSON.json) : jsstring :=
  match v with
  | JSON.Null => js "null"
  | JSON.Bool true => js "true"
  | JSON.Bool false => js "false"
  | JSON.Num x => JSON.NumberToString x
  | JSON.Str s => s
  | JSON.Arr l =>
      JSON.join (js ",")
        (map (fun x => match x with
                       | JSON.Null => []
                       | _ => ToString x
                       end) l)
  | JSON.Obj _ => js "[object Object]"
  end.

(** [value ? ... : ...]: [null], [false], the zeros and the empty string
    are falsy. *)
Definition truthy (v : JSON.json) : bool :=
  match v with
  | JSON.Null => false
  | JSON.Bool b => b
  | JSON.Num (JSON.Zero _) => false
  | JSON.Num _ => true
  | JSON.Str s => match s with [] => false | _ :: _ => true end
  | JSON.Arr _ => true
  | JSON.Obj _ => true
  end.

(** ** The relational store ([database.js]) *)

Record User := {
  user_id : Z;
  user_name : jsstring;
  user_email : jsstring
}.

Record Course := {
  course_id : Z;
  course_name : jsstring;
  course_image_url : jsstring;
  course_description : jsstring
}.

Record CourseModule := {
  module_id : Z;
  module_course_id : Z;
  module_name : jsstring;
  module_order_index : Z
}.

Record Lesson := {
  lesson_id : Z;
  lesson_module_id : Z;
  title : jsstring;
  video_url : jsstring;
  description_text : option jsstring;
  (** the document of the JSON column, as the driver hands it over: the
      pool of [database.js] decodes a JSON column before the program sees
      it; [None] is SQL NULL *)
  links : option JSON.json;
  drip_days : Z;
  order_index : Z
}.

Record Purchase := {
  purchase_id : Z;
  purchase_user_id : Z;
  purchase_course_id : Z;
  purchase_date : Z
}.

Inductive RefundStatus := PENDENTE | APROVADO | REJEITADO.

Record RefundRequest := {
  refund_id : Z;
  refund_user_id : Z;
  refund_course_id : Z;
  refund_message : jsstring;
  request_date : Z;
  refund_status : RefundStatus
}.

Record Database := {
  Users : list User;
  Courses : list Course;
  Modules : list CourseModule;
  Lessons : list Lesson;
  Purchases : list Purchase;
  RefundRequests : list RefundRequest
}.

(** An asset sent to the object store ([cloudinary.js]); the data URI of
    the upload is kept as its media type and bytes. *)
Record Upload := {
  upload_resource_type : jsstring;
  upload_folder : jsstring;
  upload_mimetype : jsstring;
  upload_buffer : list N
}.

(** A message handed to the mail service ([brevo.js]). *)
Record Email := {
  email_subject : jsstring;
  email_to : jsstring;
  email_replyTo : jsstring * jsstring;
  email_userName : jsstring;
  email_courseName : jsstring;
  email_message : jsstring
}.

Record World := {
  db : Database;
  blobs : list Upload;
  outbox : list Email
}.

Definition with_db (w : World) (d : Database) : World :=
  {| db := d; blobs := blobs w; outbox := outbox w |}.

(** The signed contents of a token. *)
Record Claims := {
  claim_id : Z;
  claim_type : jsstring
}.

(** What is fixed when the server starts. *)
Record Host := {
  (** the time zone of the process *)
  LocalTZA : Z -> bool -> Z;
  (** [apiInstance] of [brevo.js] is set: the API key was present *)
  apiInstance : bool;
  (** [jwt.verify(token, jwtSecret)]; [None] when it throws *)
  jwt_verify : jsstring -> option Claims;
  (** the engine's reading of a text parameter bound to an INT column *)
  sql_int : jsstring -> option Z
}.

(** What is decided outside the program while one request is served. *)
Record Env := {
  (** [new Date()] *)
  now : Z;
  (** [CURRENT_TIMESTAMP] of the database *)
  current_timestamp : Z;
  (** the AUTO_INCREMENT value of the next inserted row *)
  insertId : Z;
  (** [apiInstance.sendTransacEmail] resolves *)
  sendTransacEmail_ok : bool;
  (** [cloudinary.uploader.upload]: the [secure_url], or [None] on failure *)
  upload_result : option jsstring
}.

(** *** Queries *)

Definition selectCourse (d : Database) (courseId : Z) : list Course :=
  filter (fun c => course_id c =? courseId) (Courses d).

Definition selectPurchase (d : Database) (userId courseId : Z) : list Purchase :=
  filter (fun p => (purchase_user_id p =? userId)
                   && (purchase_course_id p =? courseId)) (Purchases d).

Definition selectPendingRefunds (d : Database) (userId courseId : Z)
  : list RefundRequest :=
  filter (fun r => (refund_user_id r =? userId)
                   && (refund_course_id r =? courseId)
                   && match refund_status r with PENDENTE => true | _ => false end)
         (RefundRequests d).

(** Stable insertion sort on an integer key ([ORDER BY key ASC]). *)
Fixpoint insertBy {A} (key : A -> Z) (x : A) (l : list A) : list A :=
  match l with
  | [] => [x]
  | y :: l' => if key x <=? key y then x :: l else y :: insertBy key x l'
  end.

Definition orderBy {A} (key : A -> Z) (l : list A) : list A :=
  fold_right (insertBy key) [] l.

Definition selectModules (d : Database) (courseId : Z) : list CourseModule :=
  orderBy module_order_index
    (filter (fun m => module_course_id m =? courseId) (Modules d)).

Definition selectLessons (d : Database) (moduleId : Z) : list Lesson :=
  orderBy order_index
    (filter (fun l => lesson_module_id l =? moduleId) (Lessons d)).

(** [Purchases p JOIN Courses c ON p.course_id = c.id WHERE p.user_id = ?
    ORDER BY p.purchase_date DESC]. *)
Definition selectPurchasedCourses (d : Database) (userId : Z)
  : list (Purchase * Course) :=
  orderBy (fun pc => - purchase_date (fst pc))
    (flat_map (fun p => map (fun c => (p, c)) (selectCourse d (purchase_course_id p)))
       (filter (fun p => purchase_user_id p =? userId) (Purchases d))).

(** [Purchases p JOIN Courses c ... JOIN Users u ... WHERE p.user_id = ? AND
    p.course_id = ?]. *)
Definition selectPurchaseForRefund (d : Database) (userId courseId : Z)
  : list (Purchase * Course * User) :=
  flat_map (fun p =>
    flat_map (fun c =>
      map (fun u => (p, c, u))
          (filter (fun u => user_id u =? purchase_user_id p) (Users d)))
      (selectCourse d (purchase_course_id p)))
    (selectPurchase d userId courseId).

(** *** Inserts *)

Definition userExists (d : Database) (userId : Z) : bool :=
  existsb (fun u => user_id u =? userId) (Users d).
Definition courseExists (d : Database) (courseId : Z) : bool :=
  existsb (fun c => course_id c =? courseId) (Courses d).
Definition moduleExists (d : Database) (moduleId : Z) : bool :=
  existsb (fun m => module_id m =? moduleId) (Modules d).

Definition inIntRange (z : Z) : bool := (- 2 ^ 31 <=? z) && (z <? 2 ^ 31).

(** [INSERT INTO Purchases (user_id, course_id)]: the unique key
    [user_course_unique] and the two foreign keys are checked. *)
Definition insertPurchase (e : Env) (userId courseId : Z) (d : Database)
  : outcome Database :=
  match selectPurchase d userId courseId with
  | _ :: _ => Throw ER_DUP_ENTRY
  | [] =>
      if userExists d userId && courseExists d courseId then
        Return {| Users := Users d; Courses := Courses d; Modules := Modules d;
                  Lessons := Lessons d;
                  Purchases := Purchases d ++
                    [{| purchase_id := insertId e; purchase_user_id := userId;
                        purchase_course_id := courseId;
                        purchase_date := current_timestamp e |}];
                  RefundRequests := RefundRequests d |}
      else Throw ER_NO_REFERENCED_ROW
  end.

(** [INSERT INTO RefundRequests (user_id, course_id, message)]: the status
    defaults to PENDENTE. *)
Definition insertRefundRequest (e : Env) (userId courseId : Z)
  (message : jsstring) (d : Database) : outcome Database :=
  if userExists d userId && courseExists d courseId then
    Return {| Users := Users d; Courses := Courses d; Modules := Modules d;
              Lessons := Lessons d; Purchases := Purchases d;
              RefundRequests := RefundRequests d ++
                [{| refund_id := insertId e; refund_user_id := userId;
                    refund_course_id := courseId; refund_message := message;
                    request_date := current_timestamp e;
                    refund_status := PENDENTE |}] |}
  else Throw ER_NO_REFERENCED_ROW.

(** [INSERT INTO Lessons (...)]: the foreign key on the module and the
    range of the INT columns are checked. *)
Definition insertLesson (e : Env) (l : Lesson) (d : Database) : outcome Database :=
  if negb (inIntRange (drip_days l) && inIntRange (order_index l)) then
    Throw ER_BAD_VALUE
  else if moduleExists d (lesson_module_id l) then
    Return {| Users := Users d; Courses := Courses d; Modules := Modules d;
              Lessons := Lessons d ++ [l];
              Purchases := Purchases d; RefundRequests := RefundRequests d |}
  else Throw ER_NO_REFERENCED_ROW.

(** ** Handlers as computations over the world *)

Definition M (A : Type) : Type := World -> outcome A * World.

Definition ret {A} (a : A) : M A := fun w => (Return a, w).
Definition throw {A} (e : exn) : M A := fun w => (Throw e, w).
Definition bind {A B} (m : M A) (f : A -> M B) : M B :=
  fun w =>
    match m w with
    | (Return a, w') => f a w'
    | (Throw e, w') => (Throw e, w')
    end.

(** A statement on the database: a failed statement changes nothing. *)
Definition execute (q : Database -> outcome Database) : M unit :=
  fun w =>
    match q (db w) with
    | Return d' => (Return tt, with_db w d')
    | Throw e => (Throw e, w)
    end.

Definition query {A} (q : Database -> A) : M A :=
  fun w => (Return (q (db w)), w).

Definition lift {A} (x : outcome A) : M A := fun w => (x, w).

Notation "x <- c ;; k" := (bind c (fun x => k))
  (at level 61, c at next level, right associativity).
Notation "c ;;; k" := (bind c (fun _ => k))
  (at level 61, right associativity).

Record Response := {
  status : Z;
  body : JSON.json
}.

(** [try { ... } catch (error) { ... }] around the body of a handler. *)
Definition tryCatch (m : M Response) (handler : exn -> Response)
  : World -> Response * World :=
  fun w =>
    match m w with
    | (Return r, w') => (r, w')
    | (Throw e, w') => (handler e, w')
    end.

Definition message (st : Z) (text : jsstring) : Response :=
  {| status := st; body := JSON.Obj [(js "message", JSON.Str text)] |}.

Definition num (z : Z) : JSON.json := JSON.Num (JSON.ofZ z).
Definition nullable (s : option jsstring) : JSON.json :=
  match s with
  | Some x => JSON.Str x
  | None => JSON.Null
  end.

(** A number in a template literal. *)
Definition showZ (z : Z) : jsstring := JSON.NumberToString (JSON.ofZ z).

(** An id of a JSON body: absent, or a number; [0] is falsy. *)
Definition truthy_id (x : option Z) : bool :=
  match x with
  | Some z => negb (z =? 0)
  | None => false
  end.

(** [Math.ceil(a / b)] for integers [a] and [b > 0]. The quotient of the
    program is a binary64 division; for two instants less than 2^53 ms
    apart and [b] the length of a day its ceiling is the exact one, the
    quotient being below 2^27, where two binary64 values are 2^-26 apart,
    and an inexact quotient being at least 1/86400000 away from an
    integer. *)
Definition Math_ceil_div (a b : Z) : Z := - ((- a) / b).

Fixpoint mapOutcome {A B} (f : A -> outcome B) (l : list A) : outcome (list B) :=
  match l with
  | [] => Return []
  | x :: l' =>
      do y <- f x;
      do ys <- mapOutcome f l';
      Return (y :: ys)
  end.

Section Controllers.

Variable host : Host.

(** *** [authController.js] *)

Inductive AuthResult :=
| Rejected (r : Response)
| Next (userId : Z) (userType : jsstring).

(** [authMiddleware]: the outcome, and the tokens handed to [jwt.verify]
    on the way. *)
Definition authMiddleware (authorization : option jsstring)
  : AuthResult * list jsstring :=
  let token :=
    match authorization with
    | Some h => nth_error (split 32%N h) 1
    | None => None
    end in
  if negb (truthy_str token) then
    (Rejected (message 401 (js "Acesso negado. Token não fornecido.")), [])
  else
    match token with
    | Some tok =>
        match jwt_verify host tok with
        | Some decoded => (Next (claim_id decoded) (claim_type decoded), [tok])
        | None => (Rejected (message 403 (js "Token inválido ou expirado.")), [tok])
        end
    | None => (Rejected (message 401 (js "Acesso negado. Token não fornecido.")), [])
    end.

(** *** [userController.js] *)

Definition purchaseCourse (e : Env) (userId : Z) (courseId : option Z)
  : World -> Response * World :=
  match courseId with
  | Some cid =>
      if negb (truthy_id courseId) then
        fun w => (message 400 (js "O ID do curso é obrigatório."), w)
      else
        tryCatch
          (course <- query (fun d => selectCourse d cid) ;;
           match course with
           | [] => ret (message 404 (js "Curso não encontrado."))
           | c :: _ =>
               execute (insertPurchase e userId cid) ;;;
               ret {| status := 201;
                      body := JSON.Obj
                        [(js "message",
                          JSON.Str (js "Compra do curso '" ++ course_name c
                                      ++ js "' registrada com sucesso!"));
                         (js "purchaseId", num (insertId e))] |}
           end)
          (fun error =>
             match error with
             | ER_DUP_ENTRY => message 409 (js "Você já comprou este curso.")
             | _ => message 500 (js "Erro interno ao registrar compra.")
             end)
  | None => fun w => (message 400 (js "O ID do curso é obrigatório."), w)
  end.

(** A Date in a JSON body is its ISO string. *)
Definition dateJSON (t : Z) : JSON.json :=
  match JSDate.toISOString (Some t) with
  | Return str => JSON.Str str
  | Throw _ => JSON.Null
  end.

Definition purchasedCourseRow (pc : Purchase * Course) : list (jsstring * JSON.json) :=
  let (p, c) := pc in
  [(js "course_id", num (purchase_course_id p));
   (js "name", JSON.Str (course_name c));
   (js "image_url", JSON.Str (course_image_url c));
   (js "description", JSON.Str (course_description c));
   (js "purchase_date", dateJSON (purchase_date p))].

(** The callback of [purchases.map] in [getPurchasedCourses]. *)
Definition withRefundStatus (e : Env) (pc : Purchase * Course) : JSON.json :=
  let purchaseDate := purchase_date (fst pc) in
  let diffTime := Z.abs (now e - purchaseDate) in
  let diffDays := Math_ceil_div diffTime (1000 * 60 * 60 * 24) in
  let isRefundEligible := diffDays <=? 7 in
  JSON.Obj (JSON.obj_spread (purchasedCourseRow pc)
              [(js "isRefundEligible", JSON.Bool isRefundEligible);
               (js "daysSincePurchase", num diffDays)]).

Definition getPurchasedCourses (e : Env) (userId : Z)
  : World -> Response * World :=
  tryCatch
    (purchases <- query (fun d => selectPurchasedCourses d userId) ;;
     ret {| status := 200;
            body := JSON.Arr (map (withRefundStatus e) purchases) |})
    (fun _ => message 500 (js "Erro interno ao buscar cursos comprados.")).

Definition lessonRow (l : Lesson) : list (jsstring * JSON.json) :=
  [(js "id", num (lesson_id l));
   (js "title", JSON.Str (title l));
   (js "video_url", JSON.Str (video_url l));
   (js "description_text", nullable (description_text l));
   (js "links", match links l with Some v => v | None => JSON.Null end);
   (js "drip_days", num (drip_days l));
   (js "order_index", num (order_index l))].

(** [new Date(purchaseDate)] followed by
    [setDate(purchaseDate.getDate() + dripDays)]. *)
Definition releaseDateOf (purchaseDate : Z) (dripDays : Z) : option Z :=
  let releaseDate := Some purchaseDate in
  JSDate.setDate (LocalTZA host) releaseDate
    (option_map (fun date => date + dripDays)
                (JSDate.getDate (LocalTZA host) (Some purchaseDate))).

(** The object returned for a lesson that is not released yet. *)
Definition redactedLesson (lesson : Lesson) (releaseDate : option Z)
  : outcome JSON.json :=
  do iso <- JSDate.toISOString releaseDate;
  Return (JSON.Obj
    [(js "id", num (lesson_id lesson));
     (js "title", JSON.Str (title lesson));
     (js "order_index", num (order_index lesson));
     (js "isReleased", JSON.Bool false);
     (js "releaseDate", nullable (nth_error (split 84%N iso) 0));
     (js "videoUrl", JSON.Null);
     (js "descriptionText",
      JSON.Str (js "O conteúdo desta aula será liberado em breve."));
     (js "links", JSON.Null)]).

(** The object returned for a released lesson: the row, [isReleased], and
    [lesson.links ? JSON.parse(lesson.links) : null], where [lesson.links]
    is the decoded document: [JSON.parse] reads the string of that value. *)
Definition releasedLesson (lesson : Lesson) : outcome JSON.json :=
  do parsed <-
    match links lesson with
    | Some v => if truthy v then JSON.parse (ToString v) else Return JSON.Null
    | None => Return JSON.Null
    end;
  Return (JSON.Obj (JSON.obj_spread (lessonRow lesson)
            [(js "isReleased", JSON.Bool true);
             (js "links", parsed)])).

(** The callback of [lessons.map] in [getCourseContent]. *)
Definition lessonView (e : Env) (purchaseDate : Z) (lesson : Lesson)
  : outcome JSON.json :=
  let dripDays := drip_days lesson in
  let releaseDate := releaseDateOf purchaseDate dripDays in
  let isReleased := JSDate.date_geb (Some (now e)) releaseDate in
  if negb isReleased then redactedLesson lesson releaseDate
  else releasedLesson lesson.

Definition moduleView (e : Env) (purchaseDate : Z) (d : Database)
  (m : CourseModule) : outcome JSON.json :=
  do lessons <- mapOutcome (lessonView e purchaseDate) (selectLessons d (module_id m));
  Return (JSON.Obj
    [(js "id", num (module_id m));
     (js "name", JSON.Str (module_name m));
     (js "order_index", num (module_order_index m));
     (js "lessons", JSON.Arr lessons)]).

Definition getCourseContent (e : Env) (userId courseId : Z)
  : World -> Response * World :=
  tryCatch
    (purchase <- query (fun d => selectPurchase d userId courseId) ;;
     match purchase with
     | [] =>
         ret (message 403
           (js "Acesso negado. Você precisa comprar este curso para ver o conteúdo."))
     | p :: _ =>
         let purchaseDate := purchase_date p in
         courseInfo <- query (fun d => selectCourse d courseId) ;;
         match courseInfo with
         | [] => ret (message 404 (js "Curso não encontrado."))
         | c :: _ =>
             modules <- query (fun d => selectModules d courseId) ;;
             views <- (fun w => (mapOutcome (moduleView e purchaseDate (db w)) modules, w)) ;;
             ret {| status := 200;
                    body := JSON.Obj
                      [(js "course",
                        JSON.Obj [(js "id", num (course_id c));
                                  (js "name", JSON.Str (course_name c))]);
                       (js "modules", JSON.Arr views)] |}
         end
     end)
    (fun _ => message 500 (js "Erro interno ao buscar conteúdo do curso.")).

(** *** [brevo.js] *)

Definition sendRefundNotification (e : Env)
  (userName userEmail courseName msg : jsstring) : M unit :=
  if negb (apiInstance host) then ret tt
  else if sendTransacEmail_ok e then
    fun w =>
      (Return tt,
       {| db := db w; blobs := blobs w;
          outbox := outbox w ++
            [{| email_subject :=
                  js "🚨 NOVO PEDIDO DE REEMBOLSO: " ++ courseName;
                email_to := js "admin@seusite.com";
                email_replyTo := (userEmail, userName);
                email_userName := userName;
                email_courseName := courseName;
                email_message := msg |}] |})
  else throw (Error (js "Falha no serviço de envio de email.")).

Definition requestRefund (e : Env) (userId : Z) (courseId : option Z)
  (msg : option jsstring) : World -> Response * World :=
  match courseId, msg with
  | Some cid, Some text =>
      if negb (truthy_id courseId) || negb (truthy_str msg) then
        fun w => (message 400
          (js "ID do curso e a mensagem de solicitação são obrigatórios."), w)
      else
        tryCatch
          (purchaseRows <- query (fun d => selectPurchaseForRefund d userId cid) ;;
           match purchaseRows with
           | [] => ret (message 404 (js "Compra não encontrada para este curso."))
           | (p, c, u) :: _ =>
               let purchaseDate := purchase_date p in
               let diffTime := Z.abs (now e - purchaseDate) in
               let diffDays := Math_ceil_div diffTime (1000 * 60 * 60 * 24) in
               if 7 <? diffDays then
                 ret (message 403
                   (js "O prazo de 7 dias para reembolso expirou. Você comprou há "
                      ++ showZ diffDays ++ js " dias."))
               else
                 requestRows <- query (fun d => selectPendingRefunds d userId cid) ;;
                 if (0 <? Z.of_nat (List.length requestRows)) then
                   ret (message 409
                     (js "Você já possui um pedido de reembolso pendente para este curso."))
                 else
                   execute (insertRefundRequest e userId cid text) ;;;
                   sendRefundNotification e (user_name u) (user_email u)
                     (course_name c) text ;;;
                   ret (message 200
                     (js "Pedido de reembolso enviado com sucesso! O administrador será notificado."))
           end)
          (fun _ => message 500 (js "Erro interno ao processar pedido de reembolso."))
  | _, _ =>
      fun w => (message 400
        (js "ID do curso e a mensagem de solicitação são obrigatórios."), w)
  end.

(** [requestRefund] cut at the [await] of its INSERT.
    [requestRefund_checks] is the handler up to there: the response when it
    ends before the INSERT, or the row of the purchase when every check has
    passed. [requestRefund_insert] is the rest of the handler, run on the
    store as it is by then. *)
Definition requestRefund_checks (e : Env) (userId : Z) (courseId : option Z)
  (msg : option jsstring) (w : World) : Response + Purchase * Course * User :=
  match courseId, msg with
  | Some cid, Some text =>
      if negb (truthy_id courseId) || negb (truthy_str msg) then
        inl (message 400
          (js "ID do curso e a mensagem de solicitação são obrigatórios."))
      else
        match selectPurchaseForRefund (db w) userId cid with
        | [] => inl (message 404 (js "Compra não encontrada para este curso."))
        | (p, c, u) :: _ =>
            let purchaseDate := purchase_date p in
            let diffTime := Z.abs (now e - purchaseDate) in
            let diffDays := Math_ceil_div diffTime (1000 * 60 * 60 * 24) in
            if 7 <? diffDays then
              inl (message 403
                (js "O prazo de 7 dias para reembolso expirou. Você comprou há "
                   ++ showZ diffDays ++ js " dias."))
            else
              let requestRows := selectPendingRefunds (db w) userId cid in
              if (0 <? Z.of_nat (List.length requestRows)) then
                inl (message 409
                  (js "Você já possui um pedido de reembolso pendente para este curso."))
              else inr (p, c, u)
        end
  | _, _ =>
      inl (message 400
        (js "ID do curso e a mensagem de solicitação são obrigatórios."))
  end.

Definition requestRefund_insert (e : Env) (userId courseId : Z)
  (text : jsstring) (purchase : Purchase * Course * User)
  : World -> Response * World :=
  let '(p, c, u) := purchase in
  tryCatch
    (execute (insertRefundRequest e userId courseId text) ;;;
     sendRefundNotification e (user_name u) (user_email u) (course_name c) text ;;;
     ret (message 200
       (js "Pedido de reembolso enviado com sucesso! O administrador será notificado.")))
    (fun _ => message 500 (js "Erro interno ao processar pedido de reembolso.")).

(** *** [cloudinary.js] and [adminController.js] *)

(** The fields of the multipart form of [POST /admin/lesson] (texts, or
    absent) and its optional file (media type and bytes). *)
Record LessonForm := {
  moduleId : option jsstring;
  form_title : option jsstring;
  descriptionText : option jsstring;
  linksJson : option jsstring;
  dripDays : option jsstring;
  orderIndex : option jsstring;
  file : option (jsstring * list N)
}.

Definition uploadFile (e : Env) (mimetype : jsstring) (buffer : list N)
  (resourceType folder : jsstring) : M jsstring :=
  match upload_result e with
  | Some secure_url =>
      fun w =>
        (Return secure_url,
         {| db := db w;
            blobs := blobs w ++
              [{| upload_resource_type := resourceType;
                  upload_folder := js "cursos_online/" ++ folder;
                  upload_mimetype := mimetype;
                  upload_buffer := buffer |}];
            outbox := outbox w |})
  | None => throw (Error (js "Falha ao enviar arquivo para o armazenamento externo."))
  end.

Definition isNone {A} (x : option A) : bool :=
  match x with
  | None => true
  | Some _ => false
  end.

(** The row of [INSERT INTO Lessons]; a parameter that is not a number
    is refused by the engine, and the text bound to the JSON column is
    read by the engine as a document. *)
Definition lessonOfForm (e : Env) (mid ttl : jsstring) (videoUrl : jsstring)
  (form : LessonForm) (storedLinks : option jsstring) : outcome Lesson :=
  match sql_int host mid,
        option_map parseInt (dripDays form),
        option_map parseInt (orderIndex form) with
  | Some m, Some (Some dd), Some (Some oi) =>
      do document <-
        match storedLinks with
        | Some text =>
            match JSON.parse text with
            | Return v => Return (Some v)
            | Throw _ => Throw ER_BAD_VALUE
            end
        | None => Return None
        end;
      Return {| lesson_id := insertId e;
                lesson_module_id := m;
                title := ttl;
                video_url := videoUrl;
                description_text :=
                  if truthy_str (descriptionText form) then descriptionText form
                  else None;
                links := document;
                drip_days := dd;
                order_index := oi |}
  | _, _, _ => Throw ER_BAD_VALUE
  end.

Definition createLesson (e : Env) (form : LessonForm)
  : World -> Response * World :=
  match moduleId form, form_title form with
  | Some mid, Some ttl =>
      if negb (truthy_str (moduleId form)) || negb (truthy_str (form_title form))
         || isNone (dripDays form) || isNone (orderIndex form) then
        fun w => (message 400
          (js "Módulo ID, título, dias de liberação (drip days) e índice de ordem são obrigatórios."), w)
      else
        fun w =>
          (* 1. the video, when there is one *)
          let uploaded : Response + (jsstring * World) :=
            match file form with
            | Some (mimetype, buffer) =>
                if negb (startsWith (js "video/") mimetype) then
                  inl (message 400 (js "O arquivo enviado deve ser um vídeo."))
                else
                  match uploadFile e mimetype buffer (js "video") (js "aulas_videos") w with
                  | (Return url, w') => inr (url, w')
                  | (Throw _, _) =>
                      inl (message 500 (js "Falha ao enviar vídeo para o Cloudinary."))
                  end
            | None => inr ([], w)
            end in
          match uploaded with
          | inl r => (r, w)
          | inr (videoUrl, w1) =>
              (* 2. the links *)
              let formatted : outcome (option jsstring) :=
                if truthy_str (linksJson form) then
                  match linksJson form with
                  | Some text =>
                      do v <- JSON.parse text;
                      Return (Some (JSON.stringify v))
                  | None => Return None
                  end
                else Return None in
              match formatted with
              | Throw _ =>
                  (message 400 (js "Os links devem estar em formato JSON válido."), w1)
              | Return storedLinks =>
                  tryCatch
                    (l <- lift (lessonOfForm e mid ttl videoUrl form storedLinks) ;;
                     execute (insertLesson e l) ;;;
                     ret {| status := 201;
                            body := JSON.Obj
                              [(js "message", JSON.Str (js "Aula criada com sucesso!"));
                               (js "lessonId", num (insertId e));
                               (js "videoUrl", JSON.Str videoUrl)] |})
                    (fun _ => message 500 (js "Erro interno ao criar aula."))
                    w1
              end
          end
  | _, _ =>
      fun w => (message 400
        (js "Módulo ID, título, dias de liberação (drip days) e índice de ordem são obrigatórios."), w)
  end.

(** *** The routes of [server.js] that are modelled *)

Inductive Request :=
| PostUserPurchase (userId : Z) (courseId : option Z)
| GetUserDashboard (userId : Z)
| GetUserCourseContent (userId courseId : Z)
| PostUserRefund (userId : Z) (courseId : option Z) (msg : option jsstring)
| PostAdminLesson (form : LessonForm).

Definition handle (e : Env) (req : Request) : World -> Response * World :=
  match req with
  | PostUserPurchase u c => purchaseCourse e u c
  | GetUserDashboard u => getPurchasedCourses e u
  | GetUserCourseContent u c => getCourseContent e u c
  | PostUserRefund u c m => requestRefund e u c m
  | PostAdminLesson f => createLesson e f
  end.

End Controllers.

(** ** Roles, routes and the catalogue ([authController.js], [server.js],
       [adminController.js]) *)

(** [INSERT INTO Modules (course_id, name, order_index)]: the foreign key
    on the course and the range of the INT column are checked; a parameter
    that is not a number is refused by the engine. *)
Definition insertModule (e : Env) (courseId : Z) (name : jsstring)
  (orderIndex : option Z) (d : Database) : outcome Database :=
  match orderIndex with
  | None => Throw ER_BAD_VALUE
  | Some oi =>
      if negb (inIntRange oi) then Throw ER_BAD_VALUE
      else if courseExists d courseId then
        Return {| Users := Users d; Courses := Courses d;
                  Modules := Modules d ++
                    [{| module_id := insertId e; module_course_id := courseId;
                        module_name := name; module_order_index := oi |}];
                  Lessons := Lessons d; Purchases := Purchases d;
                  RefundRequests := RefundRequests d |}
      else Throw ER_NO_REFERENCED_ROW
  end.

Section Routes.

Variable host : Host.

(** [adminGuard]: the rejection, or [None] when the next handler runs. *)
Definition adminGuard (userType : jsstring) : option Response :=
  if negb (jsstring_eqb userType (js "admin")) then
    Some (message 403
            (js "Acesso negado. Apenas administradores podem acessar esta rota."))
  else None.

(** [createModule]; [orderIndex] is any value of the JSON body, or absent. *)
Definition createModule (e : Env) (courseId : option Z) (name : option jsstring)
  (orderIndex : option JSON.json) : World -> Response * World :=
  match courseId, name, orderIndex with
  | Some cid, Some nm, Some oi =>
      if negb (truthy_id courseId) || negb (truthy_str name) then
        fun w => (message 400
          (js "ID do curso, nome do módulo e índice de ordem são obrigatórios."), w)
      else
        tryCatch
          (course <- query (fun d => selectCourse d cid) ;;
           match course with
           | [] => ret (message 404 (js "Curso não encontrado."))
           | _ :: _ =>
               execute (insertModule e cid nm (parseInt (ToString oi))) ;;;
               ret {| status := 201;
                      body := JSON.Obj
                        [(js "message", JSON.Str (js "Módulo criado com sucesso!"));
                         (js "moduleId", num (insertId e))] |}
           end)
          (fun _ => message 500 (js "Erro interno ao criar módulo."))
  | _, _, _ =>
      fun w => (message 400
        (js "ID do curso, nome do módulo e índice de ordem são obrigatórios."), w)
  end.

(** The protected routes of [server.js], with what the request carries
    besides its [Authorization] header. *)
Inductive Call :=
| UserPurchase (courseId : option Z)
| UserDashboard
| UserCourseContent (courseId : Z)
| UserRefund (courseId : option Z) (msg : option jsstring)
| AdminModule (courseId : option Z) (name : option jsstring)
              (orderIndex : option JSON.json)
| AdminLesson (form : LessonForm).

(** A request through the middlewares of its route: [authMiddleware], then
    for the routes of the administrator [adminGuard], then the handler. *)
Definition serve (e : Env) (authorization : option jsstring) (call : Call)
  : World -> Response * World :=
  match fst (authMiddleware host authorization) with
  | Rejected r => fun w => (r, w)
  | Next userId userType =>
      match call with
      | UserPurchase c => purchaseCourse e userId c
      | UserDashboard => getPurchasedCourses e userId
      | UserCourseContent c => getCourseContent host e userId c
      | UserRefund c m => requestRefund host e userId c m
      | AdminModule c n o =>
          match adminGuard userType with
          | Some r => fun w => (r, w)
          | None => createModule e c n o
          end
      | AdminLesson f =>
          match adminGuard userType with
          | Some r => fun w => (r, w)
          | None => createLesson host e f
          end
      end
  end.

End Routes.

(** ** Accounts ([authController.js], [database.js]) *)

(** A row of Users: the columns the other routes read, and the hash. *)
Record Account := {
  account_user : User;
  user_password_hash : jsstring
}.

Record Admin := {
  admin_id : Z;
  admin_username : jsstring;
  admin_password_hash : jsstring
}.

Record AccountStore := {
  Accounts : list Account;
  Admins : list Admin
}.

(** The libraries and the engine behind the accounts. *)
Record Platform := {
  (** [bcrypt.hash(password, 10)], with the salt it draws *)
  bcrypt_hash : jsstring -> N -> jsstring;
  (** [bcrypt.compare(password, hash)] *)
  bcrypt_compare : jsstring -> jsstring -> bool;
  (** [jwt.sign(payload, jwtSecret, { expiresIn })] at an instant; [None]
      when it throws (no secret configured) *)
  jwt_sign : Claims -> jsstring -> Z -> option jsstring;
  (** [column = ?] on a text column, under the collation of the table *)
  collate : jsstring -> jsstring -> bool
}.

Section Accounts.

Variable pf : Platform.

(** [SELECT ... FROM Users WHERE email = ?]. *)
Definition selectAccount (s : AccountStore) (email : jsstring) : list Account :=
  filter (fun a => collate pf (user_email (account_user a)) email) (Accounts s).

(** [SELECT ... FROM Admins WHERE username = ?]. *)
Definition selectAdmin (s : AccountStore) (username : jsstring) : list Admin :=
  filter (fun a => collate pf (admin_username a) username) (Admins s).




Definition loginUser (e : Env) (email password : option jsstring)
  : AccountStore -> Response * AccountStore :=
  match email, password with
  | Some em, Some pw =>
      if negb (truthy_str email) || negb (truthy_str password) then
        fun s => (message 400 (js "Email e senha são obrigatórios."), s)
      else
        fun s =>
          match selectAccount s em with
          | [] => (message 401 (js "Email ou senha inválidos."), s)
          | user :: _ =>
              let isPasswordValid :=
                bcrypt_compare pf pw (user_password_hash user) in
              if negb isPasswordValid then
                (message 401 (js "Email ou senha inválidos."), s)
              else
                let id := user_id (account_user user) in
                match jwt_sign pf {| claim_id := id; claim_type := js "user" |}
                        (js "7d") (now e) with
                | Some token =>
                    ({| status := 200;
                        body := JSON.Obj
                          [(js "token", JSON.Str token);
                           (js "user",
                            JSON.Obj
                              [(js "id", num id);
                               (js "name",
                                JSON.Str (user_name (account_user user)));
                               (js "email", JSON.Str em)]);
                           (js "type", JSON.Str (js "user"))] |}, s)
                | None =>
                    (message 500 (js "Erro interno no servidor ao tentar logar."),
                     s)
                end
          end
  | _, _ => fun s => (message 400 (js "Email e senha são obrigatórios."), s)
  end.

Definition loginAdmin (e : Env) (username password : option jsstring)
  : AccountStore -> Response * AccountStore :=
  match username, password with
  | Some un, Some pw =>
      if negb (truthy_str username) || negb (truthy_str password) then
        fun s => (message 400 (js "Usuário e senha são obrigatórios."), s)
      else
        fun s =>
          match selectAdmin s un with
          | [] => (message 401 (js "Usuário ou senha inválidos."), s)
          | admin :: _ =>
              let isPasswordValid :=
                bcrypt_compare pf pw (admin_password_hash admin) in
              if negb isPasswordValid then
                (message 401 (js "Usuário ou senha inválidos."), s)
              else
                match jwt_sign pf {| claim_id := admin_id admin;
                                      claim_type := js "admin" |}
                        (js "1d") (now e) with
                | Some token =>
                    ({| status := 200;
                        body := JSON.Obj
                          [(js "token", JSON.Str token);
                           (js "admin",
                            JSON.Obj
                              [(js "id", num (admin_id admin));
                               (js "username", JSON.Str un)]);
                           (js "type", JSON.Str (js "admin"))] |}, s)
                | None =>
                    (message 500
                       (js "Erro interno no servidor ao tentar logar o administrador."),
                     s)
                end
          end
  | _, _ => fun s => (message 400 (js "Usuário e senha são obrigatórios."), s)
  end.


End Accounts.

(** ** Vocabulary of the specification *)

(** The instant [d] calendar days after [P] in the calendar of the host:
    the same local time of day, [d] days later. *)
Definition addCalendarDays (tz : Z -> bool -> Z) (P d : Z) : Z :=
  JSDate.UTC tz
    (JSDate.MakeDate (JSDate.Day (JSDate.LocalTime tz P) + d)
                     (JSDate.TimeWithinDay (JSDate.LocalTime tz P))).

(** A time value that is a date. *)
Definition isDate (t : Z) : Prop := Z.abs t <= JSDate.maxTime.

(** A time zone as the hosts have them: a local time read back as UTC is
    never after the instant it was taken from (it is before it only in the
    hour repeated when daylight saving ends, which is read with the offset
    before the change), and two offsets never differ by more than a day.
    Every zone of constant offset is one. *)
Definition regularZone (tz : Z -> bool -> Z) : Prop :=
  (forall t, JSDate.UTC tz (JSDate.LocalTime tz t) <= t)
  /\ (forall t s, tz t true - tz s false <= JSDate.msPerDay).

(** [n] is the ceiling of [a / b]. *)
Definition is_ceil (n a b : Z) : Prop := (n - 1) * b < a <= n * b.

(** A property of an object of a response. *)
Definition field (k : string) (v : JSON.json) : option JSON.json :=
  match v with
  | JSON.Obj ps => JSON.obj_get (js k) ps
  | _ => None
  end.


(** The entry of a released lesson in the listing, with its links as
    they were read, and the entry of a lesson to be released at [rd]. *)
Definition fullView (l : Lesson) (linksValue : JSON.json) : JSON.json :=
  JSON.Obj
    [(js "id", num (lesson_id l));
     (js "title", JSON.Str (title l));
     (js "video_url", JSON.Str (video_url l));
     (js "description_text", nullable (description_text l));
     (js "links", linksValue);
     (js "drip_days", num (drip_days l));
     (js "order_index", num (order_index l));
     (js "isReleased", JSON.Bool true)].

Definition redactedView (l : Lesson) (rd : Z) : JSON.json :=
  JSON.Obj
    [(js "id", num (lesson_id l));
     (js "title", JSON.Str (title l));
     (js "order_index", num (order_index l));
     (js "isReleased", JSON.Bool false);
     (js "releaseDate", JSON.Str (JSDate.isoDate rd));
     (js "videoUrl", JSON.Null);
     (js "descriptionText",
      JSON.Str (js "O conteúdo desta aula será liberado em breve."));
     (js "links", JSON.Null)].

Definition hasPurchase (d : Database) (userId courseId : Z) : Prop :=
  exists p, In p (Purchases d)
            /\ purchase_user_id p = userId /\ purchase_course_id p = courseId.

Definition hasCourse (d : Database) (courseId : Z) : Prop :=
  exists c, In c (Courses d) /\ course_id c = courseId.

Definition isPending (r : RefundRequest) : bool :=
  match refund_status r with
  | PENDENTE => true
  | _ => false
  end.

Definition hasPendingRefund (d : Database) (userId courseId : Z) : Prop :=
  exists r, In r (RefundRequests d)
            /\ refund_user_id r = userId /\ refund_course_id r = courseId
            /\ refund_status r = PENDENTE.

(** The primary keys of Users and Courses. *)
Definition primary_keys (d : Database) : Prop :=
  NoDup (map user_id (Users d)) /\ NoDup (map course_id (Courses d)).

(** At most one purchase per (user, course). *)
Definition purchases_unique (d : Database) : Prop :=
  NoDup (map (fun p => (purchase_user_id p, purchase_course_id p)) (Purchases d)).

(** At most one pending refund request per (user, course). *)
Definition pending_unique (d : Database) : Prop :=
  NoDup (map (fun r => (refund_user_id r, refund_course_id r))
             (filter isPending (RefundRequests d))).

(** What the schema of [database.js] guarantees of the rows of Purchases:
    the foreign keys to Users and Courses hold and the AUTO_INCREMENT keys
    of the courses are positive. *)
Definition schema_ok (d : Database) : Prop :=
  (forall p, In p (Purchases d) ->
     userExists d (purchase_user_id p) = true
     /\ courseExists d (purchase_course_id p) = true)
  /\ (forall c, In c (Courses d) -> 0 < course_id c).

(** The states the routes can produce, however their requests interleave:
    a handler that runs alone is one step, and so is each INSERT of the
    routes on the two ledgers taken by itself, with whatever parameters,
    since a handler awaits between its statements and its checks were made
    on an earlier state of the store. The other tables are also edited by
    routes that are not modelled (registration, catalogue). *)
Inductive reachable (host : Host) : World -> Prop :=
| reachable_init (w : World) :
    Purchases (db w) = [] -> RefundRequests (db w) = [] -> reachable host w
| reachable_handle (e : Env) (req : Request) (w : World) :
    reachable host w -> reachable host (snd (handle host e req w))
| reachable_insertPurchase (e : Env) (userId courseId : Z) (w : World) :
    reachable host w ->
    reachable host (snd (execute (insertPurchase e userId courseId) w))
| reachable_insertRefundRequest (e : Env) (userId courseId : Z)
    (text : jsstring) (w : World) :
    reachable host w ->
    reachable host (snd (execute (insertRefundRequest e userId courseId text) w))
| reachable_catalogue (w w' : World) :
    reachable host w ->
    Purchases (db w') = Purchases (db w) ->
    RefundRequests (db w') = RefundRequests (db w) ->
    reachable host w'.

(** ** Sample data *)

Definition sampleHost : Host :=
  {| LocalTZA := fun _ _ => 0;
     apiInstance := true;
     jwt_verify := fun tok =>
       if jsstring_eqb tok (js "a") then
         Some {| claim_id := 1; claim_type := js "user" |}
       else None;
     sql_int := parseInt |}.


(** A host whose verification also accepts the token [z], signed for the
    administrator with the key 1. *)
Definition staffHost : Host :=
  {| LocalTZA := LocalTZA sampleHost;
     apiInstance := apiInstance sampleHost;
     jwt_verify := fun tok =>
       if jsstring_eqb tok (js "z") then
         Some {| claim_id := 1; claim_type := js "admin" |}
       else jwt_verify sampleHost tok;
     sql_int := sql_int sampleHost |}.

Definition T0 : Z := 1700000000000.

(** A platform for the examples: the hash is the salt followed by the
    password, the comparison reads it back, the collation is equality of
    texts, and a token names the role it was signed for. *)
Definition samplePlatform : Platform :=
  {| bcrypt_hash := fun password salt => salt :: password;
     bcrypt_compare := fun password hash =>
       match hash with
       | _ :: rest => jsstring_eqb password rest
       | [] => false
       end;
     jwt_sign := fun claims _ _ =>
       Some (if jsstring_eqb (claim_type claims) (js "admin") then js "z"
             else js "a");
     collate := jsstring_eqb |}.

Definition sampleStore : AccountStore :=
  {| Accounts := [{| account_user :=
                       {| user_id := 1; user_name := js "Ana";
                          user_email := js "ana@example.com" |};
                     user_password_hash := 7%N :: js "segredo" |}];
     Admins := [] |}.

Definition sampleEnv (t : Z) : Env :=
  {| now := t; current_timestamp := t; insertId := 77;
     sendTransacEmail_ok := false;
     upload_result := Some (js "https://cdn.example/v.mp4") |}.

(** A request served at [t] whose mail is sent and whose inserted row gets
    the key [id]. *)
Definition mailEnv (t id : Z) : Env :=
  {| now := t; current_timestamp := t; insertId := id;
     sendTransacEmail_ok := true;
     upload_result := Some (js "https://cdn.example/v.mp4") |}.

Definition sampleLesson : Lesson :=
  {| lesson_id := 9; lesson_module_id := 2; title := js "Aula 1";
     video_url := js "https://cdn.example/a.mp4";
     description_text := Some (js "Resumo");
     links := Some (JSON.Arr [num 1; num 2]);
     drip_days := 3; order_index := 1 |}.

(** A lesson whose drip days put its release outside the range of Date. *)
Definition farLesson : Lesson :=
  {| lesson_id := 10; lesson_module_id := 2; title := js "Aula 2";
     video_url := js "https://cdn.example/b.mp4";
     description_text := None; links := None;
     drip_days := -200000000; order_index := 2 |}.

Definition samplePurchase : Purchase :=
  {| purchase_id := 1; purchase_user_id := 1; purchase_course_id := 5;
     purchase_date := T0 |}.

Definition sampleDb : Database :=
  {| Users := [{| user_id := 1; user_name := js "Ana";
                  user_email := js "ana@example.com" |}];
     Courses := [{| course_id := 5; course_name := js "Rocq";
                    course_image_url := js "https://cdn.example/c.png";
                    course_description := js "Provas" |}];
     Modules := [{| module_id := 2; module_course_id := 5;
                    module_name := js "Início"; module_order_index := 1 |}];
     Lessons := [sampleLesson];
     Purchases := [samplePurchase];
     RefundRequests := [] |}.

Definition sampleWorld : World :=
  {| db := sampleDb; blobs := []; outbox := [] |}.

(** Two lessons without links, released at the purchase and two days
    later, and the sample database with them as its lessons. *)
Definition plainLesson : Lesson :=
  {| lesson_id := 11; lesson_module_id := 2; title := js "Boas-vindas";
     video_url := js "https://cdn.example/w.mp4";
     description_text := None; links := None;
     drip_days := 0; order_index := 1 |}.

Definition laterLesson : Lesson :=
  {| lesson_id := 12; lesson_module_id := 2; title := js "Aula 4";
     video_url := js "https://cdn.example/d.mp4";
     description_text := Some (js "Resumo"); links := None;
     drip_days := 2; order_index := 2 |}.

Definition plainWorld : World :=
  {| db := {| Users := Users sampleDb; Courses := Courses sampleDb;
              Modules := Modules sampleDb;
              Lessons := [laterLesson; plainLesson];
              Purchases := Purchases sampleDb;
              RefundRequests := [] |};
     blobs := []; outbox := [] |}.

(** The sample database before the purchase. *)
Definition newcomerWorld : World :=
  {| db := {| Users := Users sampleDb; Courses := Courses sampleDb;
              Modules := Modules sampleDb; Lessons := Lessons sampleDb;
              Purchases := []; RefundRequests := [] |};
     blobs := []; outbox := [] |}.

(** The sample database with the far lesson added to the module. *)
Definition farWorld : World :=
  {| db := {| Users := Users sampleDb; Courses := Courses sampleDb;
              Modules := Modules sampleDb;
              Lessons := [sampleLesson; farLesson];
              Purchases := Purchases sampleDb;
              RefundRequests := [] |};
     blobs := []; outbox := [] |}.

(** The sample database after a refund request of user 1 for course 5, one
    day after the purchase, that nobody has handled yet. *)
Definition pendingRequest : RefundRequest :=
  {| refund_id := 1; refund_user_id := 1; refund_course_id := 5;
     refund_message := js "Quero o reembolso";
     request_date := T0 + 86400000; refund_status := PENDENTE |}.

Definition pendingWorld : World :=
  {| db := {| Users := Users sampleDb; Courses := Courses sampleDb;
              Modules := Modules sampleDb; Lessons := Lessons sampleDb;
              Purchases := Purchases sampleDb;
              RefundRequests := [pendingRequest] |};
     blobs := []; outbox := [] |}.

(** A form of [POST /admin/lesson] for module 2 with the given links and
    optional file. *)
Definition linksForm (text : option jsstring) (upload : option (jsstring * list N))
  : LessonForm :=
  {| moduleId := Some (js "2"); form_title := Some (js "Aula 3");
     descriptionText := None; linksJson := text;
     dripDays := Some (js "0"); orderIndex := Some (js "3");
     file := upload |}.

Definition quoted (s : string) : jsstring := 34%N :: js s ++ [34%N].

(** The text [[{"title":"Docs","pages":12.5}]] and its value. *)
Definition sampleLinks : jsstring :=
  js "[{" ++ quoted "title" ++ js ":" ++ quoted "Docs" ++ js ","
    ++ quoted "pages" ++ js ":12.5}]".

Definition sampleLinksValue : JSON.json :=
  JSON.Arr
    [JSON.Obj [(js "title", JSON.Str (js "Docs"));
               (js "pages", JSON.Num (JSON.Finite false [1; 2; 5]%N 2))]].

(* ===================================================================== *)
(** * Part II. Properties                                                 *)
(* ===================================================================== *)

(** ** Calendar arithmetic *)

Section DateFacts.

Import JSDate.

Lemma MonthFromTime_range (t : Z) : 0 <= MonthFromTime t <= 11.
Proof.
  unfold MonthFromTime.
  repeat match goal with
         | |- context [if ?b then _ else _] => destruct b
         end; lia.
Qed.

(** [YearFromDay] meets its specification: the year found is the largest
    one that starts at or before the day. *)
Lemma YearFromDay_spec (d : Z) :
  DayFromYear (YearFromDay d) <= d < DayFromYear (YearFromDay d + 1).
Proof.
  unfold YearFromDay, DayFromYear.
  destruct (Z.leb_spec
    (365 * (1970 + 400 * d / 146097 + 1 - 1970)
     + (1970 + 400 * d / 146097 + 1 - 1969) / 4
     - (1970 + 400 * d / 146097 + 1 - 1901) / 100
     + (1970 + 400 * d / 146097 + 1 - 1601) / 400) d) as [H1 | H1].
  - Z.div_mod_to_equations. lia.
  - destruct (Z.ltb_spec d
      (365 * (1970 + 400 * d / 146097 - 1970)
       + (1970 + 400 * d / 146097 - 1969) / 4
       - (1970 + 400 * d / 146097 - 1901) / 100
       + (1970 + 400 * d / 146097 - 1601) / 400)) as [H2 | H2].
    + Z.div_mod_to_equations. lia.
    + Z.div_mod_to_equations. lia.
Qed.

Lemma YearFromTime_spec (t : Z) :
  TimeFromYear (YearFromTime t) <= t < TimeFromYear (YearFromTime t + 1).
Proof.
  unfold TimeFromYear, YearFromTime.
  pose proof (YearFromDay_spec (Day t)) as H.
  unfold Day, msPerDay in *.
  Z.div_mod_to_equations. lia.
Qed.

(** Setting the day of the month to the current one plus [d] moves the day
    number by [d], whatever the month and the year. *)
Lemma MakeDay_DateFromTime (t d : Z) :
  MakeDay (YearFromTime t) (MonthFromTime t) (DateFromTime t + d) = Day t + d.
Proof.
  pose proof (MonthFromTime_range t) as Hm.
  unfold MakeDay, DateFromTime, DayWithinYear, InLeapYear.
  replace (MonthFromTime t / 12) with 0
    by (symmetry; apply Z.div_small; lia).
  rewrite Z.mod_small by lia.
  rewrite Z.add_0_r. lia.
Qed.

End DateFacts.

Section DateStrings.

Import JSDate.
Lemma split_nonempty (sep : char16) (s : jsstring) : split sep s <> [].
Proof.
  induction s as [| c s IH]; simpl; [discriminate |].
  destruct (N.eqb c sep); [discriminate |].
  destruct (split sep s); [contradiction | discriminate].
Qed.

Lemma split_app_sep (sep : char16) (p r : jsstring) :
  ~ In sep p -> split sep (p ++ sep :: r) = p :: split sep r.
Proof.
  induction p as [| c p IH]; intros Hn; simpl.
  - rewrite N.eqb_refl. reflexivity.
  - destruct (N.eqb_spec c sep) as [-> | Hc].
    + exfalso. apply Hn. left. reflexivity.
    + rewrite IH by (intros H; apply Hn; right; exact H). reflexivity.
Qed.

Lemma padDigits_range (w : nat) (z : Z) (c : char16) :
  In c (padDigits w z) -> (48 <= c <= 57)%N.
Proof.
  revert z. induction w as [| w IH]; intros z H; simpl in H; [contradiction |].
  apply in_app_or in H. destruct H as [H | [H | []]].
  - apply (IH _ H).
  - subst c. unfold digitChar.
    pose proof (Z.mod_pos_bound z 10 ltac:(lia)). lia.
Qed.

Lemma isoYear_range (y : Z) (c : char16) :
  In c (isoYear y) -> (43 <= c <= 57)%N.
Proof.
  unfold isoYear.
  destruct ((0 <=? y) && (y <=? 9999)); intros H.
  - apply padDigits_range in H. lia.
  - apply in_app_or in H. destruct H as [H | H].
    + destruct (y <? 0);
        [change (js "-") with [45%N] in H | change (js "+") with [43%N] in H];
        destruct H as [<- | []]; lia.
    + apply padDigits_range in H. lia.
Qed.

Lemma isoDate_range (t : Z) (c : char16) :
  In c (isoDate t) -> (43 <= c <= 57)%N.
Proof.
  unfold isoDate. change (js "-") with [45%N].
  rewrite !in_app_iff.
  intros [H | [[<- | []] | [H | [[<- | []] | H]]]];
    try lia;
    try (apply isoYear_range in H; lia);
    try (apply padDigits_range in H; lia).
Qed.

(** The part of the ISO string before its [T] is the calendar date. *)
Lemma toISOString_date (t : Z) (iso : jsstring) :
  toISOString (Some t) = Return iso ->
  nth_error (split 84%N iso) 0 = Some (isoDate t).
Proof.
  unfold toISOString. intros H. injection H as <-.
  change (js "T") with [84%N].
  change ([84%N] ++ isoTime t ++ js "Z") with (84%N :: isoTime t ++ js "Z").
  rewrite split_app_sep; [reflexivity |].
  intros H. apply isoDate_range in H. lia.
Qed.

End DateStrings.

(** ** Drip release ([getCourseContent]) *)

Section DripRelease.

Import JSDate.

Variable host : Host.

Lemma TimeClip_isDate (t : Z) : isDate t -> TimeClip t = Some t.
Proof.
  unfold isDate, TimeClip. intros H.
  destruct (Z.leb_spec (Z.abs t) maxTime); [reflexivity | lia].
Qed.

(** The release date of the program is the purchase instant moved by the
    drip days on the calendar of the host, when that is a date at all. *)
Lemma releaseDateOf_calendar (P d : Z) :
  releaseDateOf host P d = TimeClip (addCalendarDays (LocalTZA host) P d).
Proof.
  unfold releaseDateOf, setDate, getDate, option_map, addCalendarDays.
  rewrite MakeDay_DateFromTime. reflexivity.
Qed.

(** In a time zone of constant offset a calendar day is 24 hours. *)
Lemma addCalendarDays_constant_offset (tza P d : Z) :
  (forall t b, LocalTZA host t b = tza) ->
  addCalendarDays (LocalTZA host) P d = P + d * msPerDay.
Proof.
  intros Htz. unfold addCalendarDays, UTC, LocalTime, MakeDate, Day, TimeWithinDay.
  rewrite !Htz.
  pose proof (Z.div_mod (P + tza) msPerDay ltac:(unfold msPerDay; lia)).
  lia.
Qed.

Lemma constant_offset_regular (tz : Z -> bool -> Z) (tza : Z) :
  (forall t b, tz t b = tza) -> regularZone tz.
Proof.
  intros Htz. split.
  - intros t. unfold UTC, LocalTime. rewrite !Htz. lia.
  - intros t s. rewrite !Htz. unfold msPerDay. lia.
Qed.

(** Moving back on the calendar, or not at all, never moves forward in
    time. *)
Lemma addCalendarDays_regular (tz : Z -> bool -> Z) (P d : Z) :
  regularZone tz -> d <= 0 -> addCalendarDays tz P d <= P.
Proof.
  intros [Hback Hjump] Hd. unfold addCalendarDays.
  assert (Hlocal : MakeDate (Day (LocalTime tz P) + d)
                            (TimeWithinDay (LocalTime tz P))
                   = LocalTime tz P + d * msPerDay).
  { unfold MakeDate, Day, TimeWithinDay.
    pose proof (Z.div_mod (LocalTime tz P) msPerDay
                  ltac:(unfold msPerDay; lia)).
    lia. }
  rewrite Hlocal.
  destruct (Z.eq_dec d 0) as [-> | Hneg].
  - rewrite Z.mul_0_l, Z.add_0_r. apply Hback.
  - unfold UTC, LocalTime.
    pose proof (Hjump P (P + tz P true + d * msPerDay)) as Hj.
    unfold msPerDay in *. lia.
Qed.

Lemma lessonView_released (e : Env) (P r : Z) (lesson : Lesson) :
  releaseDateOf host P (drip_days lesson) = Some r ->
  r <= now e ->
  lessonView host e P lesson = releasedLesson lesson.
Proof.
  intros Hr Hle. unfold lessonView. rewrite Hr. simpl.
  destruct (Z.leb_spec r (now e)); [reflexivity | lia].
Qed.

Lemma lessonView_redacted (e : Env) (P r : Z) (lesson : Lesson) :
  releaseDateOf host P (drip_days lesson) = Some r ->
  now e < r ->
  lessonView host e P lesson = redactedLesson lesson (Some r).
Proof.
  intros Hr Hlt. unfold lessonView. rewrite Hr. simpl date_geb.
  destruct (Z.leb_spec r (now e)); [lia | reflexivity].
Qed.

Lemma redactedLesson_shape (lesson : Lesson) (r : Z) :
  redactedLesson lesson (Some r) =
  Return (JSON.Obj
    [(js "id", num (lesson_id lesson));
     (js "title", JSON.Str (title lesson));
     (js "order_index", num (order_index lesson));
     (js "isReleased", JSON.Bool false);
     (js "releaseDate", JSON.Str (isoDate r));
     (js "videoUrl", JSON.Null);
     (js "descriptionText",
      JSON.Str (js "O conteúdo desta aula será liberado em breve."));
     (js "links", JSON.Null)]).
Proof.
  unfold redactedLesson.
  destruct (toISOString (Some r)) as [iso |] eqn:Hiso; [| discriminate].
  unfold obind. rewrite (toISOString_date r iso Hiso). reflexivity.
Qed.

(** The object of a released lesson: the columns of the row with the
    links read again, then [isReleased]. *)
Lemma releasedLesson_full (lesson : Lesson) (parsed : JSON.json) :
  match links lesson with
  | Some v => if truthy v then JSON.parse (ToString v) else Return JSON.Null
  | None => Return JSON.Null
  end = Return parsed ->
  releasedLesson lesson =
  Return (JSON.Obj
    [(js "id", num (lesson_id lesson));
     (js "title", JSON.Str (title lesson));
     (js "video_url", JSON.Str (video_url lesson));
     (js "description_text", nullable (description_text lesson));
     (js "links", parsed);
     (js "drip_days", num (drip_days lesson));
     (js "order_index", num (order_index lesson));
     (js "isReleased", JSON.Bool true)]).
Proof.
  intros H. unfold releasedLesson. rewrite H. cbn [obind]. reflexivity.
Qed.

(** A released lesson whose links cannot be read again has no object. *)
Lemma releasedLesson_throws (lesson : Lesson) (err : exn) :
  match links lesson with
  | Some v => if truthy v then JSON.parse (ToString v) else Return JSON.Null
  | None => Return JSON.Null
  end = Throw err ->
  releasedLesson lesson = Throw err.
Proof.
  intros H. unfold releasedLesson. rewrite H. reflexivity.
Qed.

End DripRelease.
(** ** The relational store *)

Section StoreFacts.

Lemma filter_nil_iff {A} (f : A -> bool) (l : list A) :
  filter f l = [] <-> forall x, In x l -> f x = false.
Proof.
  induction l as [| a l IH]; simpl.
  - split; [intros _ x [] | reflexivity].
  - destruct (f a) eqn:Ha; split.
    + discriminate.
    + intros H. specialize (H a (or_introl eq_refl)). congruence.
    + intros H x [<- | Hx]; [exact Ha | apply IH; assumption].
    + intros H. apply IH. intros x Hx. apply H. right. exact Hx.
Qed.

Lemma selectPurchase_In (d : Database) (u c : Z) (p : Purchase) :
  In p (selectPurchase d u c) <->
  In p (Purchases d) /\ purchase_user_id p = u /\ purchase_course_id p = c.
Proof.
  unfold selectPurchase. rewrite filter_In, andb_true_iff, !Z.eqb_eq.
  reflexivity.
Qed.

Lemma selectPurchase_nil (d : Database) (u c : Z) :
  selectPurchase d u c = [] <-> ~ hasPurchase d u c.
Proof.
  split.
  - intros H [p Hp]. apply selectPurchase_In in Hp. rewrite H in Hp.
    exact Hp.
  - intros H. destruct (selectPurchase d u c) as [| p l] eqn:E; [reflexivity |].
    exfalso. apply H. exists p. apply selectPurchase_In. rewrite E.
    left. reflexivity.
Qed.

Lemma selectCourse_In (d : Database) (c : Z) (x : Course) :
  In x (selectCourse d c) <-> In x (Courses d) /\ course_id x = c.
Proof.
  unfold selectCourse. rewrite filter_In, Z.eqb_eq. reflexivity.
Qed.

Lemma selectCourse_nil (d : Database) (c : Z) :
  selectCourse d c = [] <-> ~ hasCourse d c.
Proof.
  split.
  - intros H [x Hx]. apply selectCourse_In in Hx. rewrite H in Hx. exact Hx.
  - intros H. destruct (selectCourse d c) as [| x l] eqn:E; [reflexivity |].
    exfalso. apply H. exists x. apply selectCourse_In. rewrite E.
    left. reflexivity.
Qed.

Lemma courseExists_hasCourse (d : Database) (c : Z) :
  courseExists d c = true <-> hasCourse d c.
Proof.
  unfold courseExists, hasCourse. rewrite existsb_exists.
  split; intros [x [Hx E]]; exists x; split; try assumption;
    [apply Z.eqb_eq | apply Z.eqb_eq]; assumption.
Qed.

Lemma selectPending_In (d : Database) (u c : Z) (r : RefundRequest) :
  In r (selectPendingRefunds d u c) <->
  In r (RefundRequests d) /\ refund_user_id r = u /\ refund_course_id r = c
  /\ refund_status r = PENDENTE.
Proof.
  unfold selectPendingRefunds.
  rewrite filter_In, !andb_true_iff, !Z.eqb_eq.
  destruct (refund_status r); intuition congruence.
Qed.

Lemma selectPending_nil (d : Database) (u c : Z) :
  selectPendingRefunds d u c = [] <-> ~ hasPendingRefund d u c.
Proof.
  split.
  - intros H [r Hr]. apply selectPending_In in Hr. rewrite H in Hr. exact Hr.
  - intros H. destruct (selectPendingRefunds d u c) as [| r l] eqn:E;
      [reflexivity |].
    exfalso. apply H. exists r. apply selectPending_In. rewrite E.
    left. reflexivity.
Qed.

(** A key that is unique in a table selects at most its own row. *)
Lemma filter_unique_key {A K} (key : A -> K) (f : A -> bool) (l : list A) (x : A) :
  NoDup (map key l) ->
  (forall y, f y = true <-> key y = key x) ->
  In x l ->
  filter f l = [x].
Proof.
  intros Hnd Hf. induction l as [| a l IH]; intros Hin; [contradiction |].
  simpl in Hnd. inversion Hnd as [| k ks Hnotin Hnd']; subst.
  simpl. destruct Hin as [-> | Hin].
  - assert (Hx : f x = true) by (apply Hf; reflexivity).
    rewrite Hx. f_equal. apply filter_nil_iff. intros y Hy.
    destruct (f y) eqn:Hfy; [| reflexivity].
    exfalso. apply Hnotin. apply Hf in Hfy. rewrite <- Hfy.
    apply in_map. exact Hy.
  - destruct (f a) eqn:Hfa.
    + exfalso. apply Hnotin. apply Hf in Hfa. rewrite Hfa.
      apply in_map. exact Hin.
    + apply IH; assumption.
Qed.

Lemma selectPurchase_unique (d : Database) (p : Purchase) :
  purchases_unique d ->
  In p (Purchases d) ->
  selectPurchase d (purchase_user_id p) (purchase_course_id p) = [p].
Proof.
  intros Hu Hin. unfold selectPurchase.
  apply (filter_unique_key
           (fun q => (purchase_user_id q, purchase_course_id q)));
    [exact Hu | | exact Hin].
  intros y. rewrite andb_true_iff, !Z.eqb_eq.
  split; [intros [-> ->]; reflexivity | intros H; injection H; auto].
Qed.

Lemma insertBy_In {A} (key : A -> Z) (x y : A) (l : list A) :
  In y (insertBy key x l) <-> y = x \/ In y l.
Proof.
  induction l as [| a l IH]; simpl.
  - intuition.
  - destruct (key x <=? key a); simpl; [intuition |].
    rewrite IH. intuition.
Qed.

Lemma orderBy_In {A} (key : A -> Z) (y : A) (l : list A) :
  In y (orderBy key l) <-> In y l.
Proof.
  induction l as [| a l IH]; simpl; [reflexivity |].
  rewrite insertBy_In, IH. intuition.
Qed.

End StoreFacts.

(** ** Access gating of the content listing *)

(** C4. The content listing looks for the purchase first: without a
    Purchase row of the user for the course it answers 403, whether the
    course exists or not; it answers 404 exactly when there is a purchase
    and no course; the two rejections are different responses; nothing is
    written. *)
Theorem content_gating (host : Host) (e : Env) (u c : Z) (w : World) :
  let r := fst (getCourseContent host e u c w) in
  (~ hasPurchase (db w) u c ->
     r = message 403
           (js "Acesso negado. Você precisa comprar este curso para ver o conteúdo."))
  /\ (hasPurchase (db w) u c -> ~ hasCourse (db w) c ->
        r = message 404 (js "Curso não encontrado."))
  /\ (status r = 404 <-> hasPurchase (db w) u c /\ ~ hasCourse (db w) c)
  /\ (status r = 403 <-> ~ hasPurchase (db w) u c)
  /\ snd (getCourseContent host e u c w) = w.
Proof.
  unfold getCourseContent, tryCatch, bind, query, ret.
  pose proof (selectPurchase_nil (db w) u c) as HP.
  pose proof (selectCourse_nil (db w) c) as HC.
  cbv beta iota zeta.
  destruct (selectPurchase (db w) u c) as [| p ps] eqn:EP.
  - assert (Hno : ~ hasPurchase (db w) u c) by (apply HP; reflexivity).
    cbn [fst snd].
    split; [reflexivity |].
    split; [intros H; contradiction |].
    split; [split; [intros H; discriminate H | intros [H _]; contradiction] |].
    split; [split; [intros _; exact Hno | reflexivity] | reflexivity].
  - assert (Hyes : hasPurchase (db w) u c).
    { exists p. apply selectPurchase_In. rewrite EP. left. reflexivity. }
    assert (Hnn : ~ ~ hasPurchase (db w) u c) by tauto.
    destruct (selectCourse (db w) c) as [| x xs] eqn:EC.
    + assert (Hno : ~ hasCourse (db w) c) by (apply HC; reflexivity).
      cbn [fst snd].
      split; [intros H; contradiction |].
      split; [reflexivity |].
      split; [split; [intros _; split; assumption | reflexivity] |].
      split; [split; [intros H; discriminate H | intros H; contradiction] |
              reflexivity].
    + assert (Hc : hasCourse (db w) c).
      { exists x. apply selectCourse_In. rewrite EC. left. reflexivity. }
      destruct (mapOutcome _ _) as [views | err]; cbn [fst snd].
      * split; [intros H; contradiction |].
        split; [intros _ H; contradiction |].
        split; [split; [intros H; discriminate H | intros [_ H]; contradiction] |].
        split; [split; [intros H; discriminate H | intros H; contradiction] |
                reflexivity].
      * split; [intros H; contradiction |].
        split; [intros _ H; contradiction |].
        split; [split; [intros H; discriminate H | intros [_ H]; contradiction] |].
        split; [split; [intros H; discriminate H | intros H; contradiction] |
                reflexivity].
Qed.

(** ** The content listing ([getCourseContent]) *)

Section ListingFacts.

Variable host : Host.


Lemma mapOutcome_total {A B} (f : A -> outcome B) (l : list A) :
  (forall x, In x l -> exists y, f x = Return y) <->
  exists ys, mapOutcome f l = Return ys.
Proof.
  induction l as [| x l IH]; cbn [mapOutcome].
  - split; [intros _; eexists; reflexivity | intros _ x []].
  - unfold obind. split.
    + intros H. destruct (H x (or_introl eq_refl)) as [y Hy]. rewrite Hy.
      destruct (proj1 IH (fun z Hz => H z (or_intror Hz))) as [ys Hys].
      rewrite Hys. eexists. reflexivity.
    + intros [ys H] z Hz.
      destruct (f x) as [y |] eqn:Ey; [| discriminate].
      destruct (mapOutcome f l) as [ys' |] eqn:El; [| discriminate].
      destruct Hz as [<- | Hz]; [exists y; exact Ey |].
      apply (proj2 IH (ex_intro _ ys' eq_refl) z Hz).
Qed.



Lemma selectModules_In (d : Database) (c : Z) (m : CourseModule) :
  In m (selectModules d c) <-> In m (Modules d) /\ module_course_id m = c.
Proof.
  unfold selectModules. rewrite orderBy_In, filter_In, Z.eqb_eq. reflexivity.
Qed.

Lemma selectLessons_In (d : Database) (mid : Z) (l : Lesson) :
  In l (selectLessons d mid) <-> In l (Lessons d) /\ lesson_module_id l = mid.
Proof.
  unfold selectLessons. rewrite orderBy_In, filter_In, Z.eqb_eq. reflexivity.
Qed.


(** The steps of the listing of a purchaser. *)
Lemma getCourseContent_steps (e : Env) (u c : Z) (w : World)
  (p : Purchase) (ps : list Purchase) :
  selectPurchase (db w) u c = p :: ps ->
  getCourseContent host e u c w
  = match selectCourse (db w) c with
    | [] => (message 404 (js "Curso não encontrado."), w)
    | x :: _ =>
        match mapOutcome (moduleView host e (purchase_date p) (db w))
                (selectModules (db w) c) with
        | Return views =>
            ({| status := 200;
                body := JSON.Obj
                  [(js "course",
                    JSON.Obj [(js "id", num (course_id x));
                              (js "name", JSON.Str (course_name x))]);
                   (js "modules", JSON.Arr views)] |}, w)
        | Throw _ =>
            (message 500 (js "Erro interno ao buscar conteúdo do curso."), w)
        end
    end.
Proof.
  intros Hp. unfold getCourseContent, tryCatch, bind, query, ret.
  cbv beta iota zeta. rewrite Hp.
  destruct (selectCourse (db w) c); [reflexivity |].
  destruct (mapOutcome _ _); reflexivity.
Qed.





End ListingFacts.
(** C1. A lesson that holds links and whose release date is reached is
    not returned in full: the pool hands the links over decoded, reading
    them again as JSON text throws, and the whole listing is answered 500;
    one instant earlier the listing is answered 200. A lesson whose drip
    days put its release date outside the range of Date, although they
    are not positive, is never released and fails the listing as well. *)
Theorem drip_release_listing_error :
  drip_days sampleLesson = 3
  /\ links sampleLesson = Some (JSON.Arr [num 1; num 2])
  /\ releaseDateOf sampleHost T0 (drip_days sampleLesson)
     = Some (T0 + 3 * 86400000)
  /\ ToString (JSON.Arr [num 1; num 2]) = js "1,2"
  /\ JSON.parse (js "1,2") = Throw SyntaxError
  /\ lessonView sampleHost (sampleEnv (T0 + 3 * 86400000)) T0 sampleLesson
     = Throw SyntaxError
  /\ getCourseContent sampleHost (sampleEnv (T0 + 3 * 86400000)) 1 5 sampleWorld
     = (message 500 (js "Erro interno ao buscar conteúdo do curso."), sampleWorld)
  /\ status (fst (getCourseContent sampleHost
                    (sampleEnv (T0 + 3 * 86400000 - 1)) 1 5 sampleWorld)) = 200
  /\ drip_days farLesson = -200000000
  /\ releaseDateOf sampleHost T0 (drip_days farLesson) = None
  /\ lessonView sampleHost (sampleEnv T0) T0 farLesson = Throw RangeError
  /\ getCourseContent sampleHost (sampleEnv T0) 1 5 farWorld
     = (message 500 (js "Erro interno ao buscar conteúdo do curso."), farWorld).
Proof.
  repeat split; vm_compute; reflexivity.
Qed.


(** ** Effects of the routes on the two ledgers *)

Section Effects.

Variable host : Host.

Lemma courseExists_select (d : Database) (c : Z) :
  courseExists d c = true -> exists x xs, selectCourse d c = x :: xs.
Proof.
  intros H. apply courseExists_hasCourse in H.
  destruct (selectCourse d c) as [| x xs] eqn:E.
  - apply selectCourse_nil in E. contradiction.
  - exists x, xs. reflexivity.
Qed.

(** A purchase request leaves the store as it is or appends one row for
    a pair that had none. *)
Lemma purchaseCourse_effect (e : Env) (u : Z) (c : option Z) (w : World) :
  snd (purchaseCourse e u c w) = w
  \/ exists cid,
       c = Some cid
       /\ selectPurchase (db w) u cid = []
       /\ Purchases (db (snd (purchaseCourse e u c w))) =
            Purchases (db w) ++
              [{| purchase_id := insertId e; purchase_user_id := u;
                  purchase_course_id := cid;
                  purchase_date := current_timestamp e |}]
       /\ RefundRequests (db (snd (purchaseCourse e u c w))) = RefundRequests (db w).
Proof.
  unfold purchaseCourse.
  destruct c as [cid |]; [| left; reflexivity].
  destruct (negb (truthy_id (Some cid))); [left; reflexivity |].
  unfold tryCatch, bind, query, ret, execute, insertPurchase.
  cbv beta iota zeta.
  destruct (selectCourse (db w) cid) as [| x xs]; [left; reflexivity |].
  destruct (selectPurchase (db w) u cid) as [| p ps] eqn:EP;
    [| left; reflexivity].
  destruct (userExists (db w) u && courseExists (db w) cid);
    [| left; reflexivity].
  right. exists cid.
  split; [reflexivity |]. split; [exact EP |]. split; reflexivity.
Qed.

Lemma purchaseCourse_duplicate (e : Env) (u c : Z) (w : World) :
  schema_ok (db w) ->
  hasPurchase (db w) u c ->
  purchaseCourse e u (Some c) w = (message 409 (js "Você já comprou este curso."), w).
Proof.
  intros [Hfk Hpos] Hp.
  assert (Hsel : selectPurchase (db w) u c <> []).
  { intros H. apply selectPurchase_nil in H. contradiction. }
  destruct Hp as [p [Hin [Hu Hc]]].
  destruct (Hfk p Hin) as [_ Hce]. rewrite Hc in Hce.
  destruct (courseExists_select _ _ Hce) as [x [xs Hx]].
  assert (Hc0 : c <> 0).
  { assert (Hxin : In x (selectCourse (db w) c)) by (rewrite Hx; left; reflexivity).
    apply selectCourse_In in Hxin. destruct Hxin as [Hxin Hid].
    specialize (Hpos x Hxin). lia. }
  unfold purchaseCourse, truthy_id.
  destruct (Z.eqb_spec c 0) as [-> | _]; [contradiction |].
  cbn [negb].
  unfold tryCatch, bind, query, ret, execute, insertPurchase.
  cbv beta iota zeta. rewrite Hx.
  destruct (selectPurchase (db w) u c); [contradiction | reflexivity].
Qed.

(** A refund request leaves the store as it is or appends one pending row
    for a pair that had none pending. *)
Lemma requestRefund_effect (e : Env) (u : Z) (c : option Z)
  (m : option jsstring) (w : World) :
  let w' := snd (requestRefund host e u c m w) in
  w' = w
  \/ exists cid text,
       c = Some cid /\ m = Some text
       /\ selectPendingRefunds (db w) u cid = []
       /\ RefundRequests (db w') =
            RefundRequests (db w) ++
              [{| refund_id := insertId e; refund_user_id := u;
                  refund_course_id := cid; refund_message := text;
                  request_date := current_timestamp e;
                  refund_status := PENDENTE |}]
       /\ Purchases (db w') = Purchases (db w)
       /\ blobs w' = blobs w.
Proof.
  unfold requestRefund.
  destruct c as [cid |]; [| left; reflexivity].
  destruct m as [text |]; [| left; reflexivity].
  destruct (negb (truthy_id (Some cid)) || negb (truthy_str (Some text)));
    [left; reflexivity |].
  unfold tryCatch, bind, query, ret, execute, insertRefundRequest,
    sendRefundNotification, throw.
  cbv beta iota zeta.
  destruct (selectPurchaseForRefund (db w) u cid) as [| [[p x] us] rows];
    [left; reflexivity |].
  destruct (7 <? _); [left; reflexivity |].
  destruct (selectPendingRefunds (db w) u cid) as [| r rs] eqn:ER;
    [| left; reflexivity].
  cbn [List.length Z.of_nat Z.ltb Z.compare].
  destruct (userExists (db w) u && courseExists (db w) cid);
    [| left; reflexivity].
  right. exists cid, text.
  split; [reflexivity |]. split; [reflexivity |]. split; [exact ER |].
  destruct (apiInstance host); cbn [negb];
    [destruct (sendTransacEmail_ok e) |]; repeat split; reflexivity.
Qed.

Lemma createLesson_effect (e : Env) (form : LessonForm) (w : World) :
  let w' := snd (createLesson host e form w) in
  Purchases (db w') = Purchases (db w)
  /\ RefundRequests (db w') = RefundRequests (db w).
Proof.
  unfold createLesson.
  destruct (moduleId form) as [mid |]; [| split; reflexivity].
  destruct (form_title form) as [ttl |]; [| split; reflexivity].
  destruct (_ || _); [split; reflexivity |].
  destruct (file form) as [[mimetype buffer] |].
  - destruct (negb (startsWith (js "video/") mimetype)); [split; reflexivity |].
    unfold uploadFile, throw.
    destruct (upload_result e) as [url |]; [| split; reflexivity].
    destruct (if truthy_str (linksJson form) then _ else _) as [stored |];
      [| split; reflexivity].
    unfold tryCatch, bind, lift, execute, insertLesson, ret.
    destruct (lessonOfForm host e mid ttl url form stored) as [l |];
      [| split; reflexivity].
    destruct (negb _); [split; reflexivity |].
    cbn [db].
    destruct (moduleExists _ _); split; reflexivity.
  - destruct (if truthy_str (linksJson form) then _ else _) as [stored |];
      [| split; reflexivity].
    unfold tryCatch, bind, lift, execute, insertLesson, ret.
    destruct (lessonOfForm host e mid ttl [] form stored) as [l |];
      [| split; reflexivity].
    destruct (negb _); [split; reflexivity |].
    destruct (moduleExists _ _); split; reflexivity.
Qed.

Lemma getCourseContent_effect (e : Env) (u c : Z) (w : World) :
  snd (getCourseContent host e u c w) = w.
Proof.
  unfold getCourseContent, tryCatch, bind, query, ret.
  cbv beta iota zeta.
  destruct (selectPurchase (db w) u c); [reflexivity |].
  destruct (selectCourse (db w) c); [reflexivity |].
  destruct (mapOutcome _ _); reflexivity.
Qed.

Lemma getPurchasedCourses_effect (e : Env) (u : Z) (w : World) :
  snd (getPurchasedCourses e u w) = w.
Proof. reflexivity. Qed.

Lemma NoDup_snoc {A} (l : list A) (x : A) :
  NoDup l -> ~ In x l -> NoDup (l ++ [x]).
Proof.
  intros Hl Hx. apply NoDup_app; [exact Hl | repeat constructor; intros [] |].
  intros a Ha [<- | []]. contradiction.
Qed.

Lemma handle_purchases_unique (e : Env) (req : Request) (w : World) :
  purchases_unique (db w) -> purchases_unique (db (snd (handle host e req w))).
Proof.
  intros H. destruct req as [u c | u | u c | u c m | form]; cbn [handle].
  - destruct (purchaseCourse_effect e u c w) as [-> | [cid [-> [Hnone [HP _]]]]];
      [exact H |].
    unfold purchases_unique. rewrite HP, map_app. apply NoDup_snoc; [exact H |].
    cbn [map purchase_user_id purchase_course_id].
    intros Hin. apply in_map_iff in Hin. destruct Hin as [p [Hk Hp]].
    injection Hk as Hu Hc.
    assert (Hsel : In p (selectPurchase (db w) u cid))
      by (apply selectPurchase_In; auto).
    rewrite Hnone in Hsel. exact Hsel.
  - rewrite getPurchasedCourses_effect. exact H.
  - rewrite getCourseContent_effect. exact H.
  - destruct (requestRefund_effect e u c m w)
      as [-> | [cid [text [_ [_ [_ [_ [HP _]]]]]]]]; [exact H |].
    unfold purchases_unique. rewrite HP. exact H.
  - destruct (createLesson_effect e form w) as [HP _].
    unfold purchases_unique. rewrite HP. exact H.
Qed.

Lemma handle_pending_unique (e : Env) (req : Request) (w : World) :
  pending_unique (db w) -> pending_unique (db (snd (handle host e req w))).
Proof.
  intros H. destruct req as [u c | u | u c | u c m | form]; cbn [handle].
  - destruct (purchaseCourse_effect e u c w) as [-> | [cid [_ [_ [_ HR]]]]];
      [exact H |].
    unfold pending_unique. rewrite HR. exact H.
  - rewrite getPurchasedCourses_effect. exact H.
  - rewrite getCourseContent_effect. exact H.
  - destruct (requestRefund_effect e u c m w)
      as [-> | [cid [text [_ [_ [Hnone [HR _]]]]]]]; [exact H |].
    unfold pending_unique. rewrite HR, filter_app, map_app.
    cbn [filter isPending refund_status map refund_user_id refund_course_id].
    apply NoDup_snoc; [exact H |].
    intros Hin. apply in_map_iff in Hin. destruct Hin as [r [Hk Hr]].
    injection Hk as Hu Hc. apply filter_In in Hr. destruct Hr as [Hr Hpend].
    assert (Hsel : In r (selectPendingRefunds (db w) u cid)).
    { apply selectPending_In. repeat split; auto.
      unfold isPending in Hpend. destruct (refund_status r);
        [reflexivity | discriminate | discriminate]. }
    rewrite Hnone in Hsel. exact Hsel.
  - destruct (createLesson_effect e form w) as [_ HR].
    unfold pending_unique. rewrite HR. exact H.
Qed.

(** The INSERT into Purchases taken by itself: the engine checks the
    unique key, whatever the handler has checked before. *)
Lemma insertPurchase_purchases_unique (e : Env) (u c : Z) (w : World) :
  purchases_unique (db w) ->
  purchases_unique (db (snd (execute (insertPurchase e u c) w))).
Proof.
  intros H. unfold execute, insertPurchase.
  destruct (selectPurchase (db w) u c) as [| p ps] eqn:EP; [| exact H].
  destruct (userExists (db w) u && courseExists (db w) c); [| exact H].
  cbn [snd with_db db]. unfold purchases_unique. cbn [Purchases].
  rewrite map_app. apply NoDup_snoc; [exact H |].
  cbn [map purchase_user_id purchase_course_id].
  intros Hin. apply in_map_iff in Hin. destruct Hin as [p [Hk Hp]].
  injection Hk as Hu Hc.
  assert (Hsel : In p (selectPurchase (db w) u c))
    by (apply selectPurchase_In; auto).
  rewrite EP in Hsel. exact Hsel.
Qed.

Lemma insertRefundRequest_purchases (e : Env) (u c : Z) (text : jsstring)
  (w : World) :
  Purchases (db (snd (execute (insertRefundRequest e u c text) w)))
  = Purchases (db w).
Proof.
  unfold execute, insertRefundRequest.
  destruct (userExists (db w) u && courseExists (db w) c); reflexivity.
Qed.

(** At most one purchase per pair holds in every state the routes can
    produce, however their requests interleave. *)
Lemma reachable_purchases_unique (w : World) :
  reachable host w -> purchases_unique (db w).
Proof.
  induction 1 as [w HP HR | e req w Hw IH | e u c w Hw IH
                  | e u c text w Hw IH | w w' Hw IH HP HR].
  - unfold purchases_unique. rewrite HP. constructor.
  - apply handle_purchases_unique. exact IH.
  - apply insertPurchase_purchases_unique. exact IH.
  - unfold purchases_unique. rewrite insertRefundRequest_purchases. exact IH.
  - unfold purchases_unique in *. rewrite HP. exact IH.
Qed.

End Effects.

(** C5. In every state the routes can produce there is at most one
    Purchase row per (user, course); and once a purchase of the course by
    the user exists, a further purchase request of that user for that
    course gets the 409 "already purchased" response and leaves the whole
    store as it was. *)
Theorem purchase_unique_and_idempotent (host : Host) :
  (forall w, reachable host w -> purchases_unique (db w))
  /\ (forall e req w, purchases_unique (db w) ->
        purchases_unique (db (snd (handle host e req w))))
  /\ (forall e u c w,
        schema_ok (db w) -> hasPurchase (db w) u c ->
        purchaseCourse e u (Some c) w
          = (message 409 (js "Você já comprou este curso."), w)).
Proof.
  split; [| split].
  - intros w Hw. apply (reachable_purchases_unique host w Hw).
  - intros e req w. apply handle_purchases_unique.
  - intros e u c w. apply purchaseCourse_duplicate.
Qed.

(** ** The refund window *)

Section RefundWindow.

Variable host : Host.

Lemma Math_ceil_div_is_ceil (a b : Z) :
  0 < b -> is_ceil (Math_ceil_div a b) a b.
Proof.
  intros Hb. unfold is_ceil, Math_ceil_div.
  pose proof (Z.div_mod (- a) b ltac:(lia)) as Hdm.
  pose proof (Z.mod_pos_bound (- a) b Hb) as Hr.
  lia.
Qed.

Lemma is_ceil_unique (n m a b : Z) :
  0 < b -> is_ceil n a b -> is_ceil m a b -> n = m.
Proof.
  unfold is_ceil. intros Hb Hn Hm.
  assert (H1 : n - 1 < m) by (apply (Z.mul_lt_mono_pos_r b); lia).
  assert (H2 : m - 1 < n) by (apply (Z.mul_lt_mono_pos_r b); lia).
  lia.
Qed.

(** The number of days of the program is the ceiling of the elapsed time
    in days. *)
Lemma diffDays_is_ceil (n now0 P : Z) :
  is_ceil n (Z.abs (now0 - P)) JSDate.msPerDay ->
  Math_ceil_div (Z.abs (now0 - P)) (1000 * 60 * 60 * 24) = n.
Proof.
  intros Hn.
  apply (is_ceil_unique _ _ (Z.abs (now0 - P)) JSDate.msPerDay);
    [unfold JSDate.msPerDay; lia | | exact Hn].
  apply Math_ceil_div_is_ceil. reflexivity.
Qed.

Lemma userExists_filter (d : Database) (u : Z) :
  userExists d u = true ->
  exists x xs, filter (fun y => user_id y =? u) (Users d) = x :: xs.
Proof.
  unfold userExists. intros H. apply existsb_exists in H.
  destruct H as [x [Hin Hx]].
  destruct (filter _ (Users d)) as [| y ys] eqn:E.
  - assert (Hf : In x (filter (fun y => user_id y =? u) (Users d)))
      by (apply filter_In; auto).
    rewrite E in Hf. contradiction.
  - exists y, ys. reflexivity.
Qed.

(** With its purchase in the store, the query of the refund request
    returns that purchase first. *)
Lemma selectPurchaseForRefund_head (d : Database) (p : Purchase) :
  schema_ok d -> purchases_unique d -> In p (Purchases d) ->
  purchase_course_id p <> 0
  /\ userExists d (purchase_user_id p) = true
  /\ courseExists d (purchase_course_id p) = true
  /\ exists x us rows,
       selectPurchaseForRefund d (purchase_user_id p) (purchase_course_id p)
         = (p, x, us) :: rows.
Proof.
  intros [Hfk Hpos] Hu Hin.
  destruct (Hfk p Hin) as [Hue Hce].
  destruct (courseExists_select _ _ Hce) as [x [xs Hx]].
  destruct (userExists_filter _ _ Hue) as [us [uss Hus]].
  repeat split; try assumption.
  - assert (Hxin : In x (selectCourse d (purchase_course_id p)))
      by (rewrite Hx; left; reflexivity).
    apply selectCourse_In in Hxin. destruct Hxin as [Hxin Hid].
    specialize (Hpos x Hxin). lia.
  - unfold selectPurchaseForRefund.
    rewrite (selectPurchase_unique d p Hu Hin).
    cbn [flat_map]. rewrite Hx. cbn [flat_map]. rewrite Hus.
    cbn [map app]. eexists _, _, _. reflexivity.
Qed.

(** What a well-formed refund request of a purchaser does, step by step. *)
Lemma requestRefund_purchased (e : Env) (p : Purchase) (text : jsstring)
  (w : World) :
  schema_ok (db w) -> purchases_unique (db w) -> In p (Purchases (db w)) ->
  text <> [] ->
  let u := purchase_user_id p in
  let c := purchase_course_id p in
  let n := Math_ceil_div (Z.abs (now e - purchase_date p)) (1000 * 60 * 60 * 24) in
  let w1 :=
    with_db w
      {| Users := Users (db w); Courses := Courses (db w);
         Modules := Modules (db w); Lessons := Lessons (db w);
         Purchases := Purchases (db w);
         RefundRequests := RefundRequests (db w) ++
           [{| refund_id := insertId e; refund_user_id := u;
               refund_course_id := c; refund_message := text;
               request_date := current_timestamp e;
               refund_status := PENDENTE |}] |} in
  exists mail,
    requestRefund host e u (Some c) (Some text) w =
      if 7 <? n then
        (message 403
           (js "O prazo de 7 dias para reembolso expirou. Você comprou há "
              ++ showZ n ++ js " dias."), w)
      else
        match selectPendingRefunds (db w) u c with
        | _ :: _ =>
            (message 409
               (js "Você já possui um pedido de reembolso pendente para este curso."),
             w)
        | [] =>
            if negb (apiInstance host) then
              (message 200
                 (js "Pedido de reembolso enviado com sucesso! O administrador será notificado."),
               w1)
            else if sendTransacEmail_ok e then
              (message 200
                 (js "Pedido de reembolso enviado com sucesso! O administrador será notificado."),
               {| db := db w1; blobs := blobs w1; outbox := outbox w1 ++ [mail] |})
            else
              (message 500 (js "Erro interno ao processar pedido de reembolso."),
               w1)
        end.
Proof.
  intros Hs Hu Hin Htext u c n w1. subst u c.
  destruct (selectPurchaseForRefund_head (db w) p Hs Hu Hin)
    as [Hc0 [Hue [Hce [x [us [rows Hrows]]]]]].
  exists {| email_subject := js "🚨 NOVO PEDIDO DE REEMBOLSO: " ++ course_name x;
            email_to := js "admin@seusite.com";
            email_replyTo := (user_email us, user_name us);
            email_userName := user_name us;
            email_courseName := course_name x;
            email_message := text |}.
  unfold requestRefund, truthy_id, truthy_str.
  destruct (Z.eqb_spec (purchase_course_id p) 0) as [E | _]; [contradiction |].
  destruct text as [| ch text']; [contradiction |].
  cbn [negb orb].
  unfold tryCatch, bind, query, ret, execute, insertRefundRequest,
    sendRefundNotification, throw.
  cbv beta iota zeta.
  rewrite Hrows. fold n.
  destruct (7 <? n); [reflexivity |].
  destruct (selectPendingRefunds (db w) _ _) as [| r rs]; [| reflexivity].
  cbn [List.length Z.of_nat Z.ltb Z.compare].
  rewrite Hue, Hce. cbn [andb].
  destruct (apiInstance host); cbn [negb]; [| reflexivity].
  destruct (sendTransacEmail_ok e); reflexivity.
Qed.

End RefundWindow.

(** Replaces a purchaser's refund request by its steps. *)
Ltac refund_steps H :=
  let Hsteps := fresh "Hsteps" in
  let mail := fresh "mail" in
  pose proof H as Hsteps; cbv zeta in Hsteps;
  destruct Hsteps as [mail Hsteps]; rewrite Hsteps; clear Hsteps.

Lemma withRefundStatus_fields (e : Env) (pc : Purchase * Course) (n : Z) :
  is_ceil n (Z.abs (now e - purchase_date (fst pc))) JSDate.msPerDay ->
  field "daysSincePurchase" (withRefundStatus e pc) = Some (num n)
  /\ field "isRefundEligible" (withRefundStatus e pc) = Some (JSON.Bool (n <=? 7)).
Proof.
  intros Hn. unfold withRefundStatus.
  rewrite (diffDays_is_ceil n (now e) (purchase_date (fst pc)) Hn).
  destruct pc as [p x]. split; reflexivity.
Qed.

(** C2. The eligibility flag of the purchase list is [ceil(|now - P| / 1
    day) <= 7]: one second after the purchase the number of days is 1 and
    the purchase is eligible, seven days and one second after it the
    number is 8 and the purchase is not eligible; and the refund request of
    a purchaser is rejected with the 403 "window expired" response, with
    nothing written, whenever that number is above 7. *)
Theorem refund_eligibility_ceiling :
  (forall e pc n,
     is_ceil n (Z.abs (now e - purchase_date (fst pc))) JSDate.msPerDay ->
     field "daysSincePurchase" (withRefundStatus e pc) = Some (num n)
     /\ field "isRefundEligible" (withRefundStatus e pc)
        = Some (JSON.Bool (n <=? 7)))
  /\ (forall e pc,
        now e - purchase_date (fst pc) = 1000 ->
        field "daysSincePurchase" (withRefundStatus e pc) = Some (num 1)
        /\ field "isRefundEligible" (withRefundStatus e pc)
           = Some (JSON.Bool true))
  /\ (forall e pc,
        now e - purchase_date (fst pc) = 7 * JSDate.msPerDay + 1000 ->
        field "daysSincePurchase" (withRefundStatus e pc) = Some (num 8)
        /\ field "isRefundEligible" (withRefundStatus e pc)
           = Some (JSON.Bool false))
  /\ (forall (host : Host) (e : Env) (p : Purchase) (text : jsstring)
             (w : World) (n : Z),
        schema_ok (db w) -> purchases_unique (db w) ->
        In p (Purchases (db w)) -> text <> [] ->
        is_ceil n (Z.abs (now e - purchase_date p)) JSDate.msPerDay ->
        7 < n ->
        requestRefund host e (purchase_user_id p) (Some (purchase_course_id p))
          (Some text) w
        = (message 403
             (js "O prazo de 7 dias para reembolso expirou. Você comprou há "
                ++ showZ n ++ js " dias."), w)).
Proof.
  split; [| split; [| split]].
  - intros e pc n Hn. apply withRefundStatus_fields. exact Hn.
  - intros e pc H.
    apply (withRefundStatus_fields e pc 1).
    rewrite H. unfold is_ceil, JSDate.msPerDay. lia.
  - intros e pc H.
    apply (withRefundStatus_fields e pc 8).
    rewrite H. unfold is_ceil, JSDate.msPerDay. lia.
  - intros host e p text w n Hs Hu Hin Htext Hn Hlt.
    refund_steps (requestRefund_purchased host e p text w Hs Hu Hin Htext).
    rewrite (diffDays_is_ceil n (now e) (purchase_date p) Hn).
    destruct (Z.ltb_spec 7 n); [reflexivity | lia].
Qed.

(** The handler of the refund request is its checks followed by its
    INSERT and notification. *)
Lemma requestRefund_split (host : Host) (e : Env) (u : Z) (c : option Z)
  (m : option jsstring) (w : World) :
  requestRefund host e u c m w
  = match requestRefund_checks e u c m w with
    | inl r => (r, w)
    | inr purchase =>
        match c, m with
        | Some cid, Some text => requestRefund_insert host e u cid text purchase w
        | _, _ =>
            (message 400
               (js "ID do curso e a mensagem de solicitação são obrigatórios."), w)
        end
    end.
Proof.
  unfold requestRefund, requestRefund_checks, requestRefund_insert.
  destruct c as [cid |]; [| reflexivity].
  destruct m as [text |]; [| reflexivity].
  destruct (negb (truthy_id (Some cid)) || negb (truthy_str (Some text)));
    [reflexivity |].
  unfold tryCatch, bind, query, ret. cbv beta iota zeta.
  destruct (selectPurchaseForRefund (db w) u cid) as [| [[p x] us] rows];
    [reflexivity |].
  destruct (7 <? _); [reflexivity |].
  destruct (0 <? Z.of_nat (List.length (selectPendingRefunds (db w) u cid)));
    reflexivity.
Qed.

(** C6. A refund request for a pair that already has a pending request
    writes nothing and does not succeed, and for a purchaser inside the
    window it is answered 409; a purchaser's request made when the number
    of days is above 7 is answered 403, pending request or not, and writes
    nothing; a request inserts a row only when the store it has read holds
    no pending request of the pair, so that requests served one after the
    other keep at most one pending request per (user, course). *)
Theorem refund_request_blocked (host : Host) :
  (forall e u c m w,
     hasPendingRefund (db w) u c ->
     snd (requestRefund host e u (Some c) m w) = w
     /\ In (status (fst (requestRefund host e u (Some c) m w)))
           [400; 403; 404; 409])
  /\ (forall (e : Env) (p : Purchase) (text : jsstring) (w : World) (n : Z),
        schema_ok (db w) -> purchases_unique (db w) ->
        In p (Purchases (db w)) -> text <> [] ->
        is_ceil n (Z.abs (now e - purchase_date p)) JSDate.msPerDay ->
        (n <= 7 ->
         hasPendingRefund (db w) (purchase_user_id p) (purchase_course_id p) ->
         requestRefund host e (purchase_user_id p)
           (Some (purchase_course_id p)) (Some text) w
         = (message 409
              (js "Você já possui um pedido de reembolso pendente para este curso."),
            w))
        /\ (7 < n ->
            requestRefund host e (purchase_user_id p)
              (Some (purchase_course_id p)) (Some text) w
            = (message 403
                 (js "O prazo de 7 dias para reembolso expirou. Você comprou há "
                    ++ showZ n ++ js " dias."), w)))
  /\ (forall e u c m w,
        snd (requestRefund host e u c m w) = w
        \/ exists cid text,
             c = Some cid /\ m = Some text
             /\ ~ hasPendingRefund (db w) u cid
             /\ RefundRequests (db (snd (requestRefund host e u c m w)))
                = RefundRequests (db w) ++
                    [{| refund_id := insertId e; refund_user_id := u;
                        refund_course_id := cid; refund_message := text;
                        request_date := current_timestamp e;
                        refund_status := PENDENTE |}])
  /\ (forall e req w, pending_unique (db w) ->
        pending_unique (db (snd (handle host e req w)))).
Proof.
  split; [| split; [| split]].
  - intros e u c m w Hpend.
    assert (Hsel : selectPendingRefunds (db w) u c <> []).
    { intros H. apply selectPending_nil in H. contradiction. }
    unfold requestRefund.
    destruct m as [text |]; [| split; [reflexivity | left; reflexivity]].
    destruct (negb (truthy_id (Some c)) || negb (truthy_str (Some text)));
      [split; [reflexivity | left; reflexivity] |].
    unfold tryCatch, bind, query, ret.
    cbv beta iota zeta.
    destruct (selectPurchaseForRefund (db w) u c) as [| [[p x] us] rows];
      [split; [reflexivity | right; right; left; reflexivity] |].
    destruct (7 <? _); [split; [reflexivity | right; left; reflexivity] |].
    destruct (selectPendingRefunds (db w) u c) as [| r rs]; [contradiction |].
    split; [reflexivity | right; right; right; left; reflexivity].
  - intros e p text w n Hs Hu Hin Htext Hn.
    refund_steps (requestRefund_purchased host e p text w Hs Hu Hin Htext).
    rewrite (diffDays_is_ceil n (now e) (purchase_date p) Hn).
    split.
    + intros Hle Hpend.
      destruct (Z.ltb_spec 7 n); [lia |].
      destruct (selectPendingRefunds (db w) _ _) eqn:E; [| reflexivity].
      apply selectPending_nil in E. contradiction.
    + intros Hlt. destruct (Z.ltb_spec 7 n); [reflexivity | lia].
  - intros e u c m w.
    destruct (requestRefund_effect host e u c m w)
      as [H | [cid [text [Hc [Hm [Hnone [HR _]]]]]]]; [left; exact H |].
    right. exists cid, text.
    split; [exact Hc |]. split; [exact Hm |].
    split; [apply selectPending_nil; exact Hnone | exact HR].
  - intros e req w. apply handle_pending_unique.
Qed.
Lemma purchases_unique_same_key (d : Database) (p q : Purchase) :
  purchases_unique d ->
  In p (Purchases d) -> In q (Purchases d) ->
  purchase_user_id q = purchase_user_id p ->
  purchase_course_id q = purchase_course_id p ->
  q = p.
Proof.
  intros Hu Hp Hq Hku Hkc.
  assert (H : In q (selectPurchase d (purchase_user_id p) (purchase_course_id p)))
    by (apply selectPurchase_In; auto).
  rewrite (selectPurchase_unique d p Hu Hp) in H.
  destruct H as [<- | []]. reflexivity.
Qed.

Lemma selectPurchasedCourses_In (d : Database) (u : Z) (pc : Purchase * Course) :
  In pc (selectPurchasedCourses d u) <->
  In (fst pc) (Purchases d) /\ purchase_user_id (fst pc) = u
  /\ In (snd pc) (Courses d) /\ course_id (snd pc) = purchase_course_id (fst pc).
Proof.
  unfold selectPurchasedCourses. rewrite orderBy_In, in_flat_map.
  split.
  - intros [p [Hp Hin]]. apply filter_In in Hp. destruct Hp as [Hp Hu].
    apply in_map_iff in Hin. destruct Hin as [x [<- Hx]].
    apply selectCourse_In in Hx. cbn [fst snd].
    apply Z.eqb_eq in Hu. tauto.
  - destruct pc as [p x]. cbn [fst snd]. intros [Hp [Hu [Hx Hid]]].
    exists p. split.
    + apply filter_In. split; [exact Hp | apply Z.eqb_eq; exact Hu].
    + apply in_map. apply selectCourse_In. auto.
Qed.

(** C7. The purchase list and the refund request compute the same number
    of days and take the same decision: for a purchase of the user, the
    rows of the dashboard for that course carry the ceiling [n] of the
    elapsed days and the flag [n <= 7], and the refund request for that
    course is rejected as expired, quoting the same [n], exactly when the
    flag is false. *)
Theorem refund_arithmetic_shared
  (host : Host) (e : Env) (p : Purchase) (text : jsstring) (w : World) :
  schema_ok (db w) -> purchases_unique (db w) ->
  In p (Purchases (db w)) -> text <> [] ->
  let u := purchase_user_id p in
  let c := purchase_course_id p in
  exists n,
    is_ceil n (Z.abs (now e - purchase_date p)) JSDate.msPerDay
    /\ fst (getPurchasedCourses e u w)
       = {| status := 200;
            body := JSON.Arr (map (withRefundStatus e)
                                  (selectPurchasedCourses (db w) u)) |}
    /\ (exists x, In (p, x) (selectPurchasedCourses (db w) u))
    /\ (forall pc, In pc (selectPurchasedCourses (db w) u) ->
          purchase_course_id (fst pc) = c ->
          field "daysSincePurchase" (withRefundStatus e pc) = Some (num n)
          /\ field "isRefundEligible" (withRefundStatus e pc)
             = Some (JSON.Bool (n <=? 7)))
    /\ ((n <=? 7) = false ->
        requestRefund host e u (Some c) (Some text) w
        = (message 403
             (js "O prazo de 7 dias para reembolso expirou. Você comprou há "
                ++ showZ n ++ js " dias."), w))
    /\ ((n <=? 7) = true ->
        status (fst (requestRefund host e u (Some c) (Some text) w)) <> 403).
Proof.
  intros Hs Hu Hin Htext u c. subst u c.
  pose (n := Math_ceil_div (Z.abs (now e - purchase_date p)) (1000 * 60 * 60 * 24)).
  assert (Hn : is_ceil n (Z.abs (now e - purchase_date p)) JSDate.msPerDay)
    by (apply Math_ceil_div_is_ceil; reflexivity).
  exists n. split; [exact Hn |]. split; [reflexivity |].
  destruct (selectPurchaseForRefund_head (db w) p Hs Hu Hin)
    as [_ [_ [Hce _]]].
  split; [| split; [| split]].
  - apply courseExists_hasCourse in Hce. destruct Hce as [x [Hx Hid]].
    exists x. apply selectPurchasedCourses_In. cbn [fst snd]. auto.
  - intros pc Hpc Hc. apply selectPurchasedCourses_In in Hpc.
    destruct Hpc as [Hq [Hqu _]].
    assert (E : fst pc = p)
      by (apply (purchases_unique_same_key (db w)); auto).
    apply withRefundStatus_fields. rewrite E. exact Hn.
  - intros Hflag.
    refund_steps (requestRefund_purchased host e p text w Hs Hu Hin Htext).
    fold n. destruct (Z.ltb_spec 7 n); [reflexivity |].
    apply Z.leb_gt in Hflag. lia.
  - intros Hflag.
    refund_steps (requestRefund_purchased host e p text w Hs Hu Hin Htext).
    fold n. apply Z.leb_le in Hflag.
    destruct (Z.ltb_spec 7 n); [lia |].
    destruct (selectPendingRefunds (db w) _ _);
      [| cbn [fst status message]; discriminate].
    destruct (negb (apiInstance host));
      [cbn [fst status message]; discriminate |].
    destruct (sendTransacEmail_ok e); cbn [fst status message]; discriminate.
Qed.

(** ** The bearer token *)

Section BearerToken.

Lemma split_no_sep (sep : char16) (s : jsstring) :
  ~ In sep s -> split sep s = [s].
Proof.
  induction s as [| c s IH]; intros Hn; simpl; [reflexivity |].
  destruct (N.eqb_spec c sep) as [-> | _].
  - exfalso. apply Hn. left. reflexivity.
  - rewrite IH by (intros H; apply Hn; right; exact H). reflexivity.
Qed.

(** The first segment holds no separator, and the text is that segment,
    followed, when there are more segments, by a separator and the text of
    the others. *)
Lemma split_first (sep : char16) (s : jsstring) :
  exists seg segs,
    split sep s = seg :: segs
    /\ ~ In sep seg
    /\ ((segs = [] /\ s = seg)
        \/ exists rest, s = seg ++ sep :: rest /\ split sep rest = segs).
Proof.
  induction s as [| c s IH]; simpl.
  - exists [], []. split; [reflexivity |]. split; [intros [] |].
    left. split; reflexivity.
  - destruct (N.eqb_spec c sep) as [-> | Hc].
    + exists [], (split sep s). split; [reflexivity |].
      split; [intros [] |]. right. exists s. split; reflexivity.
    + destruct IH as [seg [segs [E [Hn Hs]]]]. rewrite E.
      exists (c :: seg), segs. split; [reflexivity |].
      split; [intros [H | H]; [congruence | contradiction] |].
      destruct Hs as [[-> ->] | [rest [-> Hr]]].
      * left. split; reflexivity.
      * right. exists rest. split; [reflexivity | exact Hr].
Qed.

(** The second segment of a text lies between its first and its second
    separator. *)
Lemma split_second (sep : char16) (s tok : jsstring) :
  nth_error (split sep s) 1 = Some tok ->
  ~ In sep tok
  /\ exists pre post,
       s = pre ++ sep :: tok ++ post
       /\ ~ In sep pre
       /\ (post = [] \/ exists post', post = sep :: post').
Proof.
  intros H.
  destruct (split_first sep s) as [seg [segs [E [Hn Hs]]]].
  rewrite E in H. cbn [nth_error] in H.
  destruct Hs as [[-> _] | [rest [-> Hr]]]; [discriminate |].
  destruct (split_first sep rest) as [seg2 [segs2 [E2 [Hn2 Hs2]]]].
  rewrite <- Hr, E2 in H. cbn [nth_error] in H. injection H as ->.
  split; [exact Hn2 |].
  destruct Hs2 as [[_ ->] | [rest2 [-> _]]].
  - exists seg, []. rewrite List.app_nil_r. split; [reflexivity |].
    split; [exact Hn | left; reflexivity].
  - exists seg, (sep :: rest2). split; [reflexivity |].
    split; [exact Hn | right; exists rest2; reflexivity].
Qed.

End BearerToken.

(** C9. A request whose Authorization header is absent or holds no space
    is answered 401 without any call of the token verification; and a
    token handed to the verification is never empty and is the segment of
    the header between its first space and its second one (the whole
    remainder when there is no second space). *)
Theorem auth_token_segment (host : Host) :
  (forall authorization,
     (authorization = None
      \/ exists h, authorization = Some h /\ ~ In 32%N h) ->
     authMiddleware host authorization
     = (Rejected (message 401 (js "Acesso negado. Token não fornecido.")), []))
  /\ (forall (h tok : jsstring),
        In tok (snd (authMiddleware host (Some h))) ->
        tok <> []
        /\ ~ In 32%N tok
        /\ exists pre post,
             h = pre ++ 32%N :: tok ++ post
             /\ ~ In 32%N pre
             /\ (post = [] \/ exists post', post = 32%N :: post')).
Proof.
  split.
  - intros authorization [-> | [h [-> Hn]]]; [reflexivity |].
    unfold authMiddleware. rewrite (split_no_sep 32%N h Hn). reflexivity.
  - intros h tok. unfold authMiddleware.
    destruct (nth_error (split 32%N h) 1) as [t |] eqn:E;
      [| intros []].
    destruct t as [| ch t']; [intros [] |].
    cbn [truthy_str negb].
    intros Hin.
    assert (Htok : tok = ch :: t').
    { destruct (jwt_verify host (ch :: t')); destruct Hin as [<- | []];
        reflexivity. }
    subst tok. split; [discriminate |].
    apply (split_second 32%N h (ch :: t') E).
Qed.

(** The verification is called with [a], the segment between the two
    spaces, and not with [a b], the text after the first space. *)
Lemma auth_token_not_remainder :
  snd (authMiddleware sampleHost (Some (js "Bearer a b"))) = [js "a"]
  /\ fst (authMiddleware sampleHost (Some (js "Bearer a b"))) = Next 1 (js "user")
  /\ js "Bearer a b" = js "Bearer" ++ 32%N :: js "a b"
  /\ forallb (fun c => negb (N.eqb c 32)) (js "Bearer") = true
  /\ jsstring_eqb (js "a") (js "a b") = false.
Proof. repeat split; vm_compute; reflexivity. Qed.

Lemma auth_token_segment_witness :
  authMiddleware sampleHost (Some (js "a"))
  = (Rejected (message 401 (js "Acesso negado. Token não fornecido.")), []).
Proof.
  apply (auth_token_segment sampleHost). right. exists (js "a").
  split; [reflexivity |].
  vm_compute. intros [H | []]. discriminate H.
Defined.

(** ** The sample store *)

Lemma sampleDb_schema_ok : schema_ok sampleDb.
Proof.
  split.
  - intros p [<- | []]. split; reflexivity.
  - intros c [<- | []]. reflexivity.
Qed.

Lemma sampleDb_purchases_unique : purchases_unique sampleDb.
Proof. repeat constructor. intros []. Qed.


Lemma content_gating_witness :
  fst (getCourseContent sampleHost (sampleEnv T0) 2 5 sampleWorld)
  = message 403
      (js "Acesso negado. Você precisa comprar este curso para ver o conteúdo.").
Proof.
  destruct (content_gating sampleHost (sampleEnv T0) 2 5 sampleWorld)
    as [H _].
  apply H. intros [p [[<- | []] [Hu _]]]. discriminate Hu.
Defined.

Lemma purchase_unique_and_idempotent_witness :
  purchaseCourse (sampleEnv T0) 1 (Some 5) sampleWorld
  = (message 409 (js "Você já comprou este curso."), sampleWorld).
Proof.
  apply (purchase_unique_and_idempotent sampleHost).
  - exact sampleDb_schema_ok.
  - exists samplePurchase. repeat split. left. reflexivity.
Defined.

Lemma refund_eligibility_ceiling_witness :
  requestRefund sampleHost (sampleEnv (T0 + 7 * 86400000 + 1000)) 1 (Some 5)
    (Some (js "Quero o reembolso")) sampleWorld
  = (message 403
       (js "O prazo de 7 dias para reembolso expirou. Você comprou há "
          ++ showZ 8 ++ js " dias."), sampleWorld).
Proof.
  apply (proj2 (proj2 (proj2 refund_eligibility_ceiling)) sampleHost
           (sampleEnv (T0 + 7 * 86400000 + 1000)) samplePurchase
           (js "Quero o reembolso") sampleWorld 8).
  - exact sampleDb_schema_ok.
  - exact sampleDb_purchases_unique.
  - left. reflexivity.
  - discriminate.
  - vm_compute. split; [reflexivity | intros H; discriminate H].
  - reflexivity.
Defined.

Lemma refund_request_blocked_witness :
  requestRefund sampleHost (sampleEnv (T0 + 8 * 86400000)) 1 (Some 5)
    (Some (js "Quero o reembolso")) sampleWorld
  = (message 403
       (js "O prazo de 7 dias para reembolso expirou. Você comprou há "
          ++ showZ 8 ++ js " dias."), sampleWorld).
Proof.
  apply (proj1 (proj2 (refund_request_blocked sampleHost))
           (sampleEnv (T0 + 8 * 86400000)) samplePurchase
           (js "Quero o reembolso") sampleWorld 8).
  - exact sampleDb_schema_ok.
  - exact sampleDb_purchases_unique.
  - left. reflexivity.
  - discriminate.
  - vm_compute. split; [reflexivity | intros H; discriminate H].
  - reflexivity.
Defined.

(** With a request pending and the window over, the answer is the 403 of
    the window, not the 409 of the pending request: the window is checked
    first; without a message it is the 400 of the validation. And two
    requests of one purchaser whose checks both run before either INSERT
    are both answered 200 and leave two pending requests for the pair, in a
    state the routes can produce. *)
Lemma refund_request_blocked_counterexample :
  hasPendingRefund (db pendingWorld) 1 5
  /\ requestRefund sampleHost (sampleEnv (T0 + 8 * 86400000)) 1 (Some 5)
       (Some (js "Quero o reembolso")) pendingWorld
     = (message 403
          (js "O prazo de 7 dias para reembolso expirou. Você comprou há "
             ++ showZ 8 ++ js " dias."), pendingWorld)
  /\ status (fst (requestRefund sampleHost (sampleEnv (T0 + 86400000)) 1
                    (Some 5) None pendingWorld)) = 400
  /\ exists purchase w1 w2,
       requestRefund_checks (mailEnv (T0 + 1000) 77) 1 (Some 5)
         (Some (js "Quero o reembolso")) sampleWorld = inr purchase
       /\ requestRefund_checks (mailEnv (T0 + 2000) 78) 1 (Some 5)
            (Some (js "Reembolso, por favor")) sampleWorld = inr purchase
       /\ requestRefund_insert sampleHost (mailEnv (T0 + 1000) 77) 1 5
            (js "Quero o reembolso") purchase sampleWorld
          = (message 200
               (js "Pedido de reembolso enviado com sucesso! O administrador será notificado."),
             w1)
       /\ requestRefund_insert sampleHost (mailEnv (T0 + 2000) 78) 1 5
            (js "Reembolso, por favor") purchase w1
          = (message 200
               (js "Pedido de reembolso enviado com sucesso! O administrador será notificado."),
             w2)
       /\ map (fun r => (refund_id r, refund_user_id r, refund_course_id r,
                         refund_status r))
              (RefundRequests (db w2))
          = [(77, 1, 5, PENDENTE); (78, 1, 5, PENDENTE)]
       /\ reachable sampleHost w2.
Proof.
  split; [| split; [| split]].
  - exists pendingRequest. repeat split. left. reflexivity.
  - vm_compute. reflexivity.
  - vm_compute. reflexivity.
  - eexists _, _, _.
    split; [vm_compute; reflexivity |].
    split; [vm_compute; reflexivity |].
    split; [vm_compute; reflexivity |].
    split; [vm_compute; reflexivity |].
    split; [vm_compute; reflexivity |].
    apply (reachable_catalogue sampleHost
             (snd (execute
                     (insertRefundRequest (mailEnv (T0 + 2000) 78) 1 5
                        (js "Reembolso, por favor"))
                     (snd (execute
                             (insertRefundRequest (mailEnv (T0 + 1000) 77) 1 5
                                (js "Quero o reembolso"))
                             sampleWorld)))));
      [| vm_compute; reflexivity | vm_compute; reflexivity].
    apply (reachable_insertRefundRequest sampleHost (mailEnv (T0 + 2000) 78) 1 5
             (js "Reembolso, por favor")).
    apply (reachable_insertRefundRequest sampleHost (mailEnv (T0 + 1000) 77) 1 5
             (js "Quero o reembolso")).
    apply (reachable_catalogue sampleHost
             (snd (execute (insertPurchase (mailEnv T0 1) 1 5) newcomerWorld))
             sampleWorld);
      [| vm_compute; reflexivity | vm_compute; reflexivity].
    apply reachable_insertPurchase.
    apply reachable_init; reflexivity.
Qed.

Lemma refund_arithmetic_shared_witness :
  exists n,
    is_ceil n (Z.abs (now (sampleEnv (T0 + 1000)) - purchase_date samplePurchase))
      JSDate.msPerDay
    /\ field "daysSincePurchase"
         (withRefundStatus (sampleEnv (T0 + 1000))
            (samplePurchase,
             {| course_id := 5; course_name := js "Rocq";
                course_image_url := js "https://cdn.example/c.png";
                course_description := js "Provas" |}))
       = Some (num n)
    /\ ((n <=? 7) = true ->
        status (fst (requestRefund sampleHost (sampleEnv (T0 + 1000)) 1 (Some 5)
                       (Some (js "Quero o reembolso")) sampleWorld)) <> 403).
Proof.
  destruct (refund_arithmetic_shared sampleHost (sampleEnv (T0 + 1000))
              samplePurchase (js "Quero o reembolso") sampleWorld
              sampleDb_schema_ok sampleDb_purchases_unique
              (or_introl eq_refl) ltac:(discriminate))
    as [n [Hn [_ [_ [Hrows [_ Hok]]]]]].
  exists n. split; [exact Hn |]. split; [| exact Hok].
  apply Hrows; [left; reflexivity | reflexivity].
Defined.


(** ** The fuel of the parser *)

Section ParseFuel.

Import JSON.

Lemma skipWS_length (s : jsstring) : (List.length (skipWS s) <= List.length s)%nat.
Proof.
  induction s as [| c s IH]; [apply le_n |].
  cbn [skipWS]. destruct (isWS c); cbn [List.length]; lia.
Qed.

Lemma takeDigits_length (s : jsstring) :
  (List.length (snd (takeDigits s)) <= List.length s)%nat.
Proof.
  induction s as [| c s IH]; [apply le_n |].
  cbn [takeDigits]. destruct (isDigit c); [| apply le_n].
  destruct (takeDigits s) as [ds r]. cbn [snd List.length] in *. lia.
Qed.

(** A string literal ends after at least its closing quote, and reading it
    fails with a syntax error only. *)
Lemma parseString_spec (n : nat) (s : jsstring) :
  (List.length s <= n)%nat ->
  match parseString s with
  | Return (_, r) => (List.length r < List.length s)%nat
  | Throw err => err = SyntaxError
  end.
Proof.
  revert s. induction n as [| n IH]; intros s Hn.
  - destruct s; [reflexivity | cbn [List.length] in Hn; lia].
  - destruct s as [| c s']; [reflexivity |].
    cbn [parseString List.length] in *.
    destruct (c =? 34)%N; [lia |].
    destruct (c =? 92)%N.
    + destruct s' as [| e s'']; [reflexivity |].
      cbn [List.length] in *.
      destruct (e =? 117)%N.
      * destruct s'' as [| h1 [| h2 [| h3 [| h4 s3]]]]; try reflexivity.
        destruct (hexValue h1); [| reflexivity].
        destruct (hexValue h2); [| reflexivity].
        destruct (hexValue h3); [| reflexivity].
        destruct (hexValue h4); [| reflexivity].
        cbn [List.length] in *.
        specialize (IH s3 ltac:(lia)). unfold obind.
        destruct (parseString s3) as [[str r] |]; [lia | exact IH].
      * destruct (simpleEscape e); [| reflexivity].
        specialize (IH s'' ltac:(lia)). unfold obind.
        destruct (parseString s'') as [[str r] |]; [lia | exact IH].
    + destruct (c <? 32)%N; [reflexivity |].
      specialize (IH s' ltac:(lia)). unfold obind.
      destruct (parseString s') as [[str r] |]; [lia | exact IH].
Qed.

Lemma parseString_consumes (s str r : jsstring) :
  parseString s = Return (str, r) -> (List.length r < List.length s)%nat.
Proof.
  intros H. pose proof (parseString_spec (List.length s) s (le_n _)) as Hs.
  rewrite H in Hs. exact Hs.
Qed.

Lemma parseString_throws (s : jsstring) (err : exn) :
  parseString s = Throw err -> err = SyntaxError.
Proof.
  intros H. pose proof (parseString_spec (List.length s) s (le_n _)) as Hs.
  rewrite H in Hs. exact Hs.
Qed.

(** A number literal has at least one digit, and reading it fails with a
    syntax error only. *)
Lemma parseNumber_spec (s : jsstring) :
  match parseNumber s with
  | Return (_, r) => (List.length r < List.length s)%nat
  | Throw err => err = SyntaxError
  end.
Proof.
  assert (Hint : forall s0, match parseInt_part s0 with
                            | Return (_, r) => (List.length r < List.length s0)%nat
                            | Throw err => err = SyntaxError
                            end).
  { intros [| c s']; [reflexivity |]. cbn [parseInt_part].
    destruct (c =? 48)%N; [cbn [List.length]; lia |].
    destruct (isDigit c); [| reflexivity].
    pose proof (takeDigits_length s') as Hd.
    destruct (takeDigits s') as [ds r]. cbn [snd List.length] in *. lia. }
  assert (Hfrac : forall s0, match parseFrac_part s0 with
                             | Return (_, r) => (List.length r <= List.length s0)%nat
                             | Throw err => err = SyntaxError
                             end).
  { intros [| c s']; [apply le_n |]. cbn [parseFrac_part].
    destruct (c =? 46)%N; [| apply le_n].
    pose proof (takeDigits_length s') as Hd.
    destruct (takeDigits s') as [[| d ds] r]; [reflexivity |].
    cbn [snd List.length] in *. lia. }
  assert (Hdigits : forall neg s0, match parseExp_digits neg s0 with
                             | Return (_, r) => (List.length r <= List.length s0)%nat
                             | Throw err => err = SyntaxError
                             end).
  { intros neg s0. unfold parseExp_digits.
    pose proof (takeDigits_length s0) as Hd.
    destruct (takeDigits s0) as [[| d ds] r]; [reflexivity |].
    cbn [snd] in Hd. exact Hd. }
  assert (Hexp : forall s0, match parseExp_part s0 with
                            | Return (_, r) => (List.length r <= List.length s0)%nat
                            | Throw err => err = SyntaxError
                            end).
  { intros [| c s']; [apply le_n |]. cbn [parseExp_part].
    destruct ((c =? 101) || (c =? 69))%N; [| apply le_n].
    destruct s' as [| c2 s'']; [reflexivity |].
    destruct (c2 =? 43)%N; [| destruct (c2 =? 45)%N].
    - specialize (Hdigits false s'').
      destruct (parseExp_digits false s'') as [[x r] |]; [| exact Hdigits].
      cbn [List.length] in *. lia.
    - specialize (Hdigits true s'').
      destruct (parseExp_digits true s'') as [[x r] |]; [| exact Hdigits].
      cbn [List.length] in *. lia.
    - specialize (Hdigits false (c2 :: s'')).
      destruct (parseExp_digits false (c2 :: s'')) as [[x r] |]; [| exact Hdigits].
      cbn [List.length] in *. lia. }
  assert (Huns : forall neg s0, match parseUnsigned neg s0 with
                                | Return (_, r) => (List.length r < List.length s0)%nat
                                | Throw err => err = SyntaxError
                                end).
  { intros neg s0. unfold parseUnsigned, obind.
    specialize (Hint s0).
    destruct (parseInt_part s0) as [[int s2] |]; [| exact Hint].
    specialize (Hfrac s2).
    destruct (parseFrac_part s2) as [[frac s3] |]; [| exact Hfrac].
    specialize (Hexp s3).
    destruct (parseExp_part s3) as [[exp s4] |]; [| exact Hexp].
    lia. }
  destruct s as [| c s']; [apply (Huns false []) |].
  cbn [parseNumber]. destruct (c =? 45)%N.
  - specialize (Huns true s').
    destruct (parseUnsigned true s') as [[x r] |]; [| exact Huns].
    cbn [List.length]. lia.
  - apply (Huns false (c :: s')).
Qed.

Lemma parseNumber_consumes (s : jsstring) (x : number) (r : jsstring) :
  parseNumber s = Return (x, r) -> (List.length r < List.length s)%nat.
Proof. intros H. pose proof (parseNumber_spec s) as Hs. rewrite H in Hs. exact Hs. Qed.

Lemma parseNumber_throws (s : jsstring) (err : exn) :
  parseNumber s = Throw err -> err = SyntaxError.
Proof. intros H. pose proof (parseNumber_spec s) as Hs. rewrite H in Hs. exact Hs. Qed.


(** Splits the hypothesis [H], an equation on the result of a parser, along
    the tests the parser makes. *)
Ltac split_result H :=
  repeat match type of H with
         | context [match ?x with _ => _ end] =>
             let E := fresh "E" in destruct x eqn:E; try discriminate H
         end.

(** Every value takes at least one code unit of the text. *)
Lemma parseValue_consumes (fuel : nat) :
  (forall s v r, parseValue fuel s = Return (v, r) ->
     (List.length r < List.length s)%nat)
  /\ (forall s vs r, parseElements fuel s = Return (vs, r) ->
        (List.length r < List.length s)%nat)
  /\ (forall s ms r, parseMembers fuel s = Return (ms, r) ->
        (List.length r < List.length s)%nat).
Proof.
  induction fuel as [| f [IHv [IHe IHm]]].
  - repeat split; intros; discriminate.
  - split; [| split]; intros s v r H;
      [cbn [parseValue] in H | cbn [parseElements] in H | cbn [parseMembers] in H];
      unfold obind in H; split_result H; injection H as _ <-;
      repeat match goal with
             | E : skipWS ?s0 = _ |- _ =>
                 let L := fresh "L" in
                 pose proof (skipWS_length s0) as L; rewrite E in L; clear E
             | E : parseString _ = Return _ |- _ => apply parseString_consumes in E
             | E : parseNumber _ = Return _ |- _ => apply parseNumber_consumes in E
             | E : parseValue f _ = Return _ |- _ => apply IHv in E
             | E : parseElements f _ = Return _ |- _ => apply IHe in E
             | E : parseMembers f _ = Return _ |- _ => apply IHm in E
             end;
      subst; cbn [List.length] in *; lia.
Qed.

(** With two units of fuel per code unit, and one more, the parser fails
    with a syntax error only. *)
Lemma parseValue_throws (fuel : nat) :
  (forall s err, (2 * List.length s + 1 <= fuel)%nat ->
     parseValue fuel s = Throw err -> err = SyntaxError)
  /\ (forall s err, (2 * List.length s + 2 <= fuel)%nat ->
        parseElements fuel s = Throw err -> err = SyntaxError)
  /\ (forall s err, (2 * List.length s + 2 <= fuel)%nat ->
        parseMembers fuel s = Throw err -> err = SyntaxError).
Proof.
  induction fuel as [| f [IHv [IHe IHm]]].
  - repeat split; intros; lia.
  - destruct (parseValue_consumes f) as [Cv [Ce Cm]].
    split; [| split]; intros s err Hfuel H;
      [cbn [parseValue] in H | cbn [parseElements] in H | cbn [parseMembers] in H];
      unfold obind in H; split_result H; injection H as <-;
      lazymatch goal with
      | |- SyntaxError = SyntaxError => reflexivity
      | E : parseString _ = Throw ?e |- ?e = _ => apply (parseString_throws _ _ E)
      | E : parseNumber _ = Throw ?e |- ?e = _ => apply (parseNumber_throws _ _ E)
      | E : parseValue f ?r = Throw ?e |- ?e = _ => apply (IHv r e); [| exact E]
      | E : parseElements f ?r = Throw ?e |- ?e = _ => apply (IHe r e); [| exact E]
      | E : parseMembers f ?r = Throw ?e |- ?e = _ => apply (IHm r e); [| exact E]
      end;
      repeat match goal with
             | E : skipWS ?s0 = _ |- _ =>
                 let L := fresh "L" in
                 pose proof (skipWS_length s0) as L; rewrite E in L; clear E
             | E : parseString _ = Return _ |- _ => apply parseString_consumes in E
             | E : parseValue f _ = Return _ |- _ => apply Cv in E
             end;
      subst; cbn [List.length] in *; lia.
Qed.

(** [JSON.parse] returns a value or throws a [SyntaxError]: the fuel of the
    model never runs out. *)
Lemma parse_throws (text : jsstring) (err : exn) :
  parse text = Throw err -> err = SyntaxError.
Proof.
  unfold parse, obind. intros H.
  destruct (parseValue _ text) as [[v r] |] eqn:E.
  - destruct (skipWS r); [discriminate H | injection H as <-; reflexivity].
  - injection H as <-.
    apply (proj1 (parseValue_throws _) text e (le_n _) E).
Qed.

End ParseFuel.

(** ** The links of a lesson ([createLesson], [getCourseContent]) *)

(** C10. A lesson created with the links [[{"title":"Docs","pages":12.5}]]
    holds them as a document; once the lesson is released the pool hands
    the document over decoded, [JSON.parse] is applied to its string,
    [[object Object]], and throws, and the whole listing is answered 500
    instead of showing the links. Links that are an array of one number,
    [[7]], are shown as the number 7. *)
Theorem links_read_back_fails :
  JSON.parse sampleLinks = Return sampleLinksValue
  /\ (exists l w',
        createLesson sampleHost (sampleEnv T0)
          (linksForm (Some sampleLinks) None) sampleWorld
        = ({| status := 201;
              body := JSON.Obj
                [(js "message", JSON.Str (js "Aula criada com sucesso!"));
                 (js "lessonId", num 77);
                 (js "videoUrl", JSON.Str [])] |}, w')
        /\ Lessons (db w') = [sampleLesson; l]
        /\ links l = Some sampleLinksValue
        /\ lesson_module_id l = 2 /\ drip_days l = 0
        /\ releaseDateOf sampleHost T0 (drip_days l) = Some T0
        /\ ToString sampleLinksValue = js "[object Object]"
        /\ JSON.parse (js "[object Object]") = Throw SyntaxError
        /\ lessonView sampleHost (sampleEnv T0) T0 l = Throw SyntaxError
        /\ getCourseContent sampleHost (sampleEnv T0) 1 5 w'
           = (message 500 (js "Erro interno ao buscar conteúdo do curso."), w'))
  /\ (exists l w' view,
        createLesson sampleHost (sampleEnv T0)
          (linksForm (Some (js "[7]")) None) sampleWorld
        = ({| status := 201;
              body := JSON.Obj
                [(js "message", JSON.Str (js "Aula criada com sucesso!"));
                 (js "lessonId", num 77);
                 (js "videoUrl", JSON.Str [])] |}, w')
        /\ Lessons (db w') = [sampleLesson; l]
        /\ JSON.parse (js "[7]") = Return (JSON.Arr [num 7])
        /\ links l = Some (JSON.Arr [num 7])
        /\ lessonView sampleHost (sampleEnv T0) T0 l = Return view
        /\ field "links" view = Some (num 7)).
Proof.
  split; [vm_compute; reflexivity |]. split.
  - eexists _, _.
    split; [vm_compute; reflexivity |].
    repeat split; vm_compute; reflexivity.
  - eexists _, _, _.
    split; [vm_compute; reflexivity |].
    split; [vm_compute; reflexivity |].
    split; [vm_compute; reflexivity |].
    split; [vm_compute; reflexivity |].
    split; vm_compute; reflexivity.
Qed.
(* ===================================================================== *)
(** * Part III. Further properties of the routes                          *)
(* ===================================================================== *)

(** ** Purchases ([purchaseCourse]) *)

Section PurchaseFacts.

Lemma selectCourse_cons (d : Database) (c : Z) :
  hasCourse d c -> exists x xs, selectCourse d c = x :: xs /\ course_id x = c.
Proof.
  intros H. destruct (selectCourse d c) as [| x xs] eqn:E.
  - apply selectCourse_nil in E. contradiction.
  - exists x, xs. split; [reflexivity |].
    assert (Hin : In x (selectCourse d c)) by (rewrite E; left; reflexivity).
    apply selectCourse_In in Hin. apply Hin.
Qed.

Lemma hasCourse_courseExists (d : Database) (c : Z) :
  hasCourse d c -> courseExists d c = true.
Proof.
  intros [x [Hin Hid]]. unfold courseExists. apply existsb_exists.
  exists x. split; [exact Hin | apply Z.eqb_eq; exact Hid].
Qed.

Lemma truthy_id_Some (c : Z) : c <> 0 -> truthy_id (Some c) = true.
Proof.
  intros H. unfold truthy_id. destruct (Z.eqb_spec c 0); [contradiction | reflexivity].
Qed.

End PurchaseFacts.

(** X1. A purchase request without a course id, or with the id 0, is
    answered 400; one for a course that does not exist is answered 404;
    one made with the id of a user that has no row in Users is answered
    500 when the insert fails on its foreign key. None of them writes. *)
Theorem purchase_rejected_without_write (e : Env) (u : Z) (w : World) :
  (forall c, truthy_id c = false ->
     purchaseCourse e u c w = (message 400 (js "O ID do curso é obrigatório."), w))
  /\ (forall cid, cid <> 0 -> ~ hasCourse (db w) cid ->
        purchaseCourse e u (Some cid) w
          = (message 404 (js "Curso não encontrado."), w))
  /\ (forall cid, cid <> 0 -> hasCourse (db w) cid ->
        ~ hasPurchase (db w) u cid -> userExists (db w) u = false ->
        purchaseCourse e u (Some cid) w
          = (message 500 (js "Erro interno ao registrar compra."), w)).
Proof.
  split; [| split].
  - intros c Hc. unfold purchaseCourse. destruct c as [cid |]; [| reflexivity].
    rewrite Hc. reflexivity.
  - intros cid H0 Hno. unfold purchaseCourse.
    rewrite (truthy_id_Some cid H0). cbn [negb].
    unfold tryCatch, bind, query, ret. cbv beta iota zeta.
    destruct (selectCourse (db w) cid) as [| x xs] eqn:E; [reflexivity |].
    exfalso. apply Hno. exists x.
    apply selectCourse_In. rewrite E. left. reflexivity.
  - intros cid H0 Hc Hnp Hu. unfold purchaseCourse.
    rewrite (truthy_id_Some cid H0). cbn [negb].
    destruct (selectCourse_cons (db w) cid Hc) as [x [xs [E _]]].
    unfold tryCatch, bind, query, ret, execute, insertPurchase.
    cbv beta iota zeta. rewrite E.
    destruct (selectPurchase (db w) u cid) as [| p ps] eqn:EP.
    + rewrite Hu. reflexivity.
    + exfalso. apply Hnp. exists p.
      apply selectPurchase_In. rewrite EP. left. reflexivity.
Qed.

Lemma purchase_rejected_without_write_witness :
  purchaseCourse (sampleEnv T0) 1 (Some 0) sampleWorld
    = (message 400 (js "O ID do curso é obrigatório."), sampleWorld)
  /\ purchaseCourse (sampleEnv T0) 1 (Some 6) sampleWorld
    = (message 404 (js "Curso não encontrado."), sampleWorld)
  /\ purchaseCourse (sampleEnv T0) 2 (Some 5) sampleWorld
    = (message 500 (js "Erro interno ao registrar compra."), sampleWorld).
Proof.
  destruct (purchase_rejected_without_write (sampleEnv T0) 1 sampleWorld)
    as [H400 [H404 _]].
  destruct (purchase_rejected_without_write (sampleEnv T0) 2 sampleWorld)
    as [_ [_ H500]].
  split; [apply H400; reflexivity |].
  split.
  - apply H404; [discriminate |].
    intros [x [Hin Hid]]. vm_compute in Hin.
    destruct Hin as [<- | []]. discriminate Hid.
  - apply H500; [discriminate | | | reflexivity].
    + eexists. split; [left; reflexivity | reflexivity].
    + intros [p [Hin [Hu _]]]. vm_compute in Hin.
      destruct Hin as [<- | []]. discriminate Hu.
Defined.
Section PurchaseSuccess.

Variable host : Host.

Lemma selectPurchase_app (d : Database) (u c : Z) (l1 l2 : list Purchase) :
  Purchases d = l1 ++ l2 ->
  selectPurchase d u c
  = filter (fun p => (purchase_user_id p =? u) && (purchase_course_id p =? c)) l1
    ++ filter (fun p => (purchase_user_id p =? u) && (purchase_course_id p =? c)) l2.
Proof. intros H. unfold selectPurchase. rewrite H. apply filter_app. Qed.

(** The listing of a purchaser whose course exists is answered 200 or
    500. *)
Lemma getCourseContent_purchased (e : Env) (u c : Z) (w : World) :
  selectPurchase (db w) u c <> [] -> selectCourse (db w) c <> [] ->
  In (status (fst (getCourseContent host e u c w))) [200; 500].
Proof.
  intros Hp Hc. unfold getCourseContent, tryCatch, bind, query, ret.
  cbv beta iota zeta.
  destruct (selectPurchase (db w) u c) as [| p ps]; [contradiction |].
  destruct (selectCourse (db w) c) as [| x xs]; [contradiction |].
  destruct (mapOutcome _ _); [left | right; left]; reflexivity.
Qed.

End PurchaseSuccess.

(** X2. A first purchase of an existing course by an existing user is
    answered 201 with the id of the new row, and appends exactly that row,
    dated by the database; from then on the content listing of the course
    no longer refuses the user (it answers 200 or 500, not 403 or 404) and
    a further purchase request is answered 409 and writes nothing. *)
Theorem purchase_then_access (host : Host) (e : Env) (u cid : Z) (w : World) :
  cid <> 0 -> hasCourse (db w) cid -> userExists (db w) u = true ->
  ~ hasPurchase (db w) u cid ->
  let w' := snd (purchaseCourse e u (Some cid) w) in
  status (fst (purchaseCourse e u (Some cid) w)) = 201
  /\ field "purchaseId" (body (fst (purchaseCourse e u (Some cid) w)))
     = Some (num (insertId e))
  /\ w' = with_db w
            {| Users := Users (db w); Courses := Courses (db w);
               Modules := Modules (db w); Lessons := Lessons (db w);
               Purchases := Purchases (db w) ++
                 [{| purchase_id := insertId e; purchase_user_id := u;
                     purchase_course_id := cid;
                     purchase_date := current_timestamp e |}];
               RefundRequests := RefundRequests (db w) |}
  /\ (forall e', In (status (fst (getCourseContent host e' u cid w'))) [200; 500])
  /\ (forall e', purchaseCourse e' u (Some cid) w'
                 = (message 409 (js "Você já comprou este curso."), w')).
Proof.
  intros H0 Hc Hu Hnp.
  destruct (selectCourse_cons (db w) cid Hc) as [x [xs [E _]]].
  assert (EP : selectPurchase (db w) u cid = []).
  { apply selectPurchase_nil. exact Hnp. }
  assert (Hrun : purchaseCourse e u (Some cid) w
                 = ({| status := 201;
                       body := JSON.Obj
                         [(js "message",
                           JSON.Str (js "Compra do curso '" ++ course_name x
                                       ++ js "' registrada com sucesso!"));
                          (js "purchaseId", num (insertId e))] |},
                    with_db w
                      {| Users := Users (db w); Courses := Courses (db w);
                         Modules := Modules (db w); Lessons := Lessons (db w);
                         Purchases := Purchases (db w) ++
                           [{| purchase_id := insertId e; purchase_user_id := u;
                               purchase_course_id := cid;
                               purchase_date := current_timestamp e |}];
                         RefundRequests := RefundRequests (db w) |})).
  { unfold purchaseCourse. rewrite (truthy_id_Some cid H0). cbn [negb].
    unfold tryCatch, bind, query, ret, execute, insertPurchase.
    cbv beta iota zeta. rewrite E, EP, Hu, (hasCourse_courseExists _ _ Hc).
    reflexivity. }
  cbv zeta. rewrite Hrun. cbn [fst snd status body].
  set (w' := with_db w _).
  assert (Hsel : selectPurchase (db w') u cid <> []).
  { unfold w', with_db, selectPurchase. cbn [db Purchases].
    rewrite filter_app. cbn [filter purchase_user_id purchase_course_id].
    rewrite !Z.eqb_refl. cbn [andb].
    intros H. apply app_eq_nil in H. destruct H as [_ H]. discriminate H. }
  assert (Hcourse : selectCourse (db w') cid = x :: xs) by exact E.
  split; [reflexivity |]. split; [reflexivity |]. split; [reflexivity |].
  split.
  - intros e'. apply getCourseContent_purchased; [exact Hsel |].
    rewrite Hcourse. discriminate.
  - intros e'. unfold purchaseCourse. rewrite (truthy_id_Some cid H0). cbn [negb].
    unfold tryCatch, bind, query, ret, execute, insertPurchase.
    cbv beta iota zeta. rewrite Hcourse.
    destruct (selectPurchase (db w') u cid); [contradiction | reflexivity].
Qed.

Lemma purchase_then_access_witness :
  status (fst (purchaseCourse (sampleEnv T0) 1 (Some 5) newcomerWorld)) = 201
  /\ forall e',
       purchaseCourse e' 1 (Some 5)
         (snd (purchaseCourse (sampleEnv T0) 1 (Some 5) newcomerWorld))
       = (message 409 (js "Você já comprou este curso."),
          snd (purchaseCourse (sampleEnv T0) 1 (Some 5) newcomerWorld)).
Proof.
  destruct (purchase_then_access sampleHost (sampleEnv T0) 1 5 newcomerWorld)
    as [H201 [_ [_ [_ H409]]]].
  - discriminate.
  - eexists. split; [left; reflexivity | reflexivity].
  - reflexivity.
  - intros [p [Hin _]]. exact Hin.
  - split; [exact H201 | exact H409].
Defined.
(** ** The purchase list ([getPurchasedCourses]) *)

Section SortFacts.

Context {A : Type} (key : A -> Z).

Lemma insertBy_Permutation (x : A) (l : list A) :
  Permutation (insertBy key x l) (x :: l).
Proof.
  induction l as [| a l IH]; cbn [insertBy]; [reflexivity |].
  destruct (key x <=? key a); [reflexivity |].
  rewrite IH. apply perm_swap.
Qed.

Lemma orderBy_Permutation (l : list A) : Permutation (orderBy key l) l.
Proof.
  induction l as [| a l IH]; cbn [orderBy fold_right]; [reflexivity |].
  fold (orderBy key l). rewrite insertBy_Permutation, IH. reflexivity.
Qed.

Lemma insertBy_sorted (x : A) (l : list A) :
  StronglySorted (fun a b => key a <= key b) l ->
  StronglySorted (fun a b => key a <= key b) (insertBy key x l).
Proof.
  induction l as [| a l IH]; intros Hs; cbn [insertBy].
  - repeat constructor.
  - inversion Hs as [| a0 l0 Hl Ha]; subst.
    destruct (Z.leb_spec (key x) (key a)) as [Hle | Hlt].
    + constructor; [exact Hs |].
      constructor; [exact Hle |].
      apply Forall_forall. intros y Hy.
      rewrite Forall_forall in Ha. specialize (Ha y Hy). lia.
    + constructor; [apply IH; exact Hl |].
      apply Forall_forall. intros y Hy. apply insertBy_In in Hy.
      destruct Hy as [-> | Hy]; [lia |].
      rewrite Forall_forall in Ha. apply Ha. exact Hy.
Qed.

Lemma orderBy_sorted (l : list A) :
  StronglySorted (fun a b => key a <= key b) (orderBy key l).
Proof.
  induction l as [| a l IH]; cbn [orderBy fold_right]; [constructor |].
  apply insertBy_sorted. exact IH.
Qed.

End SortFacts.

Section PurchaseList.

Lemma selectCourse_unique (d : Database) (x : Course) :
  NoDup (map course_id (Courses d)) -> In x (Courses d) ->
  selectCourse d (course_id x) = [x].
Proof.
  intros Hnd Hin. unfold selectCourse.
  apply (filter_unique_key course_id _ (Courses d) x Hnd); [| exact Hin].
  intros y. apply Z.eqb_eq.
Qed.

(** Under the keys of the schema the join of a purchase with Courses is
    one row. *)
Lemma join_purchase_course (d : Database) (l : list Purchase) :
  NoDup (map course_id (Courses d)) ->
  (forall p, In p l -> courseExists d (purchase_course_id p) = true) ->
  map fst (flat_map (fun p => map (fun c => (p, c))
                                  (selectCourse d (purchase_course_id p))) l) = l.
Proof.
  intros Hnd Hfk. induction l as [| p l IH]; [reflexivity |].
  cbn [flat_map]. rewrite map_app, IH by (intros q Hq; apply Hfk; right; exact Hq).
  destruct (courseExists_select d _ (Hfk p (or_introl eq_refl))) as [x [xs Hx]].
  assert (Hin : In x (selectCourse d (purchase_course_id p)))
    by (rewrite Hx; left; reflexivity).
  apply selectCourse_In in Hin. destruct Hin as [Hin Hid].
  rewrite <- Hid, (selectCourse_unique d x Hnd Hin). reflexivity.
Qed.

End PurchaseList.

(** X3. Under the keys of the schema, the purchase list of a user is
    answered 200, writes nothing, and holds one entry for each purchase of
    that user and for no other, each joined with the course of its id, the
    most recent purchase first. *)
Theorem dashboard_lists_purchases (e : Env) (u : Z) (w : World) :
  schema_ok (db w) -> primary_keys (db w) ->
  exists rows : list (Purchase * Course),
    getPurchasedCourses e u w
      = ({| status := 200; body := JSON.Arr (map (withRefundStatus e) rows) |}, w)
    /\ Permutation (map fst rows)
         (filter (fun p => purchase_user_id p =? u) (Purchases (db w)))
    /\ (forall p c, In (p, c) rows ->
          In c (Courses (db w)) /\ course_id c = purchase_course_id p)
    /\ StronglySorted
         (fun a b => purchase_date (fst b) <= purchase_date (fst a)) rows.
Proof.
  intros [Hfk _] [_ Hpk].
  exists (selectPurchasedCourses (db w) u).
  split; [reflexivity |]. split; [| split].
  - unfold selectPurchasedCourses.
    rewrite (Permutation_map fst (orderBy_Permutation _ _)).
    rewrite join_purchase_course; [reflexivity | exact Hpk |].
    intros p Hp. apply filter_In in Hp. apply (Hfk p (proj1 Hp)).
  - intros p c Hin.
    apply (selectPurchasedCourses_In (db w) u (p, c)) in Hin.
    cbn [fst snd] in Hin. tauto.
  - unfold selectPurchasedCourses.
    pose proof (orderBy_sorted (fun pc : Purchase * Course => - purchase_date (fst pc))
                  (flat_map (fun p => map (fun c => (p, c))
                       (selectCourse (db w) (purchase_course_id p)))
                     (filter (fun p => purchase_user_id p =? u) (Purchases (db w)))))
      as Hs.
    revert Hs. generalize (orderBy (fun pc : Purchase * Course => - purchase_date (fst pc))
      (flat_map (fun p => map (fun c => (p, c))
                       (selectCourse (db w) (purchase_course_id p)))
                     (filter (fun p => purchase_user_id p =? u) (Purchases (db w))))).
    intros l Hs. induction Hs as [| a l Hl IH Ha]; constructor; [exact IH |].
    apply Forall_forall. intros y Hy. rewrite Forall_forall in Ha.
    specialize (Ha y Hy). lia.
Qed.

Lemma sampleDb_primary_keys : primary_keys sampleDb.
Proof. split; repeat constructor; intros []. Qed.

Lemma dashboard_lists_purchases_witness :
  exists rows : list (Purchase * Course),
    getPurchasedCourses (sampleEnv T0) 1 sampleWorld
      = ({| status := 200;
            body := JSON.Arr (map (withRefundStatus (sampleEnv T0)) rows) |},
         sampleWorld)
    /\ Permutation (map fst rows) [samplePurchase].
Proof.
  destruct (dashboard_lists_purchases (sampleEnv T0) 1 sampleWorld
              sampleDb_schema_ok sampleDb_primary_keys)
    as [rows [Hrun [Hperm _]]].
  exists rows. split; [exact Hrun | exact Hperm].
Defined.
(** ** The content listing: when it answers, and what *)

Section ListingAnswers.

Variable host : Host.

Lemma moduleView_total (e : Env) (P : Z) (d : Database) (m : CourseModule) :
  (forall l, In l (Lessons d) -> lesson_module_id l = module_id m ->
     exists v, lessonView host e P l = Return v) <->
  exists v, moduleView host e P d m = Return v.
Proof.
  unfold moduleView, obind. split.
  - intros H.
    destruct (proj1 (mapOutcome_total (lessonView host e P)
                       (selectLessons d (module_id m)))) as [vs Hvs].
    { intros l Hl. apply selectLessons_In in Hl. apply H; apply Hl. }
    rewrite Hvs. eexists. reflexivity.
  - intros [v H] l Hl Hm.
    destruct (mapOutcome _ _) as [vs |] eqn:E; [| discriminate].
    apply (proj2 (mapOutcome_total (lessonView host e P)
                    (selectLessons d (module_id m))) (ex_intro _ vs E)).
    apply selectLessons_In. split; assumption.
Qed.

Lemma listing_total (e : Env) (P c : Z) (d : Database) :
  (forall m l, In m (Modules d) -> module_course_id m = c ->
               In l (Lessons d) -> lesson_module_id l = module_id m ->
               exists v, lessonView host e P l = Return v) <->
  exists views,
    mapOutcome (moduleView host e P d) (selectModules d c) = Return views.
Proof.
  rewrite <- mapOutcome_total. split.
  - intros H m Hm. apply selectModules_In in Hm.
    apply (proj1 (moduleView_total e P d m)).
    intros l Hl Hlm. apply (H m l); tauto.
  - intros H m l Hm Hmc Hl Hlm.
    apply (proj2 (moduleView_total e P d m)
             (H m (proj2 (selectModules_In d c m) (conj Hm Hmc))) l Hl Hlm).
Qed.

End ListingAnswers.

(** X4. The content listing of a purchaser of an existing course writes
    nothing and is all or nothing: it is answered 200 exactly when every
    lesson of every module of the course has a view, and otherwise, were it
    for one lesson only, the whole listing is the 500 message. *)
Theorem content_listing_all_or_nothing
  (host : Host) (e : Env) (u c : Z) (w : World)
  (p : Purchase) (ps : list Purchase) :
  selectPurchase (db w) u c = p :: ps -> hasCourse (db w) c ->
  let r := getCourseContent host e u c w in
  snd r = w
  /\ (status (fst r) = 200 <->
      forall m l, In m (Modules (db w)) -> module_course_id m = c ->
                  In l (Lessons (db w)) -> lesson_module_id l = module_id m ->
                  exists v, lessonView host e (purchase_date p) l = Return v)
  /\ (status (fst r) <> 200 ->
      fst r = message 500 (js "Erro interno ao buscar conteúdo do curso.")).
Proof.
  intros Hp Hc r. subst r.
  rewrite (getCourseContent_steps host e u c w p ps Hp).
  destruct (selectCourse_cons (db w) c Hc) as [x [xs [Ex _]]]. rewrite Ex.
  destruct (mapOutcome (moduleView host e (purchase_date p) (db w))
              (selectModules (db w) c)) as [views | err] eqn:E;
    cbn [fst snd status message].
  - split; [reflexivity |]. split.
    + split; [| reflexivity]. intros _.
      apply (proj2 (listing_total host e (purchase_date p) c (db w))).
      exists views. exact E.
    + intros H. contradiction H. reflexivity.
  - split; [reflexivity |]. split; [| reflexivity].
    split; [discriminate |]. intros Hall. exfalso.
    destruct (proj1 (listing_total host e (purchase_date p) c (db w)) Hall)
      as [vs Hvs].
    rewrite Hvs in E. discriminate E.
Qed.

Lemma content_listing_all_or_nothing_witness :
  status (fst (getCourseContent sampleHost (sampleEnv T0) 1 5 sampleWorld)) = 200.
Proof.
  destruct (content_listing_all_or_nothing sampleHost (sampleEnv T0) 1 5
              sampleWorld samplePurchase [] eq_refl)
    as [_ [Hiff _]].
  - eexists. split; [left; reflexivity | reflexivity].
  - apply Hiff. intros m l _ _ [<- | []] _. eexists. vm_compute. reflexivity.
Defined.
Section ListingGating.

Variable host : Host.

Lemma mapOutcome_pure {A B} (f : A -> outcome B) (g : A -> B) (l : list A) :
  (forall x, In x l -> f x = Return (g x)) ->
  mapOutcome f l = Return (map g l).
Proof.
  induction l as [| x l IH]; intros H; cbn [mapOutcome map]; [reflexivity |].
  rewrite (H x (or_introl eq_refl)), IH by (intros z Hz; apply H; right; exact Hz).
  reflexivity.
Qed.

(** The view of a lesson without links whose release date is a date. *)
Lemma lessonView_gated (e : Env) (P : Z) (l : Lesson) :
  links l = None ->
  isDate (addCalendarDays (LocalTZA host) P (drip_days l)) ->
  lessonView host e P l
  = Return (if addCalendarDays (LocalTZA host) P (drip_days l) <=? now e
            then fullView l JSON.Null
            else redactedView l (addCalendarDays (LocalTZA host) P (drip_days l))).
Proof.
  intros Hl Hd.
  assert (Hr : releaseDateOf host P (drip_days l)
               = Some (addCalendarDays (LocalTZA host) P (drip_days l))).
  { rewrite releaseDateOf_calendar. apply TimeClip_isDate. exact Hd. }
  destruct (Z.leb_spec (addCalendarDays (LocalTZA host) P (drip_days l)) (now e))
    as [Hle | Hlt].
  - rewrite (lessonView_released host e P _ l Hr Hle).
    apply releasedLesson_full. rewrite Hl. reflexivity.
  - rewrite (lessonView_redacted host e P _ l Hr Hlt).
    apply redactedLesson_shape.
Qed.

End ListingGating.

(** X5. When no lesson of the course holds links and every release date
    is a date, the content listing of a purchaser is answered 200 with the
    course and its modules and lessons in the order of their order index,
    and each lesson is shown in full, with [isReleased = true], exactly
    when the current instant is at or after the purchase instant moved by
    the drip days of the lesson on the calendar of the host, and as its
    redacted object before; in a time zone of constant offset that instant
    is the purchase instant plus the drip days times 24 hours. *)
Theorem content_listing_gating
  (host : Host) (e : Env) (u c : Z) (w : World)
  (p : Purchase) (ps : list Purchase) :
  selectPurchase (db w) u c = p :: ps -> hasCourse (db w) c ->
  (forall m l, In m (Modules (db w)) -> module_course_id m = c ->
               In l (Lessons (db w)) -> lesson_module_id l = module_id m ->
               links l = None
               /\ isDate (addCalendarDays (LocalTZA host) (purchase_date p)
                            (drip_days l))) ->
  let release (l : Lesson) :=
    addCalendarDays (LocalTZA host) (purchase_date p) (drip_days l) in
  (exists x,
     In x (Courses (db w)) /\ course_id x = c
     /\ getCourseContent host e u c w
        = ({| status := 200;
              body := JSON.Obj
                [(js "course",
                  JSON.Obj [(js "id", num (course_id x));
                            (js "name", JSON.Str (course_name x))]);
                 (js "modules",
                  JSON.Arr
                    (map (fun m =>
                       JSON.Obj
                         [(js "id", num (module_id m));
                          (js "name", JSON.Str (module_name m));
                          (js "order_index", num (module_order_index m));
                          (js "lessons",
                           JSON.Arr
                             (map (fun l =>
                                if release l <=? now e
                                then fullView l JSON.Null
                                else redactedView l (release l))
                                (selectLessons (db w) (module_id m))))])
                       (selectModules (db w) c)))] |}, w))
  /\ (forall tza l, (forall t b, LocalTZA host t b = tza) ->
        release l = purchase_date p + drip_days l * JSDate.msPerDay)
  /\ StronglySorted (fun a b => module_order_index a <= module_order_index b)
       (selectModules (db w) c)
  /\ (forall mid,
        StronglySorted (fun a b => order_index a <= order_index b)
          (selectLessons (db w) mid)).
Proof.
  intros Hp Hc Hall release. split; [| split; [| split]].
  - destruct (selectCourse_cons (db w) c Hc) as [x [xs [Ex Hid]]].
    exists x.
    assert (Hx : In x (selectCourse (db w) c)) by (rewrite Ex; left; reflexivity).
    apply selectCourse_In in Hx.
    split; [apply Hx |]. split; [exact Hid |].
    rewrite (getCourseContent_steps host e u c w p ps Hp), Ex.
    rewrite (mapOutcome_pure _
      (fun m =>
         JSON.Obj
           [(js "id", num (module_id m));
            (js "name", JSON.Str (module_name m));
            (js "order_index", num (module_order_index m));
            (js "lessons",
             JSON.Arr
               (map (fun l =>
                       if release l <=? now e
                       then fullView l JSON.Null
                       else redactedView l (release l))
                    (selectLessons (db w) (module_id m))))])).
    + reflexivity.
    + intros m Hm. apply selectModules_In in Hm. destruct Hm as [Hm Hmc].
      unfold moduleView.
      rewrite (mapOutcome_pure _
        (fun l => if release l <=? now e
                  then fullView l JSON.Null
                  else redactedView l (release l))).
      * reflexivity.
      * intros l Hl. apply selectLessons_In in Hl. destruct Hl as [Hl Hlm].
        destruct (Hall m l Hm Hmc Hl Hlm) as [Hlinks Hdate].
        apply (lessonView_gated host e (purchase_date p) l Hlinks Hdate).
  - intros tza l Htz.
    apply (addCalendarDays_constant_offset host tza (purchase_date p)
             (drip_days l) Htz).
  - apply orderBy_sorted.
  - intros mid. apply orderBy_sorted.
Qed.

Lemma content_listing_gating_witness :
  status (fst (getCourseContent sampleHost (sampleEnv (T0 + 5000)) 1 5
                 plainWorld)) = 200.
Proof.
  destruct (content_listing_gating sampleHost (sampleEnv (T0 + 5000)) 1 5
              plainWorld samplePurchase [] eq_refl)
    as [[x [_ [_ Hrun]]] _].
  - eexists. split; [left; reflexivity | reflexivity].
  - intros m l _ _ [<- | [<- | []]] _;
      (split; [reflexivity | vm_compute; intros H; discriminate H]).
  - rewrite Hrun. reflexivity.
Defined.
(** ** Refund requests: acceptance, repetition, refusal *)

Section RefundAnswers.

Variable host : Host.


End RefundAnswers.





(** X8. A refund request without a course id or without a message, or
    with the id 0 or an empty message, is answered 400, and one for a
    course the user has not purchased is answered 404, whether the course
    exists or not; neither writes nor sends anything. *)
Theorem refund_request_invalid (host : Host) (e : Env) (u : Z) (w : World) :
  (forall c m, truthy_id c = false \/ truthy_str m = false ->
     requestRefund host e u c m w
     = (message 400
          (js "ID do curso e a mensagem de solicitação são obrigatórios."), w))
  /\ (forall cid text, cid <> 0 -> text <> [] -> ~ hasPurchase (db w) u cid ->
        requestRefund host e u (Some cid) (Some text) w
        = (message 404 (js "Compra não encontrada para este curso."), w)).
Proof.
  split.
  - intros c m H. unfold requestRefund.
    destruct c as [cid |]; [| reflexivity].
    destruct m as [text |]; [| reflexivity].
    destruct H as [H | H]; rewrite H; [reflexivity |].
    destruct (negb (truthy_id (Some cid))); reflexivity.
  - intros cid text H0 Ht Hnp. unfold requestRefund.
    rewrite (truthy_id_Some cid H0).
    destruct text as [| ch text']; [contradiction |].
    cbn [negb orb truthy_str].
    unfold tryCatch, bind, query, ret. cbv beta iota zeta.
    unfold selectPurchaseForRefund.
    rewrite (proj2 (selectPurchase_nil (db w) u cid) Hnp). reflexivity.
Qed.

Lemma refund_request_invalid_witness :
  requestRefund sampleHost (sampleEnv T0) 1 (Some 5) (Some []) sampleWorld
  = (message 400
       (js "ID do curso e a mensagem de solicitação são obrigatórios."),
     sampleWorld)
  /\ requestRefund sampleHost (sampleEnv T0) 1 (Some 6)
       (Some (js "Quero o reembolso")) sampleWorld
     = (message 404 (js "Compra não encontrada para este curso."), sampleWorld).
Proof.
  destruct (refund_request_invalid sampleHost (sampleEnv T0) 1 sampleWorld)
    as [H400 H404].
  split.
  - apply H400. right. reflexivity.
  - apply H404; [discriminate | discriminate |].
    intros [q [Hin [_ Hc]]]. destruct Hin as [<- | []]. discriminate Hc.
Defined.
(** ** Creating lessons *)

Section LessonCreation.

Variable host : Host.

(** A failed statement leaves the world as it was. *)
Lemma execute_insertLesson_db (e : Env) (l : Lesson) (w : World) :
  match execute (insertLesson e l) w with
  | (Return _, w') =>
      inIntRange (drip_days l) = true /\ inIntRange (order_index l) = true
      /\ moduleExists (db w) (lesson_module_id l) = true
      /\ w' = {| db := {| Users := Users (db w); Courses := Courses (db w);
                          Modules := Modules (db w);
                          Lessons := Lessons (db w) ++ [l];
                          Purchases := Purchases (db w);
                          RefundRequests := RefundRequests (db w) |};
                 blobs := blobs w; outbox := outbox w |}
  | (Throw _, w') => w' = w
  end.
Proof.
  unfold execute, insertLesson.
  destruct (inIntRange (drip_days l)); [| reflexivity].
  destruct (inIntRange (order_index l)); [| reflexivity].
  cbn [andb negb].
  destruct (moduleExists (db w) (lesson_module_id l)); [| reflexivity].
  repeat split; reflexivity.
Qed.

End LessonCreation.

(** X9. The order of the checks of lesson creation and what each refusal
    leaves behind. A form without module id, title, drip days or order
    index is answered 400; then a file that is not a video is answered 400
    and a failed upload 500, each with nothing written; malformed links are
    only found after the upload, so their 400 leaves the uploaded video in
    the external store; and whatever the answer, unless it is 201 the
    database is unchanged and no mail is sent. *)
Theorem lesson_rejected_without_row
  (host : Host) (e : Env) (form : LessonForm) (w : World) :
  let r := createLesson host e form w in
  (truthy_str (moduleId form) = false \/ truthy_str (form_title form) = false
   \/ dripDays form = None \/ orderIndex form = None ->
   r = (message 400
          (js "Módulo ID, título, dias de liberação (drip days) e índice de ordem são obrigatórios."),
        w))
  /\ (truthy_str (moduleId form) = true -> truthy_str (form_title form) = true ->
      dripDays form <> None -> orderIndex form <> None ->
      forall mt buf, file form = Some (mt, buf) ->
        (startsWith (js "video/") mt = false ->
         r = (message 400 (js "O arquivo enviado deve ser um vídeo."), w))
        /\ (startsWith (js "video/") mt = true -> upload_result e = None ->
            r = (message 500 (js "Falha ao enviar vídeo para o Cloudinary."), w))
        /\ (startsWith (js "video/") mt = true ->
            forall url, upload_result e = Some url ->
            forall text, linksJson form = Some text -> text <> [] ->
            (exists err, JSON.parse text = Throw err) ->
            r = (message 400 (js "Os links devem estar em formato JSON válido."),
                 {| db := db w;
                    blobs := blobs w ++
                      [{| upload_resource_type := js "video";
                          upload_folder := js "cursos_online/" ++ js "aulas_videos";
                          upload_mimetype := mt;
                          upload_buffer := buf |}];
                    outbox := outbox w |})))
  /\ (status (fst r) <> 201 -> db (snd r) = db w /\ outbox (snd r) = outbox w).
Proof.
  intros r. subst r. split; [| split].
  - intros H. unfold createLesson.
    destruct (moduleId form) as [mid |]; [| reflexivity].
    destruct (form_title form) as [ttl |]; [| reflexivity].
    destruct H as [H | [H | [H | H]]]; rewrite H; cbn [negb orb isNone].
    + reflexivity.
    + destruct (negb (truthy_str (Some mid))); reflexivity.
    + destruct (negb (truthy_str (Some mid)) || negb (truthy_str (Some ttl)));
        reflexivity.
    + destruct (negb (truthy_str (Some mid)) || negb (truthy_str (Some ttl))
                || isNone (dripDays form)); reflexivity.
  - intros Hm Ht Hd Ho mt buf Hfile. unfold createLesson.
    destruct (moduleId form) as [mid |] eqn:Emid; [| discriminate Hm].
    destruct (form_title form) as [ttl |] eqn:Ettl; [| discriminate Ht].
    rewrite Hm, Ht.
    destruct (dripDays form) as [dd |] eqn:Edd; [| contradiction].
    destruct (orderIndex form) as [oi |] eqn:Eoi; [| contradiction].
    cbn [negb orb isNone]. rewrite Hfile.
    split; [| split].
    + intros Hv. rewrite Hv. reflexivity.
    + intros Hv Hup. rewrite Hv. cbn [negb]. unfold uploadFile. rewrite Hup.
      reflexivity.
    + intros Hv url Hup text Hlinks Htext [err Herr].
      rewrite Hv. cbn [negb]. unfold uploadFile. rewrite Hup, Hlinks.
      destruct text as [| ch text']; [contradiction |].
      cbn [truthy_str]. rewrite Herr. reflexivity.
  - unfold createLesson.
    destruct (moduleId form) as [mid |]; [| intros _; split; reflexivity].
    destruct (form_title form) as [ttl |]; [| intros _; split; reflexivity].
    destruct (negb (truthy_str (Some mid)) || negb (truthy_str (Some ttl))
              || isNone (dripDays form) || isNone (orderIndex form));
      [intros _; split; reflexivity |].
    assert (Hins : forall videoUrl storedLinks w1,
      db w1 = db w -> outbox w1 = outbox w ->
      let r := tryCatch
                 (l <- lift (lessonOfForm host e mid ttl videoUrl form storedLinks) ;;
                  execute (insertLesson e l) ;;;
                  ret {| status := 201;
                         body := JSON.Obj
                           [(js "message", JSON.Str (js "Aula criada com sucesso!"));
                            (js "lessonId", num (insertId e));
                            (js "videoUrl", JSON.Str videoUrl)] |})
                 (fun _ => message 500 (js "Erro interno ao criar aula."))
                 w1 in
      status (fst r) <> 201 -> db (snd r) = db w /\ outbox (snd r) = outbox w).
    { intros videoUrl storedLinks w1 Hdb Hout.
      unfold tryCatch, bind, lift, ret. cbv beta iota zeta.
      destruct (lessonOfForm host e mid ttl videoUrl form storedLinks) as [l | err];
        [| intros _; split; assumption].
      pose proof (execute_insertLesson_db e l w1) as Hex.
      destruct (execute (insertLesson e l) w1) as [[[] | err] w2].
      - intros H. exfalso. apply H. reflexivity.
      - subst w2. intros _. split; assumption. }
    assert (Hlinks : forall videoUrl w1,
      db w1 = db w -> outbox w1 = outbox w ->
      let r :=
        match (if truthy_str (linksJson form) then
                 match linksJson form with
                 | Some text => do v <- JSON.parse text; Return (Some (JSON.stringify v))
                 | None => Return None
                 end
               else Return None) with
        | Throw _ =>
            (message 400 (js "Os links devem estar em formato JSON válido."), w1)
        | Return storedLinks =>
            tryCatch
              (l <- lift (lessonOfForm host e mid ttl videoUrl form storedLinks) ;;
               execute (insertLesson e l) ;;;
               ret {| status := 201;
                      body := JSON.Obj
                        [(js "message", JSON.Str (js "Aula criada com sucesso!"));
                         (js "lessonId", num (insertId e));
                         (js "videoUrl", JSON.Str videoUrl)] |})
              (fun _ => message 500 (js "Erro interno ao criar aula."))
              w1
        end in
      status (fst r) <> 201 -> db (snd r) = db w /\ outbox (snd r) = outbox w).
    { intros videoUrl w1 Hdb Hout.
      destruct (if truthy_str (linksJson form) then _ else _) as [stored | err].
      - apply Hins; assumption.
      - intros r _. split; assumption. }
    destruct (file form) as [[mt buf] |].
    + destruct (negb (startsWith (js "video/") mt));
        [intros _; split; reflexivity |].
      unfold uploadFile.
      destruct (upload_result e) as [url |]; [| intros _; split; reflexivity].
      apply Hlinks; reflexivity.
    + apply Hlinks; reflexivity.
Qed.

Lemma lesson_rejected_without_row_witness :
  createLesson sampleHost (sampleEnv T0)
    (linksForm (Some (js "{oops")) (Some (js "video/mp4", [1; 2; 3]%N)))
    sampleWorld
  = (message 400 (js "Os links devem estar em formato JSON válido."),
     {| db := sampleDb;
        blobs := [{| upload_resource_type := js "video";
                     upload_folder := js "cursos_online/" ++ js "aulas_videos";
                     upload_mimetype := js "video/mp4";
                     upload_buffer := [1; 2; 3]%N |}];
        outbox := [] |}).
Proof.
  destruct (lesson_rejected_without_row sampleHost (sampleEnv T0)
              (linksForm (Some (js "{oops")) (Some (js "video/mp4", [1; 2; 3]%N)))
              sampleWorld) as [_ [Hfile _]].
  destruct (Hfile eq_refl eq_refl ltac:(discriminate) ltac:(discriminate)
              (js "video/mp4") [1; 2; 3]%N eq_refl) as [_ [_ Hlinks]].
  apply (Hlinks eq_refl (js "https://cdn.example/v.mp4") eq_refl (js "{oops") eq_refl).
  - discriminate.
  - eexists. vm_compute. reflexivity.
Defined.

(** X10. What an answer 201 of lesson creation means: the form had a module
    id that the engine reads as the id of an existing module, a title, and
    drip days and an order index that [parseInt] reads as integers of the
    INT range; a file, if any, was a video and was uploaded, and its address
    is the lesson's video address (the empty text without a file); exactly
    one lesson row was appended, with the key the database gave, an empty
    description stored as NULL and the links stored as the document the
    engine reads from the re-serialised text; no mail was sent; and the
    lesson is among the lessons the listing selects for its module. *)
Theorem lesson_created
  (host : Host) (e : Env) (form : LessonForm) (w : World) :
  let r := createLesson host e form w in
  status (fst r) = 201 ->
  exists mid ttl l,
    moduleId form = Some mid /\ mid <> [] /\
    form_title form = Some ttl /\ ttl <> [] /\
    sql_int host mid = Some (lesson_module_id l) /\
    moduleExists (db w) (lesson_module_id l) = true /\
    option_map parseInt (dripDays form) = Some (Some (drip_days l)) /\
    option_map parseInt (orderIndex form) = Some (Some (order_index l)) /\
    inIntRange (drip_days l) = true /\ inIntRange (order_index l) = true /\
    lesson_id l = insertId e /\ title l = ttl /\
    description_text l
    = (if truthy_str (descriptionText form) then descriptionText form else None) /\
    (truthy_str (linksJson form) = false -> links l = None) /\
    (forall text, linksJson form = Some text -> text <> [] ->
       exists v v', JSON.parse text = Return v
                    /\ JSON.parse (JSON.stringify v) = Return v'
                    /\ links l = Some v') /\
    (file form = None -> video_url l = [] /\ blobs (snd r) = blobs w) /\
    (forall mt buf, file form = Some (mt, buf) ->
       startsWith (js "video/") mt = true
       /\ upload_result e = Some (video_url l)
       /\ blobs (snd r) = blobs w ++
            [{| upload_resource_type := js "video";
                upload_folder := js "cursos_online/" ++ js "aulas_videos";
                upload_mimetype := mt;
                upload_buffer := buf |}]) /\
    db (snd r) = {| Users := Users (db w); Courses := Courses (db w);
                    Modules := Modules (db w);
                    Lessons := Lessons (db w) ++ [l];
                    Purchases := Purchases (db w);
                    RefundRequests := RefundRequests (db w) |} /\
    outbox (snd r) = outbox w /\
    fst r = {| status := 201;
               body := JSON.Obj
                 [(js "message", JSON.Str (js "Aula criada com sucesso!"));
                  (js "lessonId", num (insertId e));
                  (js "videoUrl", JSON.Str (video_url l))] |} /\
    In l (selectLessons (db (snd r)) (lesson_module_id l)).
Proof.
  intros r. subst r. unfold createLesson.
  destruct (moduleId form) as [mid |] eqn:Emid; [| intros H; discriminate H].
  destruct (form_title form) as [ttl |] eqn:Ettl; [| intros H; discriminate H].
  destruct mid as [| m0 mid']; [intros H; discriminate H |].
  destruct ttl as [| t0 ttl']; [intros H; discriminate H |].
  cbn [truthy_str negb orb].
  destruct (dripDays form) as [dd |] eqn:Edd; [| intros H; discriminate H].
  destruct (orderIndex form) as [oi |] eqn:Eoi; [| intros H; discriminate H].
  cbn [isNone].
  assert (Hins : forall videoUrl storedLinks w1,
    db w1 = db w -> outbox w1 = outbox w ->
    (storedLinks = None <-> truthy_str (linksJson form) = false) ->
    (forall text, linksJson form = Some text -> text <> [] ->
       exists v, JSON.parse text = Return v
                 /\ storedLinks = Some (JSON.stringify v)) ->
    let r := tryCatch
               (l <- lift (lessonOfForm host e (m0 :: mid') (t0 :: ttl') videoUrl
                             form storedLinks) ;;
                execute (insertLesson e l) ;;;
                ret {| status := 201;
                       body := JSON.Obj
                         [(js "message", JSON.Str (js "Aula criada com sucesso!"));
                          (js "lessonId", num (insertId e));
                          (js "videoUrl", JSON.Str videoUrl)] |})
               (fun _ => message 500 (js "Erro interno ao criar aula."))
               w1 in
    status (fst r) = 201 ->
    exists l,
      sql_int host (m0 :: mid') = Some (lesson_module_id l) /\
      moduleExists (db w) (lesson_module_id l) = true /\
      option_map parseInt (Some dd) = Some (Some (drip_days l)) /\
      option_map parseInt (Some oi) = Some (Some (order_index l)) /\
      inIntRange (drip_days l) = true /\ inIntRange (order_index l) = true /\
      lesson_id l = insertId e /\ title l = t0 :: ttl' /\
      description_text l
      = (if truthy_str (descriptionText form) then descriptionText form else None) /\
      (truthy_str (linksJson form) = false -> links l = None) /\
      (forall text, linksJson form = Some text -> text <> [] ->
         exists v v', JSON.parse text = Return v
                      /\ JSON.parse (JSON.stringify v) = Return v'
                      /\ links l = Some v') /\
      video_url l = videoUrl /\ blobs (snd r) = blobs w1 /\
      db (snd r) = {| Users := Users (db w); Courses := Courses (db w);
                      Modules := Modules (db w);
                      Lessons := Lessons (db w) ++ [l];
                      Purchases := Purchases (db w);
                      RefundRequests := RefundRequests (db w) |} /\
      outbox (snd r) = outbox w /\
      fst r = {| status := 201;
                 body := JSON.Obj
                   [(js "message", JSON.Str (js "Aula criada com sucesso!"));
                    (js "lessonId", num (insertId e));
                    (js "videoUrl", JSON.Str (video_url l))] |} /\
      In l (selectLessons (db (snd r)) (lesson_module_id l))).
  { intros videoUrl storedLinks w1 Hdb Hout Hnone Hsome.
    unfold tryCatch, bind, lift, ret. cbv beta iota zeta.
    unfold lessonOfForm. rewrite Edd, Eoi. cbn [option_map].
    destruct (sql_int host (m0 :: mid')) as [m |]; [| intros H; discriminate H].
    destruct (parseInt dd) as [d |]; [| intros H; discriminate H].
    destruct (parseInt oi) as [o |]; [| intros H; discriminate H].
    destruct (match storedLinks with
              | Some text =>
                  match JSON.parse text with
                  | Return v => Return (Some v)
                  | Throw _ => Throw ER_BAD_VALUE
                  end
              | None => Return None
              end) as [document | err] eqn:Edoc;
      [| intros H; discriminate H].
    cbn [obind].
    match goal with
    | |- context [execute (insertLesson e ?l) w1] =>
        pose proof (execute_insertLesson_db e l w1) as Hex;
        destruct (execute (insertLesson e l) w1) as [[[] | err] w2];
        [| intros H; discriminate H];
        intros _; exists l
    end.
    cbn [drip_days order_index lesson_module_id lesson_id title description_text
         links video_url] in Hex |- *.
    destruct Hex as [Hd [Ho [Hmod Hw2]]].
    rewrite Hdb, Hout in Hw2. rewrite Hdb in Hmod.
    split; [reflexivity |]. split; [exact Hmod |].
    split; [reflexivity |]. split; [reflexivity |].
    split; [exact Hd |]. split; [exact Ho |].
    split; [reflexivity |]. split; [reflexivity |]. split; [reflexivity |].
    split.
    { intros Hf. apply Hnone in Hf. subst storedLinks.
      injection Edoc as <-. reflexivity. }
    split.
    { intros text Ht Hne. destruct (Hsome text Ht Hne) as [v [Hv Hst]].
      subst storedLinks. exists v.
      destruct (JSON.parse (JSON.stringify v)) as [v' | err];
        [| discriminate Edoc].
      injection Edoc as <-. exists v'. repeat split; assumption. }
    split; [reflexivity |].
    subst w2. cbn [fst snd db blobs outbox].
    split; [reflexivity |]. split; [reflexivity |]. split; [reflexivity |].
    split; [reflexivity |].
    apply selectLessons_In. cbn [Lessons lesson_module_id].
    split; [apply in_or_app; right; left; reflexivity | reflexivity]. }
  assert (Hlinks : forall videoUrl w1,
    db w1 = db w -> outbox w1 = outbox w ->
    let r :=
      match (if truthy_str (linksJson form) then
               match linksJson form with
               | Some text => do v <- JSON.parse text; Return (Some (JSON.stringify v))
               | None => Return None
               end
             else Return None) with
      | Throw _ =>
          (message 400 (js "Os links devem estar em formato JSON válido."), w1)
      | Return storedLinks =>
          tryCatch
            (l <- lift (lessonOfForm host e (m0 :: mid') (t0 :: ttl') videoUrl
                          form storedLinks) ;;
             execute (insertLesson e l) ;;;
             ret {| status := 201;
                    body := JSON.Obj
                      [(js "message", JSON.Str (js "Aula criada com sucesso!"));
                       (js "lessonId", num (insertId e));
                       (js "videoUrl", JSON.Str videoUrl)] |})
            (fun _ => message 500 (js "Erro interno ao criar aula."))
            w1
      end in
    status (fst r) = 201 ->
    exists l,
      sql_int host (m0 :: mid') = Some (lesson_module_id l) /\
      moduleExists (db w) (lesson_module_id l) = true /\
      option_map parseInt (Some dd) = Some (Some (drip_days l)) /\
      option_map parseInt (Some oi) = Some (Some (order_index l)) /\
      inIntRange (drip_days l) = true /\ inIntRange (order_index l) = true /\
      lesson_id l = insertId e /\ title l = t0 :: ttl' /\
      description_text l
      = (if truthy_str (descriptionText form) then descriptionText form else None) /\
      (truthy_str (linksJson form) = false -> links l = None) /\
      (forall text, linksJson form = Some text -> text <> [] ->
         exists v v', JSON.parse text = Return v
                      /\ JSON.parse (JSON.stringify v) = Return v'
                      /\ links l = Some v') /\
      video_url l = videoUrl /\ blobs (snd r) = blobs w1 /\
      db (snd r) = {| Users := Users (db w); Courses := Courses (db w);
                      Modules := Modules (db w);
                      Lessons := Lessons (db w) ++ [l];
                      Purchases := Purchases (db w);
                      RefundRequests := RefundRequests (db w) |} /\
      outbox (snd r) = outbox w /\
      fst r = {| status := 201;
                 body := JSON.Obj
                   [(js "message", JSON.Str (js "Aula criada com sucesso!"));
                    (js "lessonId", num (insertId e));
                    (js "videoUrl", JSON.Str (video_url l))] |} /\
      In l (selectLessons (db (snd r)) (lesson_module_id l))).
  { intros videoUrl w1 Hdb Hout.
    destruct (linksJson form) as [[| ch text'] |] eqn:Elinks; cbn [truthy_str].
    - apply Hins; try assumption.
      + split; reflexivity.
      + intros text Ht Hne. injection Ht as <-. contradiction.
    - destruct (JSON.parse (ch :: text')) as [v | err] eqn:Ev; cbn [obind].
      + apply Hins; try assumption.
        * split; intros H; discriminate H.
        * intros text Ht Hne. injection Ht as <-. exists v. split; [exact Ev | reflexivity].
      + cbv zeta. intros H. discriminate H.
    - apply Hins; try assumption.
      + split; reflexivity.
      + intros text Ht. discriminate Ht. }
  destruct (file form) as [[mt buf] |] eqn:Efile.
  - destruct (startsWith (js "video/") mt) eqn:Ev; cbn [negb];
      [| intros H; discriminate H].
    unfold uploadFile.
    destruct (upload_result e) as [url |] eqn:Eup; [| intros H; discriminate H].
    intros H201.
    destruct (Hlinks url
                {| db := db w;
                   blobs := blobs w ++
                     [{| upload_resource_type := js "video";
                         upload_folder := js "cursos_online/" ++ js "aulas_videos";
                         upload_mimetype := mt;
                         upload_buffer := buf |}];
                   outbox := outbox w |} eq_refl eq_refl H201)
      as [l [H1 [H2 [H3 [H4 [H5 [H6 [H7 [H8 [H9 [H10 [H11 [H12 [H13 [H14 [H15 [H16 H17]]]]]]]]]]]]]]]]].
    exists (m0 :: mid'), (t0 :: ttl'), l.
    repeat (split; [first [assumption | reflexivity | discriminate] |]).
    split.
    { intros mt' buf' H. injection H as <- <-.
      split; [exact Ev |]. split; [rewrite H12; reflexivity | exact H13]. }
    repeat (split; [assumption |]). assumption.
  - intros H201.
    destruct (Hlinks [] w eq_refl eq_refl H201)
      as [l [H1 [H2 [H3 [H4 [H5 [H6 [H7 [H8 [H9 [H10 [H11 [H12 [H13 [H14 [H15 [H16 H17]]]]]]]]]]]]]]]]].
    exists (m0 :: mid'), (t0 :: ttl'), l.
    repeat (split; [first [assumption | reflexivity | discriminate] |]).
    split; [intros _; split; assumption |].
    split; [intros mt buf H; discriminate H |].
    repeat (split; [assumption |]). assumption.
Qed.

Lemma lesson_created_witness :
  exists l,
    db (snd (createLesson sampleHost (sampleEnv T0)
               (linksForm None (Some (js "video/mp4", [1; 2; 3]%N))) sampleWorld))
    = {| Users := Users sampleDb; Courses := Courses sampleDb;
         Modules := Modules sampleDb; Lessons := Lessons sampleDb ++ [l];
         Purchases := Purchases sampleDb;
         RefundRequests := RefundRequests sampleDb |}
    /\ upload_result (sampleEnv T0) = Some (video_url l).
Proof.
  destruct (lesson_created sampleHost (sampleEnv T0)
              (linksForm None (Some (js "video/mp4", [1; 2; 3]%N))) sampleWorld
              eq_refl)
    as [mid [ttl [l [_ [_ [_ [_ [_ [_ [_ [_ [_ [_ [_ [_ [_ [_ [_ [_ [Hfile [Hdb _]]]]]]]]]]]]]]]]]]]]].
  exists l. split; [exact Hdb |].
  destruct (Hfile (js "video/mp4") [1; 2; 3]%N eq_refl) as [_ [Hup _]].
  exact Hup.
Defined.
(** ** The routes and their middlewares *)

Lemma jsstring_eqb_eq (a b : jsstring) : jsstring_eqb a b = true <-> a = b.
Proof.
  revert b. induction a as [| x a IH]; intros [| y b]; cbn [jsstring_eqb];
    try (split; [discriminate | discriminate]); [tauto |].
  rewrite andb_true_iff, N.eqb_eq, IH.
  split; [intros [-> ->]; reflexivity | intros H; injection H; auto].
Qed.

Section RouteFacts.

Variable host : Host.

(** The middleware on a header whose second segment is a token. *)
Lemma authMiddleware_token (h tok : jsstring) :
  nth_error (split 32%N h) 1 = Some tok -> tok <> [] ->
  fst (authMiddleware host (Some h))
  = match jwt_verify host tok with
    | Some decoded => Next (claim_id decoded) (claim_type decoded)
    | None => Rejected (message 403 (js "Token inválido ou expirado."))
    end.
Proof.
  intros E Hne. unfold authMiddleware. rewrite E.
  destruct tok as [| ch tok']; [contradiction |].
  cbn [truthy_str negb].
  destruct (jwt_verify host (ch :: tok')); reflexivity.
Qed.

End RouteFacts.



(** X12. The routes of the administrator behind their guard: with a
    verified token whose type is not the text admin, creating a module or a
    lesson is answered 403 and nothing is written or uploaded; with a token
    of type admin the request is the handler's. *)
Theorem admin_routes_guarded
  (host : Host) (e : Env) (h tok : jsstring) (decoded : Claims) (w : World) :
  nth_error (split 32%N h) 1 = Some tok -> tok <> [] ->
  jwt_verify host tok = Some decoded ->
  (claim_type decoded <> js "admin" ->
   (forall c n o,
      serve host e (Some h) (AdminModule c n o) w
      = (message 403
           (js "Acesso negado. Apenas administradores podem acessar esta rota."),
         w))
   /\ (forall f,
         serve host e (Some h) (AdminLesson f) w
         = (message 403
              (js "Acesso negado. Apenas administradores podem acessar esta rota."),
            w)))
  /\ (claim_type decoded = js "admin" ->
      (forall c n o,
         serve host e (Some h) (AdminModule c n o) w = createModule e c n o w)
      /\ (forall f,
            serve host e (Some h) (AdminLesson f) w = createLesson host e f w)).
Proof.
  intros E Hne Hv. unfold serve.
  rewrite (authMiddleware_token host h tok E Hne), Hv. unfold adminGuard.
  split.
  - intros Hty.
    destruct (jsstring_eqb (claim_type decoded) (js "admin")) eqn:Eq.
    + apply jsstring_eqb_eq in Eq. contradiction.
    + split; intros; reflexivity.
  - intros Hty. rewrite (proj2 (jsstring_eqb_eq _ _) Hty).
    split; intros; reflexivity.
Qed.

Lemma admin_routes_guarded_witness :
  serve sampleHost (sampleEnv T0) (Some (js "Bearer a"))
    (AdminLesson (linksForm None None)) sampleWorld
  = (message 403
       (js "Acesso negado. Apenas administradores podem acessar esta rota."),
     sampleWorld).
Proof.
  destruct (admin_routes_guarded sampleHost (sampleEnv T0) (js "Bearer a") (js "a")
              {| claim_id := 1; claim_type := js "user" |} sampleWorld
              eq_refl ltac:(discriminate) eq_refl) as [Huser _].
  destruct (Huser ltac:(discriminate)) as [_ Hlesson].
  apply Hlesson.
Defined.

(** X13. The routes of the user check no role: with any verified token,
    of whatever type, a purchase, the dashboard, the content of a course
    and a refund request are served for the user whose key is the id of
    the token. A token signed for an administrator therefore acts on these
    routes as the user with the administrator's key. *)
Theorem user_routes_ignore_role
  (host : Host) (e : Env) (h tok : jsstring) (decoded : Claims) (w : World) :
  nth_error (split 32%N h) 1 = Some tok -> tok <> [] ->
  jwt_verify host tok = Some decoded ->
  (forall c, serve host e (Some h) (UserPurchase c) w
             = purchaseCourse e (claim_id decoded) c w)
  /\ serve host e (Some h) UserDashboard w
     = getPurchasedCourses e (claim_id decoded) w
  /\ (forall c, serve host e (Some h) (UserCourseContent c) w
                = getCourseContent host e (claim_id decoded) c w)
  /\ (forall c m, serve host e (Some h) (UserRefund c m) w
                  = requestRefund host e (claim_id decoded) c m w).
Proof.
  intros E Hne Hv. unfold serve.
  rewrite (authMiddleware_token host h tok E Hne), Hv.
  repeat split; intros; reflexivity.
Qed.

Lemma user_routes_ignore_role_witness :
  jwt_verify staffHost (js "z") = Some {| claim_id := 1; claim_type := js "admin" |}
  /\ serve staffHost (sampleEnv T0) (Some (js "Bearer z")) (UserPurchase (Some 5))
       newcomerWorld
     = purchaseCourse (sampleEnv T0) 1 (Some 5) newcomerWorld
  /\ status (fst (serve staffHost (sampleEnv T0) (Some (js "Bearer z"))
                    (UserPurchase (Some 5)) newcomerWorld)) = 201.
Proof.
  destruct (user_routes_ignore_role staffHost (sampleEnv T0) (js "Bearer z") (js "z")
              {| claim_id := 1; claim_type := js "admin" |} newcomerWorld
              eq_refl ltac:(discriminate) eq_refl) as [Hbuy _].
  split; [reflexivity |].
  split; [apply Hbuy |].
  rewrite (Hbuy (Some 5)). reflexivity.
Defined.

(** ** Creating modules *)

(** X14. Creating a module: without a course id (or with the id 0),
    without a name or without an order index the answer is 400, and for a
    course that does not exist it is 404; an answer 201 means that the
    course exists, that [parseInt] reads the order index as an integer of
    the INT range, and that exactly one module was appended, with the key
    the database gave, which the listing of the course then selects; any
    other answer leaves the world as it was. *)
Theorem module_creation
  (e : Env) (c : option Z) (n : option jsstring) (o : option JSON.json)
  (w : World) :
  let r := createModule e c n o w in
  (truthy_id c = false \/ truthy_str n = false \/ o = None ->
   r = (message 400
          (js "ID do curso, nome do módulo e índice de ordem são obrigatórios."),
        w))
  /\ (forall cid, c = Some cid -> cid <> 0 -> truthy_str n = true -> o <> None ->
        ~ hasCourse (db w) cid ->
        r = (message 404 (js "Curso não encontrado."), w))
  /\ (status (fst r) = 201 ->
      exists cid nm oi k,
        c = Some cid /\ cid <> 0 /\ n = Some nm /\ nm <> [] /\ o = Some oi /\
        hasCourse (db w) cid /\
        parseInt (ToString oi) = Some k /\ inIntRange k = true /\
        snd r = {| db := {| Users := Users (db w); Courses := Courses (db w);
                            Modules := Modules (db w) ++
                              [{| module_id := insertId e;
                                  module_course_id := cid;
                                  module_name := nm;
                                  module_order_index := k |}];
                            Lessons := Lessons (db w);
                            Purchases := Purchases (db w);
                            RefundRequests := RefundRequests (db w) |};
                   blobs := blobs w; outbox := outbox w |} /\
        fst r = {| status := 201;
                   body := JSON.Obj
                     [(js "message", JSON.Str (js "Módulo criado com sucesso!"));
                      (js "moduleId", num (insertId e))] |} /\
        In {| module_id := insertId e; module_course_id := cid;
              module_name := nm; module_order_index := k |}
           (selectModules (db (snd r)) cid))
  /\ (status (fst r) <> 201 -> snd r = w).
Proof.
  intros r. subst r. unfold createModule.
  destruct c as [cid |].
  2:{ split; [reflexivity |]. split; [intros ? H; discriminate H |].
      split; [intros H; discriminate H | reflexivity]. }
  destruct n as [nm |].
  2:{ split; [reflexivity |]. split; [intros ? _ _ H; discriminate H |].
      split; [intros H; discriminate H | reflexivity]. }
  destruct o as [oi |].
  2:{ split; [reflexivity |]. split; [intros ? _ _ _ H; contradiction |].
      split; [intros H; discriminate H | reflexivity]. }
  unfold truthy_id.
  destruct (Z.eqb_spec cid 0) as [E0 | E0]; cbn [negb orb].
  { split; [reflexivity |].
    split; [intros ? H; injection H as <-; contradiction |].
    split; [intros H; discriminate H | reflexivity]. }
  destruct nm as [| ch nm']; cbn [truthy_str negb].
  { split; [reflexivity |].
    split; [intros ? _ _ H; discriminate H |].
    split; [intros H; discriminate H | reflexivity]. }
  unfold tryCatch, bind, query, ret, execute, insertModule. cbv beta iota zeta.
  split.
  { intros [H | [H | H]]; discriminate H. }
  destruct (selectCourse (db w) cid) as [| x xs] eqn:Ec.
  { split; [reflexivity |].
    split; [intros H; discriminate H | reflexivity]. }
  assert (Hhas : hasCourse (db w) cid).
  { assert (Hin : In x (selectCourse (db w) cid)) by (rewrite Ec; left; reflexivity).
    apply selectCourse_In in Hin. exists x. exact Hin. }
  split.
  { intros cid' H. injection H as <-. intros _ _ _ Hn. contradiction. }
  destruct (parseInt (ToString oi)) as [k |] eqn:Ek.
  2:{ split; [intros H; discriminate H | reflexivity]. }
  destruct (inIntRange k) eqn:Er; cbn [negb].
  2:{ split; [intros H; discriminate H | reflexivity]. }
  rewrite (hasCourse_courseExists (db w) cid Hhas).
  split; [| intros H; exfalso; apply H; reflexivity].
  intros _. exists cid, (ch :: nm'), oi, k.
  repeat (split; [first [reflexivity | assumption | discriminate] |]).
  apply selectModules_In. cbn [snd db with_db Modules module_course_id].
  split; [apply in_or_app; right; left; reflexivity | reflexivity].
Qed.

Lemma module_creation_witness :
  createModule (sampleEnv T0) (Some 6) (Some (js "Extras"))
    (Some (JSON.Str (js "2"))) sampleWorld
  = (message 404 (js "Curso não encontrado."), sampleWorld).
Proof.
  destruct (module_creation (sampleEnv T0) (Some 6) (Some (js "Extras"))
              (Some (JSON.Str (js "2"))) sampleWorld) as [_ [H404 _]].
  apply (H404 6 eq_refl); [discriminate | reflexivity | discriminate |].
  intros [x [Hin Hid]]. destruct Hin as [<- | []]. discriminate Hid.
Defined.

(** ** Accounts *)

Section AccountFacts.

Variable pf : Platform.



End AccountFacts.





(** X17. A login never writes, and what it refuses it refuses alike: an
    email no row has and a wrong password for an existing account get the
    same answer 401 with the same message, for users and for
    administrators; an absent or empty field is answered 400. An answer 200
    of the user login means that bcrypt accepted the password against the
    hash of the first row selected for the email. *)
Theorem login_refusals
  (pf : Platform) (e : Env) (s : AccountStore) :
  (forall email password,
     snd (loginUser pf e email password s) = s
     /\ snd (loginAdmin pf e email password s) = s)
  /\ (forall email password,
        truthy_str email = false \/ truthy_str password = false ->
        fst (loginUser pf e email password s)
        = message 400 (js "Email e senha são obrigatórios.")
        /\ fst (loginAdmin pf e email password s)
           = message 400 (js "Usuário e senha são obrigatórios."))
  /\ (forall em pw, em <> [] -> pw <> [] ->
        (selectAccount pf s em = []
         \/ exists a rest, selectAccount pf s em = a :: rest
                           /\ bcrypt_compare pf pw (user_password_hash a) = false) ->
        fst (loginUser pf e (Some em) (Some pw) s)
        = message 401 (js "Email ou senha inválidos."))
  /\ (forall un pw, un <> [] -> pw <> [] ->
        (selectAdmin pf s un = []
         \/ exists a rest, selectAdmin pf s un = a :: rest
                           /\ bcrypt_compare pf pw (admin_password_hash a) = false) ->
        fst (loginAdmin pf e (Some un) (Some pw) s)
        = message 401 (js "Usuário ou senha inválidos."))
  /\ (forall email password,
        status (fst (loginUser pf e email password s)) = 200 ->
        exists em pw a rest,
          email = Some em /\ password = Some pw /\
          selectAccount pf s em = a :: rest /\
          bcrypt_compare pf pw (user_password_hash a) = true).
Proof.
  split; [| split; [| split; [| split]]].
  - intros email password. unfold loginUser, loginAdmin. split.
    + destruct email as [em |]; [| reflexivity].
      destruct password as [pw |]; [| reflexivity].
      destruct (negb (truthy_str (Some em)) || negb (truthy_str (Some pw)));
        [reflexivity |].
      destruct (selectAccount pf s em) as [| a rest]; [reflexivity |].
      destruct (negb (bcrypt_compare pf pw (user_password_hash a)));
        [reflexivity |].
      destruct (jwt_sign pf _ _ _); reflexivity.
    + destruct email as [em |]; [| reflexivity].
      destruct password as [pw |]; [| reflexivity].
      destruct (negb (truthy_str (Some em)) || negb (truthy_str (Some pw)));
        [reflexivity |].
      destruct (selectAdmin pf s em) as [| a rest]; [reflexivity |].
      destruct (negb (bcrypt_compare pf pw (admin_password_hash a)));
        [reflexivity |].
      destruct (jwt_sign pf _ _ _); reflexivity.
  - intros email password H. unfold loginUser, loginAdmin.
    destruct email as [em |]; [| split; reflexivity].
    destruct password as [pw |]; [| split; reflexivity].
    destruct H as [H | H]; rewrite H; cbn [negb orb].
    + split; reflexivity.
    + destruct (negb (truthy_str (Some em))); split; reflexivity.
  - intros em pw He Hp H. unfold loginUser.
    destruct em as [| e0 em']; [contradiction |].
    destruct pw as [| p0 pw']; [contradiction |].
    cbn [truthy_str negb orb].
    destruct H as [-> | [a [rest [-> Hcmp]]]]; [reflexivity |].
    rewrite Hcmp. reflexivity.
  - intros un pw Hu Hp H. unfold loginAdmin.
    destruct un as [| u0 un']; [contradiction |].
    destruct pw as [| p0 pw']; [contradiction |].
    cbn [truthy_str negb orb].
    destruct H as [-> | [a [rest [-> Hcmp]]]]; [reflexivity |].
    rewrite Hcmp. reflexivity.
  - intros email password. unfold loginUser.
    destruct email as [em |]; [| intros H; discriminate H].
    destruct password as [pw |]; [| intros H; discriminate H].
    destruct (negb (truthy_str (Some em)) || negb (truthy_str (Some pw)));
      [intros H; discriminate H |].
    destruct (selectAccount pf s em) as [| a rest] eqn:Esel;
      [intros H; discriminate H |].
    destruct (bcrypt_compare pf pw (user_password_hash a)) eqn:Ecmp; cbn [negb];
      [| intros H; discriminate H].
    intros _. exists em, pw, a, rest.
    split; [reflexivity |]. split; [reflexivity |].
    split; [exact Esel | exact Ecmp].
Qed.

Lemma login_refusals_witness :
  fst (loginUser samplePlatform (sampleEnv T0) (Some (js "ana@example.com"))
         (Some (js "errada")) sampleStore)
  = fst (loginUser samplePlatform (sampleEnv T0) (Some (js "ninguem@example.com"))
           (Some (js "errada")) sampleStore).
Proof.
  destruct (login_refusals samplePlatform (sampleEnv T0) sampleStore)
    as [_ [_ [H401 _]]].
  rewrite (H401 (js "ana@example.com") (js "errada")
             ltac:(discriminate) ltac:(discriminate)).
  - rewrite (H401 (js "ninguem@example.com") (js "errada")
               ltac:(discriminate) ltac:(discriminate)).
    + reflexivity.
    + left. reflexivity.
  - right. eexists. exists []. split; reflexivity.
Defined.


